(** * STUDENT-PANNEL-PRO: progress store, offline queue, backend handlers, quiz engine

    A shallow embedding of the data-handling code of the student practice
    panel, and the properties stated about it.  The modules follow the source
    files: [Progress] (js/progress.js), [Backend] (the Apps Script web app
    that the client of backend/api.js talks to: it issues and checks
    [activeSessionToken]), [Api] (backend/api.js) and [Engine] (js/engine.js).

    Conventions of the embedding.
    - JavaScript objects used as dictionaries are finite maps ([gmap string _])
      of their own properties; an object whose keys are walked with
      [Object.keys] is an association list in key order.  For a key that is
      not an own property the code finds what a plain object inherits from
      [Object.prototype] ([Progress.inherited]): a truthy built-in object,
      on which a write is lost to the store.  The built-in objects are as
      the language defines them whenever a property is looked up, and a
      write that lands on one of them does not throw; where a statement is
      about what the code stores on such a path being avoided, it says so.
    - A field that the code reads as [x.f || d] is an [option]; [None] stands
      for an absent (or falsy, non-numeric) value and the default is written
      out with [default].  A request field tested with [!x] is a string, the
      empty string standing for an absent one.
    - Scores, percentages, counters and time stamps are integers ([Z]); the
      numbers of a question file are rationals ([Q]).  The one floating-point
      computation of the code, [Math.round((score / total) * 100)], and the
      SHA-256 digest of the Apps Script runtime are operations of the
      platform ([Platform]).
    - Strings are ASCII: [trim] removes the ASCII white space and case
      conversion acts on the letters A-Z and a-z.  A character outside
      ASCII is the sequence of its UTF-8 bytes.
    - Values drawn from the environment (clock, UUIDs, shuffle order, outcome
      of a request) are explicit arguments.
    - [localStorage] and [sessionStorage] are given by the parsed values of
      the keys the code uses; writes succeed.  Cells of the spreadsheet hold
      the strings and numbers written to them.
    - Changes of the page that carry no data (styles, scrolling, the marking
      of an unanswered card) are left out; of the page, a card keeps what the
      scoring reads back from it. *)

From stdpp Require Import gmap strings list fin_maps.
From Stdlib Require Import ZArith QArith Ascii String.
From Stdlib Require Floats Uint63.

Local Close Scope Q_scope.
Local Open Scope string_scope.

(** ** Platform operations *)

Class Platform := {
  (** [Math.round((score / total) * 100)] as the JavaScript engine computes it
      (meaningful for [total > 0]). *)
  Math_round_pct : Z → Z → Z;
  (** [Utilities.computeDigest(Utilities.DigestAlgorithm.SHA_256, input)]:
      the digest as an array of signed bytes. *)
  computeDigest_SHA_256 : string → list Z
}.

(** Case analysis on a key comparison of the code. *)
Ltac key_cases x y H :=
  destruct (decide (x = y)) as [H|H];
  [rewrite ?(bool_decide_eq_true_2 _ H) | rewrite ?(bool_decide_eq_false_2 _ H)].

(** ** js/progress.js *)

Module Progress.

(** A stored result of one set: [{score, total, percentage, date, timestamp,
    timeTaken}]. *)
Record Entry := mkEntry {
  score : option Z;
  total : option Z;
  percentage : option Z;
  date : option string;
  timestamp : option Z;
  timeTaken : option Z
}.

(** [_meta.lastAttempted]. *)
Record Attempt := mkAttempt {
  la_subject : string;
  la_level : string;
  la_set : string;
  la_percentage : Z;
  la_date : string;
  la_timestamp : option Z
}.

(** [_meta]: [lastAttempted] and the profile fields other modules keep
    there. *)
Record Meta := mkMeta {
  lastAttempted : option Attempt;
  otherFields : gmap string string
}.

(** The object under [STORAGE_KEY]: the reserved key [_meta] and one
    dictionary per subject, [subject -> level -> set -> Entry].  The key
    [_meta] is held in its own field, so a subject is named otherwise. *)
Record Store := mkStore {
  meta : option Meta;
  subjects : gmap string (gmap string (gmap string Entry))
}.

Definition emptyStore : Store := mkStore None ∅.

(** [localStorage.getItem(STORAGE_KEY)], parsed; [None] when the key is
    missing or does not hold an object. *)
Definition LocalStorage := option Store.

(** [getAll()]. *)
Definition getAll (ls : LocalStorage) : Store := default emptyStore ls.

(** [data[subject]?.[level]?.[set]]. *)
Definition lookupEntry (m : gmap string (gmap string (gmap string Entry)))
    (subject level set : string) : option Entry :=
  m !! subject ≫= λ lv, lv !! level ≫= λ st, st !! set.

(** [getSetResult(subject, level, set)]: the entry the store holds at the
    path, if any.  (Where a key of the path is no own property and names an
    inherited one, the code returns what it finds on the built-in object,
    which is no entry of the store.) *)
Definition getSetResult (ls : LocalStorage) (subject level set : string) : option Entry :=
  lookupEntry (subjects (getAll ls)) subject level set.

(** [e?.percentage || 0]. *)
Definition pctOf (e : option Entry) : Z := default 0%Z (e ≫= percentage).

(** [e?.timestamp || 0]. *)
Definition tsOf (e : option Entry) : Z := default 0%Z (e ≫= timestamp).

(** The names of the properties a plain object inherits from
    [Object.prototype]. *)
Definition OBJECT_PROTOTYPE : list string :=
  ["constructor"; "__defineGetter__"; "__defineSetter__"; "hasOwnProperty";
   "__lookupGetter__"; "__lookupSetter__"; "isPrototypeOf"; "propertyIsEnumerable";
   "toString"; "toLocaleString"; "valueOf"; "__proto__"].

Definition inherited (k : string) : bool := bool_decide (k ∈ OBJECT_PROTOTYPE).

(** [obj[k]] for a plain object with the own properties [m]: the own
    property, a built-in object the key inherits, or [undefined]. *)
Inductive Slot (A : Type) :=
| Own (a : A)
| Inherited
| Absent.
Arguments Own {A} a.
Arguments Inherited {A}.
Arguments Absent {A}.

Definition slotOf {A} (m : gmap string A) (k : string) : Slot A :=
  match m !! k with
  | Some a => Own a
  | None => if inherited k then Inherited else Absent
  end.

(** [obj[set] = e]: an own property is written or created; on the
    inherited [__proto__] the assignment calls the setter of
    [Object.prototype], which gives the object a prototype and no own
    property (what the object inherits from that prototype is not
    followed: [leavesStore] reports a merge in which this happens). *)
Definition assign (lvl : gmap string Entry) (set : string) (e : Entry) :
    gmap string Entry :=
  if bool_decide (set = "__proto__") && bool_decide (lvl !! set = None) then lvl
  else <[set := e]> lvl.

(** Whether the path [d[subject][level]] leaves the store: [d[subject]], or
    [d[subject][level]], is a built-in object the key inherits. *)
Definition leaves (m : gmap string (gmap string (gmap string Entry)))
    (subject level : string) : bool :=
  match slotOf m subject with
  | Inherited => true
  | _ => match slotOf (default ∅ (m !! subject)) level with
         | Inherited => true
         | _ => false
         end
  end.

(** [if (!d[subject]) d[subject] = {}; if (!d[subject][level])
    d[subject][level] = {}]: an inherited object is truthy, so that nothing
    is created under its key. *)
Definition ensureLevel (m : gmap string (gmap string (gmap string Entry)))
    (subject level : string) : gmap string (gmap string (gmap string Entry)) :=
  match slotOf m subject with
  | Inherited => m
  | _ =>
      let sub := default ∅ (m !! subject) in
      match slotOf sub level with
      | Inherited => <[subject := sub]> m
      | _ => <[subject := <[level := default ∅ (sub !! level)]> sub]> m
      end
  end.

(** [if (!d[subject]) d[subject] = {}; if (!d[subject][level])
    d[subject][level] = {}; d[subject][level][set] = e]; on a path that
    leaves the store the entry lands on the built-in object. *)
Definition putEntry (m : gmap string (gmap string (gmap string Entry)))
    (subject level set : string) (e : Entry) :
    gmap string (gmap string (gmap string Entry)) :=
  match slotOf m subject with
  | Inherited => m
  | _ =>
      let sub := default ∅ (m !! subject) in
      match slotOf sub level with
      | Inherited => <[subject := sub]> m
      | _ =>
          let lvl := default ∅ (sub !! level) in
          <[subject := <[level := assign lvl set e]> sub]> m
      end
  end.

(** [{ ...(data._meta || {}), lastAttempted: a }]. *)
Definition withLastAttempted (m : option Meta) (a : option Attempt) : Meta :=
  mkMeta a (otherFields (default (mkMeta None ∅) m)).

Section WithPlatform.
Context {PF : Platform}.

(** [saveResult(subject, level, set, score, total, timeTaken = 0)];
    [today] is the formatted [new Date()] and [now] is [Date.now()].
    Returns the storage after [setItem] and the percentage. *)
Definition saveResult (ls : LocalStorage) (today : string) (now : Z)
    (subject level set : string) (score total : Z) (timeTaken : option Z) :
    LocalStorage * Z :=
  let data := getAll ls in
  let pct := Math_round_pct score total in
  let best := pctOf (lookupEntry (subjects data) subject level set) in
  let meta' := withLastAttempted (meta data)
                 (Some (mkAttempt subject level set pct today (Some now))) in
  let subjects' :=
    if bool_decide (best ≤ pct)%Z
    then putEntry (subjects data) subject level set
           (mkEntry (Some score) (Some total) (Some pct) (Some today) (Some now)
                    (Some (default 0%Z timeTaken)))
    else subjects data in
  (Some (mkStore (Some meta') subjects'), pct).

End WithPlatform.

(** A value of the remote object: an object (of type [A]) or anything
    else (string, number, boolean, null), which the merge skips. *)
Inductive RemoteVal (A : Type) :=
| RObj (a : A)
| RScalar.
Arguments RObj {A} a.
Arguments RScalar {A}.

(** The remote progress object, each dictionary in [Object.keys] order.
    The value of a set is an object ([Some]; a string, a number or a
    boolean reads like an object without fields) or [null] ([None]). *)
Definition RemoteSets := list (string * option Entry).
Definition RemoteLevels := list (string * RemoteVal RemoteSets).
Definition RemoteProgress := list (string * RemoteVal RemoteLevels).

(** The test of line 325:
    [!localEntry || remotePct > localPct ||
     (remotePct === localPct && remoteTs > localTs)]. *)
Definition remoteWins (localEntry : option Entry) (remoteEntry : Entry) : bool :=
  let remotePct := pctOf (Some remoteEntry) in
  let localPct := pctOf localEntry in
  negb (bool_decide (is_Some localEntry))
  || bool_decide (localPct < remotePct)%Z
  || (bool_decide (remotePct = localPct)
      && bool_decide (tsOf localEntry < tsOf (Some remoteEntry))%Z).

(** The entry written at lines 327-334. *)
Definition fromRemote (remoteEntry : Entry) : Entry :=
  mkEntry (score remoteEntry) (total remoteEntry)
          (Some (pctOf (Some remoteEntry)))
          (Some (default "" (date remoteEntry)))
          (Some (tsOf (Some remoteEntry)))
          (Some (default 0%Z (timeTaken remoteEntry))).

(** Lines 337-345: the most recent attempt seen so far. *)
Definition newerAttempt (latest : option Attempt) (subject level set : string)
    (remoteEntry : Entry) : option Attempt :=
  let entryTs := tsOf (Some remoteEntry) in
  match latest with
  | None => Some (mkAttempt subject level set (pctOf (Some remoteEntry))
                            (default "" (date remoteEntry)) (Some entryTs))
  | Some a =>
      if bool_decide (default 0%Z (la_timestamp a) < entryTs)%Z
      then Some (mkAttempt subject level set (pctOf (Some remoteEntry))
                           (default "" (date remoteEntry)) (Some entryTs))
      else latest
  end.

(** A built-in object the set inherits, or a remote value that is
    [null], read with [e?.percentage || 0] and [e?.timestamp || 0]: an
    object without fields. *)
Definition noFields : Entry := mkEntry None None None None None None.

(** [local[subject][level][set]] as line 320 reads it from an object of the
    store. *)
Definition localEntryOf (lvl : gmap string Entry) (set : string) : option Entry :=
  match slotOf lvl set with
  | Own e => Some e
  | Inherited => Some noFields
  | Absent => None
  end.

(** The test of line 338:
    [!latestAttempt || entryTs > (latestAttempt.timestamp || 0)]. *)
Definition attemptNewer (latest : option Attempt) (entryTs : Z) : bool :=
  match latest with
  | None => true
  | Some a => bool_decide (default 0%Z (la_timestamp a) < entryTs)%Z
  end.

(** The innermost loop, over the sets of one level, for a call that runs to
    its end: a value that is [null] has been passed without being read
    ([setsThrow] tells when it is read). *)
Fixpoint mergeSets (subject level : string) (sets : RemoteSets)
    (acc : gmap string Entry * option Attempt) : gmap string Entry * option Attempt :=
  match sets with
  | [] => acc
  | (set, v) :: rest =>
      if bool_decide (set = "_meta") then mergeSets subject level rest acc
      else match v with
           | None => mergeSets subject level rest acc
           | Some remoteEntry =>
               let localEntry := localEntryOf acc.1 set in
               let m := if remoteWins localEntry remoteEntry
                        then assign acc.1 set (fromRemote remoteEntry) else acc.1 in
               mergeSets subject level rest
                 (m, newerAttempt acc.2 subject level set remoteEntry)
           end
  end.

(** The loop over the levels of one subject.  Under a level that the
    subject inherits, the entries land on the built-in object; the attempts
    are still compared. *)
Fixpoint mergeLevels (subject : string) (levels : RemoteLevels)
    (acc : gmap string (gmap string Entry) * option Attempt) :
    gmap string (gmap string Entry) * option Attempt :=
  match levels with
  | [] => acc
  | (level, v) :: rest =>
      if bool_decide (level = "_meta") then mergeLevels subject rest acc
      else match v with
           | RScalar => mergeLevels subject rest acc
           | RObj sets =>
               match slotOf acc.1 level with
               | Inherited =>
                   let r := mergeSets subject level sets (∅, acc.2) in
                   mergeLevels subject rest (acc.1, r.2)
               | _ =>
                   let r := mergeSets subject level sets
                              (default ∅ (acc.1 !! level), acc.2) in
                   mergeLevels subject rest (<[level := r.1]> (acc.1), r.2)
               end
           end
  end.

(** The outer loop, over the subjects; a subject that the store inherits is
    treated like a level that is inherited. *)
Fixpoint mergeSubjects (remote : RemoteProgress)
    (acc : gmap string (gmap string (gmap string Entry)) * option Attempt) :
    gmap string (gmap string (gmap string Entry)) * option Attempt :=
  match remote with
  | [] => acc
  | (subject, v) :: rest =>
      if bool_decide (subject = "_meta") || bool_decide (subject = "success")
      then mergeSubjects rest acc
      else match v with
           | RScalar => mergeSubjects rest acc
           | RObj levels =>
               match slotOf acc.1 subject with
               | Inherited =>
                   let r := mergeLevels subject levels (∅, acc.2) in
                   mergeSubjects rest (acc.1, r.2)
               | _ =>
                   let r := mergeLevels subject levels
                              (default ∅ (acc.1 !! subject), acc.2) in
                   mergeSubjects rest (<[subject := r.1]> (acc.1), r.2)
               end
           end
  end.

(** [_mergeBackendData(remote)], for a call that runs to its end (a call
    that throws writes nothing: [localStorage.setItem] is its last
    statement; [mergeThrows] tells when it throws). *)
Definition _mergeBackendData (ls : LocalStorage) (remote : RemoteProgress) : LocalStorage :=
  let local := getAll ls in
  let latestAttempt := meta local ≫= lastAttempted in
  let r := mergeSubjects remote (subjects local, latestAttempt) in
  Some (mkStore (Some (withLastAttempted (meta local) r.2)) r.1).

(** Whether the loops read a field of a remote value that is [null]
    ([remoteEntry.score] at line 328, [remoteEntry.date] at line 342), which
    throws a [TypeError]: the test of line 325 holds for it, or the attempt
    seen so far is none or older than the time 0. *)
Fixpoint setsThrow (subject level : string) (sets : RemoteSets)
    (acc : gmap string Entry * option Attempt) : bool :=
  match sets with
  | [] => false
  | (set, v) :: rest =>
      if bool_decide (set = "_meta") then setsThrow subject level rest acc
      else match v with
           | None =>
               remoteWins (localEntryOf acc.1 set) noFields
               || attemptNewer acc.2 0
               || setsThrow subject level rest acc
           | Some remoteEntry =>
               setsThrow subject level rest
                 (mergeSets subject level [(set, v)] acc)
           end
  end.

Fixpoint levelsThrow (subject : string) (levels : RemoteLevels)
    (acc : gmap string (gmap string Entry) * option Attempt) : bool :=
  match levels with
  | [] => false
  | (level, v) :: rest =>
      if bool_decide (level = "_meta") then levelsThrow subject rest acc
      else match v with
           | RScalar => levelsThrow subject rest acc
           | RObj sets =>
               setsThrow subject level sets (default ∅ (acc.1 !! level), acc.2)
               || levelsThrow subject rest (mergeLevels subject [(level, v)] acc)
           end
  end.

Fixpoint subjectsThrow (remote : RemoteProgress)
    (acc : gmap string (gmap string (gmap string Entry)) * option Attempt) : bool :=
  match remote with
  | [] => false
  | (subject, v) :: rest =>
      if bool_decide (subject = "_meta") || bool_decide (subject = "success")
      then subjectsThrow rest acc
      else match v with
           | RScalar => subjectsThrow rest acc
           | RObj levels =>
               levelsThrow subject levels (default ∅ (acc.1 !! subject), acc.2)
               || subjectsThrow rest (mergeSubjects [(subject, v)] acc)
           end
  end.

(** Whether the loops reach a built-in object: a level under a subject the
    store inherits, a set under a level the subject inherits, or a write to
    the inherited [__proto__] of a level. *)
Definition setLeaves (lvl : gmap string Entry) (p : string * option Entry) : bool :=
  bool_decide (p.1 = "__proto__") && bool_decide (lvl !! p.1 = None)
  && match p.2 with
     | Some remoteEntry => remoteWins (Some noFields) remoteEntry
     | None => false
     end.

Definition levelLeaves (sub : gmap string (gmap string Entry))
    (p : string * RemoteVal RemoteSets) : bool :=
  negb (bool_decide (p.1 = "_meta"))
  && match p.2 with
     | RScalar => false
     | RObj sets =>
         match slotOf sub p.1 with
         | Inherited => existsb (λ q, negb (bool_decide (q.1 = "_meta"))) sets
         | _ => existsb (setLeaves (default ∅ (sub !! p.1))) sets
         end
     end.

Definition subjectLeaves (m : gmap string (gmap string (gmap string Entry)))
    (p : string * RemoteVal RemoteLevels) : bool :=
  negb (bool_decide (p.1 = "_meta") || bool_decide (p.1 = "success"))
  && match p.2 with
     | RScalar => false
     | RObj levels =>
         match slotOf m p.1 with
         | Inherited =>
             existsb (λ q, negb (bool_decide (q.1 = "_meta"))
                           && match q.2 with RObj _ => true | RScalar => false end)
                     levels
         | _ => existsb (levelLeaves (default ∅ (m !! p.1))) levels
         end
     end.

Definition leavesStore (ls : LocalStorage) (remote : RemoteProgress) : bool :=
  existsb (subjectLeaves (subjects (getAll ls))) remote.

(** Whether [_mergeBackendData(remote)] throws.  When the loops stay in the
    store, it throws when a [null] is read; when they reach a built-in
    object, what that object holds decides, which is given as
    [builtinThrows]. *)
Definition mergeThrows (builtinThrows : bool) (ls : LocalStorage)
    (remote : RemoteProgress) : bool :=
  if leavesStore ls remote then builtinThrows
  else
    let local := getAll ls in
    subjectsThrow remote (subjects local, meta local ≫= lastAttempted).

(** Lookup in a dictionary given in key order. *)
Fixpoint assoc {A} (k : string) (l : list (string * A)) : option A :=
  match l with
  | [] => None
  | (k', v) :: rest => if bool_decide (k' = k) then Some v else assoc k rest
  end.

(** [remote[subject][level][set]], when the path exists and the value is
    not [null]. *)
Definition remoteAt (remote : RemoteProgress) (subject level set : string) :
    option Entry :=
  match assoc subject remote with
  | Some (RObj levels) =>
      match assoc level levels with
      | Some (RObj sets) => mjoin (assoc set sets)
      | _ => None
      end
  | _ => None
  end.

(** The keys the loops pass over: [_meta] at each depth, and [success]
    among the subjects. *)
Definition reservedPath (subject level set : string) : bool :=
  bool_decide (subject = "_meta") || bool_decide (subject = "success")
  || bool_decide (level = "_meta") || bool_decide (set = "_meta").

Definition remoteEntryAt (remote : RemoteProgress) (subject level set : string) :
    option Entry :=
  if reservedPath subject level set then None
  else remoteAt remote subject level set.


(** The same for a set [k] of a level of the store, where [old] is the own
    property: when there is none and the set names an inherited property,
    the test of line 325 reads the built-in object, and a write to
    [__proto__] creates no property. *)
Definition mergedSet (k : string) (old : option Entry) (reached : option Entry) :
    option Entry :=
  match reached with
  | Some re =>
      let localEntry :=
        match old with
        | Some e => Some e
        | None => if inherited k then Some noFields else None
        end in
      if remoteWins localEntry re
      then if bool_decide (k = "__proto__") && bool_decide (old = None)
           then None else Some (fromRemote re)
      else old
  | None => old
  end.

(** [sm[level]?.[set]]. *)
Definition lookup2 (sm : gmap string (gmap string Entry)) (level set : string) :
    option Entry :=
  sm !! level ≫= λ st, st !! set.

Definition reached2 (levels : RemoteLevels) (level set : string) : option Entry :=
  if bool_decide (level = "_meta") || bool_decide (set = "_meta") then None
  else match assoc level levels with
       | Some (RObj sets) => mjoin (assoc set sets)
       | _ => None
       end.

(** The subjects the outer loop passes over. *)
Definition reservedSubject (subject : string) : bool :=
  bool_decide (subject = "_meta") || bool_decide (subject = "success").

(** Keys of a JavaScript object are pairwise distinct, at each depth. *)
Definition setsWf (sets : RemoteSets) : Prop := NoDup sets.*1.
Definition levelsWf (levels : RemoteLevels) : Prop :=
  NoDup levels.*1 ∧
  Forall (λ p, match p.2 with RObj sets => setsWf sets | RScalar => True end) levels.
Definition remoteWf (remote : RemoteProgress) : Prop :=
  NoDup remote.*1 ∧
  Forall (λ p, match p.2 with RObj levels => levelsWf levels | RScalar => True end) remote.

#[global] Instance setsWf_dec sets : Decision (setsWf sets).
Proof. unfold setsWf. apply _. Defined.

#[global] Instance levelsWf_dec levels : Decision (levelsWf levels).
Proof.
  unfold levelsWf. apply and_dec; [apply _|].
  apply Forall_dec. intros [? [sets|]]; simpl; apply _.
Defined.

#[global] Instance remoteWf_dec remote : Decision (remoteWf remote).
Proof.
  unfold remoteWf. apply and_dec; [apply _|].
  apply Forall_dec. intros [? [levels|]]; simpl; apply _.
Defined.

End Progress.

(** ** JavaScript string operations used by the handlers (ASCII) *)

Module JsString.

(** White space removed by [trim]: tab, line feed, vertical tab, form feed,
    carriage return, space. *)
Definition isWhiteSpace (c : ascii) : bool :=
  let n := nat_of_ascii c in
  (Nat.leb 9 n && Nat.leb n 13) || Nat.eqb n 32.

Fixpoint trimStart (s : string) : string :=
  match s with
  | EmptyString => EmptyString
  | String c rest => if isWhiteSpace c then trimStart rest else s
  end.

(** [trimEnd], right to left: a white-space character is dropped when all
    that follows it has been dropped. *)
Fixpoint trimEnd (s : string) : string :=
  match s with
  | EmptyString => EmptyString
  | String c rest =>
      match trimEnd rest with
      | EmptyString => if isWhiteSpace c then EmptyString else String c EmptyString
      | rest' => String c rest'
      end
  end.

Definition trim (s : string) : string := trimEnd (trimStart s).

Definition lowerChar (c : ascii) : ascii :=
  let n := nat_of_ascii c in
  if Nat.leb 65 n && Nat.leb n 90 then ascii_of_nat (n + 32) else c.

Definition upperChar (c : ascii) : ascii :=
  let n := nat_of_ascii c in
  if Nat.leb 97 n && Nat.leb n 122 then ascii_of_nat (n - 32) else c.

Fixpoint mapChars (f : ascii → ascii) (s : string) : string :=
  match s with
  | EmptyString => EmptyString
  | String c rest => String (f c) (mapChars f rest)
  end.

Definition toLowerCase : string → string := mapChars lowerChar.
Definition toUpperCase : string → string := mapChars upperChar.

(** [s.replace(/-/g, '')]. *)
Fixpoint removeDashes (s : string) : string :=
  match s with
  | EmptyString => EmptyString
  | String c rest =>
      if Ascii.eqb c "-"%char then removeDashes rest else String c (removeDashes rest)
  end.

(** [s.substring(0, n)]. *)
Fixpoint prefix (n : nat) (s : string) : string :=
  match n, s with
  | S n', String c rest => String c (prefix n' rest)
  | _, _ => EmptyString
  end.

(** [s.slice(-2)]. *)
Fixpoint sliceLast2 (s : string) : string :=
  match s with
  | String _ (String _ (String _ _ as rest2) as rest) => sliceLast2 rest
  | _ => s
  end.

(** [!s] for a request field: absent and empty are both falsy. *)
Definition falsy (s : string) : bool := bool_decide (s = "").

(** A string that does not begin with white space. *)
Definition startsClean (s : string) : Prop :=
  match s with String c _ => isWhiteSpace c = false | EmptyString => True end.

End JsString.

(** ** The Apps Script backend (the handlers of the deployed web app) *)

Module Backend.
Import JsString.

(** A row of the REGISTRATION sheet, by [REG_COL]. *)
Record RegRow := mkRegRow {
  STUDENT_ID : string;
  NAME : string;
  EMAIL : string;
  HASH : string;
  SALT : string;
  STATUS : string;
  ROLE : string;
  CREATED_AT : string;
  LAST_LOGIN : string;
  SESSION_TOKEN : string;
  APPROVED_AT : string;
  APPROVED_BY : string
}.

(** A row of the RESULTS sheet, by [RES_COL]. *)
Record ResRow := mkResRow {
  RES_STUDENT_ID : string;
  RES_NAME : string;
  SUBJECT : string;
  LEVEL : string;
  SET : string;
  SCORE : Z;
  TOTAL : Z;
  PERCENTAGE : Z;
  TIME_TAKEN : Z;
  DATE : string;
  TIMESTAMP : Z
}.

(** A value of the script cache: the number written (the cache holds it as
    a string, which [parseInt] reads back) and the time, in milliseconds of
    the clock, at which it expires. *)
Record Cached := mkCached {
  cachedValue : Z;
  expiresAt : Z
}.

(** [cache.get(key)] at time [now]: the value put under the key, until it
    expires. *)
Definition cacheGet (cache : gmap string Cached) (now : Z) (key : string) : option Z :=
  match cache !! key with
  | Some c => if bool_decide (now < expiresAt c)%Z then Some (cachedValue c) else None
  | None => None
  end.

(** [cache.put(key, String(value), seconds)] at time [now]. *)
Definition cachePut (cache : gmap string Cached) (now : Z) (key : string)
    (value seconds : Z) : gmap string Cached :=
  <[key := mkCached value (now + seconds * 1000)]> cache.

(** The spreadsheet and the script cache.  A sheet is the list of its data
    rows (row 1 holds the headers, so data row [i] is sheet row [i + 2]);
    [None] when the sheet does not exist.  The cache keeps a value until it
    expires. *)
Record State := mkState {
  REGISTRATION : option (list RegRow);
  RESULTS : option (list ResRow);
  scriptCache : gmap string Cached
}.

(** The JSON object a handler answers with. *)
Record Response := mkResponse {
  success : bool;
  status : option string;
  error : option string;
  code : option string;
  reason : option string;
  message : option string;
  studentId : option string;
  studentName : option string;
  email : option string;
  activeSessionToken : option string;
  newStatus : option string
}.

Definition errorResponse (err cd : string) : Response :=
  mkResponse false None (Some err) (Some cd) None None None None None None None.
Definition statusResponse (st err cd : string) : Response :=
  mkResponse false (Some st) (Some err) (Some cd) None None None None None None None.
Definition reasonResponse (rs : string) : Response :=
  mkResponse false None None None (Some rs) None None None None None None.
Definition okResponse : Response :=
  mkResponse true None None None None None None None None None None.
Definition messageResponse (msg : string) : Response :=
  mkResponse true None None None None (Some msg) None None None None None.

(** The two columns searched by the handlers. *)
Inductive Column := COL_STUDENT_ID | COL_EMAIL.

Definition cell (col : Column) (row : RegRow) : string :=
  match col with
  | COL_STUDENT_ID => STUDENT_ID row
  | COL_EMAIL => EMAIL row
  end.

(** [createTextFinder(searchStr).matchCase(mc).matchEntireCell(true)
    .findNext()] over one column: the first data row whose cell equals the
    text, up to letter case unless [mc]. *)
Fixpoint findNext (mc : bool) (searchStr : string) (cells : list string) (i : nat) :
    option nat :=
  match cells with
  | [] => None
  | c :: rest =>
      if (if mc then bool_decide (c = searchStr)
          else bool_decide (toLowerCase c = toLowerCase searchStr))
      then Some i
      else findNext mc searchStr rest (S i)
  end.

(** [_findRowByColumn(sheet, colIndex, searchValue)]: the sheet row number
    and the values of the row found. *)
Definition _findRowByColumn (sheet : list RegRow) (col : Column) (searchValue : string) :
    option (nat * RegRow) :=
  if falsy searchValue then None
  else
    let searchStr := trim searchValue in
    if falsy searchStr then None
    else
      let matchCase := match col with COL_EMAIL => false | _ => true end in
      match findNext matchCase searchStr (cell col <$> sheet) 0 with
      | None => None
      | Some i =>
          match sheet !! i with
          | None => None
          | Some values =>
              let cellVal := trim (cell col values) in
              let same :=
                match col with
                | COL_EMAIL => bool_decide (toLowerCase cellVal = toLowerCase searchStr)
                | _ => bool_decide (cellVal = searchStr)
                end in
              if same then Some (i + 2, values) else None
          end
      end.

(** [sheet.getRange(rowIndex, col).setValue(v)], as a change of the row. *)
Definition setRow (sheet : list RegRow) (rowIndex : nat) (f : RegRow → RegRow) :
    list RegRow :=
  alter f (rowIndex - 2) sheet.

Definition setLastLogin (v : string) (r : RegRow) : RegRow :=
  mkRegRow (STUDENT_ID r) (NAME r) (EMAIL r) (HASH r) (SALT r) (STATUS r) (ROLE r)
           (CREATED_AT r) v (SESSION_TOKEN r) (APPROVED_AT r) (APPROVED_BY r).
Definition setSessionToken (v : string) (r : RegRow) : RegRow :=
  mkRegRow (STUDENT_ID r) (NAME r) (EMAIL r) (HASH r) (SALT r) (STATUS r) (ROLE r)
           (CREATED_AT r) (LAST_LOGIN r) v (APPROVED_AT r) (APPROVED_BY r).
Definition setStatus (v : string) (r : RegRow) : RegRow :=
  mkRegRow (STUDENT_ID r) (NAME r) (EMAIL r) (HASH r) (SALT r) v (ROLE r)
           (CREATED_AT r) (LAST_LOGIN r) (SESSION_TOKEN r) (APPROVED_AT r) (APPROVED_BY r).
Definition setApproved (at_ by_ : string) (r : RegRow) : RegRow :=
  mkRegRow (STUDENT_ID r) (NAME r) (EMAIL r) (HASH r) (SALT r) (STATUS r) (ROLE r)
           (CREATED_AT r) (LAST_LOGIN r) (SESSION_TOKEN r) at_ by_.

(** [String(row[REG_COL.STATUS] || '').trim().toLowerCase()]. *)
Definition statusOf (row : RegRow) : string := toLowerCase (trim (STATUS row)).

(** One hexadecimal digit, [0 <= d < 16]. *)
Definition hexDigit (d : Z) : ascii :=
  ascii_of_nat (Z.to_nat (if bool_decide (d < 10)%Z then 48 + d else 87 + d)%Z).

(** [n.toString(16)] for [0 <= n < 256]. *)
Definition toString16 (n : Z) : string :=
  if bool_decide (n < 16)%Z then String (hexDigit n) EmptyString
  else String (hexDigit (n `div` 16)%Z) (String (hexDigit (n `mod` 16)%Z) EmptyString).

(** [('0' + (byte & 0xFF).toString(16)).slice(-2)]. *)
Definition byteHex (byte : Z) : string :=
  sliceLast2 ("0" ++ toString16 (Z.land byte 255)).

(** [_generateSalt()], from the UUID drawn. *)
Definition _generateSalt (uuid : string) : string := prefix 16 (removeDashes uuid).

Section WithPlatform.
Context {PF : Platform}.

(** [_hashPassword(password, salt)]. *)
Definition _hashPassword (password salt : string) : string :=
  let input := salt ++ ":" ++ password in
  let rawHash := computeDigest_SHA_256 input in
  foldr (λ byte acc, byteHex byte ++ acc) "" rawHash.

Record LoginData := mkLoginData { login_email : string; login_password : string }.

(** [_handleLogin(data)]; [uuid] is the value [Utilities.getUuid()] yields,
    [nowIso] the formatted clock and [now] the clock in milliseconds. *)
Definition _handleLogin (st : State) (data : LoginData) (uuid nowIso : string)
    (now : Z) : State * Response :=
  if falsy (login_email data) || falsy (login_password data)
  then (st, errorResponse "Email and password are required." "MISSING_FIELDS")
  else
    let email := toLowerCase (trim (login_email data)) in
    let password := login_password data in
    let rateLimitKey := "login_attempts_" ++ email in
    let attempts := default 0%Z (cacheGet (scriptCache st) now rateLimitKey) in
    if bool_decide (5 ≤ attempts)%Z
    then (st, errorResponse "Too many login attempts. Please wait 5 minutes."
                            "RATE_LIMITED")
    else
      match REGISTRATION st with
      | None => (st, errorResponse "Registration sheet not found." "SHEET_NOT_FOUND")
      | Some regSheet =>
          let failed :=
            mkState (REGISTRATION st) (RESULTS st)
                    (cachePut (scriptCache st) now rateLimitKey (attempts + 1) 300) in
          match _findRowByColumn regSheet COL_EMAIL email with
          | None =>
              (failed, errorResponse "Invalid email or password." "INVALID_CREDENTIALS")
          | Some (rowIndex, row) =>
              let status := statusOf row in
              if bool_decide (status = "pending")
              then (st, statusResponse "pending"
                          "Account pending approval. Please contact your teacher."
                          "ACCOUNT_PENDING")
              else if bool_decide (status = "suspended")
              then (st, statusResponse "suspended"
                          "Account suspended. Contact administrator."
                          "ACCOUNT_SUSPENDED")
              else if bool_decide (status = "rejected")
              then (st, statusResponse "rejected"
                          "Account rejected. Contact administrator."
                          "ACCOUNT_REJECTED")
              else if bool_decide (status = "blocked")
              then (st, statusResponse "blocked"
                          "Account blocked. Contact administrator."
                          "ACCOUNT_BLOCKED")
              else if negb (bool_decide (status = "approved"))
              then (st, errorResponse "Account not approved." "ACCOUNT_NOT_APPROVED")
              else
                let inputHash := _hashPassword password (SALT row) in
                if negb (bool_decide (inputHash = HASH row))
                then (failed, errorResponse "Invalid email or password."
                                            "INVALID_CREDENTIALS")
                else
                  let activeSessionToken := uuid in
                  let sheet1 := setRow regSheet rowIndex (setLastLogin nowIso) in
                  let sheet2 := setRow sheet1 rowIndex (setSessionToken activeSessionToken) in
                  (mkState (Some sheet2) (RESULTS st)
                           (delete rateLimitKey (scriptCache st)),
                   mkResponse true None None None None None
                              (Some (STUDENT_ID row)) (Some (NAME row)) (Some email)
                              (Some activeSessionToken) None)
          end
      end.

Record RegisterData := mkRegisterData {
  reg_name : string; reg_email : string; reg_password : string
}.

(** [_handleRegister(data)]; [uuidId] and [uuidSalt] are the two UUIDs
    drawn, in that order. *)
Definition _handleRegister (st : State) (data : RegisterData)
    (uuidId uuidSalt nowIso : string) : State * Response :=
  if falsy (reg_name data) || falsy (reg_email data) || falsy (reg_password data)
  then (st, errorResponse "Name, email, and password are required." "MISSING_FIELDS")
  else
    let email := toLowerCase (trim (reg_email data)) in
    let name := trim (reg_name data) in
    let password := reg_password data in
    if bool_decide (String.length password < 6)%nat
    then (st, errorResponse "Password must be at least 6 characters." "WEAK_PASSWORD")
    else
      match REGISTRATION st with
      | None => (st, errorResponse "Registration sheet not found." "SHEET_NOT_FOUND")
      | Some sheet =>
          match _findRowByColumn sheet COL_EMAIL email with
          | Some _ =>
              (st, errorResponse "This email is already registered." "EMAIL_EXISTS")
          | None =>
              let studentId := "STU_" ++ toUpperCase (prefix 12 (removeDashes uuidId)) in
              let salt := _generateSalt uuidSalt in
              let passwordHash := _hashPassword password salt in
              let row := mkRegRow studentId name email passwordHash salt
                                  "pending" "student" nowIso "" "" "" "" in
              (mkState (Some (sheet ++ [row])%list) (RESULTS st) (scriptCache st),
               messageResponse "Registration submitted. Await teacher approval.")
          end
      end.

(** The row [_handleRegister] appends. *)
Definition registeredRow (data : RegisterData) (uuidId uuidSalt nowIso : string) : RegRow :=
  let salt := _generateSalt uuidSalt in
  mkRegRow ("STU_" ++ toUpperCase (prefix 12 (removeDashes uuidId)))%string
           (trim (reg_name data)) (toLowerCase (trim (reg_email data)))
           (_hashPassword (reg_password data) salt) salt
           "pending" "student" nowIso "" "" "" "".

(** A login request that reaches the account: both fields are given, the
    email is not rate limited and its row is found. *)
Definition reachesRow (st : State) (now : Z) (data : LoginData) (sheet : list RegRow)
    (rowIndex : nat) (row : RegRow) : Prop :=
  login_email data ≠ "" ∧ login_password data ≠ "" ∧
  (default 0 (cacheGet (scriptCache st) now
                ("login_attempts_" ++ toLowerCase (trim (login_email data)))%string) < 5)%Z ∧
  REGISTRATION st = Some sheet ∧
  _findRowByColumn sheet COL_EMAIL (toLowerCase (trim (login_email data)))
    = Some (rowIndex, row).

End WithPlatform.

Record SessionData := mkSessionData {
  session_studentId : string; session_activeSessionToken : string
}.

(** [_handleCheckSession(data)]. *)
Definition _handleCheckSession (st : State) (data : SessionData) : Response :=
  if falsy (session_studentId data) || falsy (session_activeSessionToken data)
  then reasonResponse "missing_params"
  else
    match REGISTRATION st with
    | None => reasonResponse "sheet_not_found"
    | Some sheet =>
        match _findRowByColumn sheet COL_STUDENT_ID (session_studentId data) with
        | None => reasonResponse "student_not_found"
        | Some (_, row) =>
            if negb (bool_decide (statusOf row = "approved"))
            then reasonResponse "account_not_approved"
            else
              let storedToken := SESSION_TOKEN row in
              if bool_decide (storedToken = session_activeSessionToken data)
              then okResponse
              else reasonResponse "session_invalid"
        end
    end.

(** [_handleLogout(data)]. *)
Definition _handleLogout (st : State) (studentId : string) : State * Response :=
  if falsy studentId then (st, errorResponse "Missing student ID." "MISSING_ID")
  else
    match REGISTRATION st with
    | None => (st, errorResponse "Sheet not found." "SHEET_NOT_FOUND")
    | Some sheet =>
        match _findRowByColumn sheet COL_STUDENT_ID studentId with
        | None => (st, errorResponse "Student not found." "STUDENT_NOT_FOUND")
        | Some (rowIndex, _) =>
            (mkState (Some (setRow sheet rowIndex (setSessionToken "")))
                     (RESULTS st) (scriptCache st),
             okResponse)
        end
    end.

Record AdminData := mkAdminData {
  admin_studentId : string; admin_adminAction : string; admin_adminName : string
}.

(** [_handleAdminAction(data)]. *)
Definition _handleAdminAction (st : State) (data : AdminData) (now : string) :
    State * Response :=
  if falsy (admin_studentId data) || falsy (admin_adminAction data)
  then (st, errorResponse "Missing studentId or adminAction." "MISSING_FIELDS")
  else
    let action := toLowerCase (trim (admin_adminAction data)) in
    if negb (bool_decide (action ∈ ["approve"; "reject"; "suspend"; "delete"]))
    then (st, errorResponse "Invalid action. Use: approve, reject, suspend, delete"
                            "INVALID_ACTION")
    else
      match REGISTRATION st with
      | None => (st, errorResponse "Sheet not found." "SHEET_NOT_FOUND")
      | Some sheet =>
          match _findRowByColumn sheet COL_STUDENT_ID (admin_studentId data) with
          | None => (st, errorResponse "Student not found." "STUDENT_NOT_FOUND")
          | Some (rowIndex, _) =>
              let adminName :=
                if falsy (admin_adminName data) then "Admin" else admin_adminName data in
              if bool_decide (action = "delete")
              then (mkState (Some (delete (rowIndex - 2) sheet)) (RESULTS st)
                            (scriptCache st),
                    messageResponse "Student deleted.")
              else
                let newStatus :=
                  if bool_decide (action = "approve") then "approved"
                  else if bool_decide (action = "reject") then "rejected"
                  else "suspended" in
                let sheet1 := setRow sheet rowIndex (setStatus newStatus) in
                let sheet2 :=
                  if bool_decide (action = "suspend") || bool_decide (action = "reject")
                  then setRow sheet1 rowIndex (setSessionToken "") else sheet1 in
                let sheet3 :=
                  if bool_decide (action = "approve")
                  then setRow sheet2 rowIndex (setApproved now adminName) else sheet2 in
                (mkState (Some sheet3) (RESULTS st) (scriptCache st),
                 mkResponse true None None None None
                            (Some ("Student " ++ action ++ "d successfully."))
                            (Some (admin_studentId data)) None None None (Some newStatus))
          end
      end.

(** The entry [_getStudentProgress] builds from a row. *)
Definition entryOfRow (row : ResRow) : Progress.Entry :=
  Progress.mkEntry (Some (SCORE row)) (Some (TOTAL row)) (Some (PERCENTAGE row))
                   (Some (DATE row)) (Some (TIMESTAMP row)) (Some (TIME_TAKEN row)).

(** The loop of [_getStudentProgress] over the rows read.  [existing] is an
    entry of the object built, nothing, or a built-in object a key of the
    path inherits: the comparison with its [percentage] ([undefined]) is
    false, and what is written on a built-in object is lost to the object
    returned. *)
Fixpoint progressLoop (studentId : string) (data : list ResRow)
    (progress : gmap string (gmap string (gmap string Progress.Entry))) :
    gmap string (gmap string (gmap string Progress.Entry)) :=
  match data with
  | [] => progress
  | row :: rest =>
      if negb (bool_decide (RES_STUDENT_ID row = studentId))
      then progressLoop studentId rest progress
      else
        let ensured := Progress.ensureLevel progress (SUBJECT row) (LEVEL row) in
        let lvl := default ∅ (default ∅ (progress !! SUBJECT row) !! LEVEL row) in
        let keep :=
          negb (Progress.leaves progress (SUBJECT row) (LEVEL row))
          && match Progress.slotOf lvl (SET row) with
             | Progress.Own e =>
                 bool_decide (default 0 (Progress.percentage e) ≤ PERCENTAGE row)%Z
             | Progress.Absent => true
             | Progress.Inherited => false
             end in
        progressLoop studentId rest
          (if keep
           then Progress.putEntry progress (SUBJECT row) (LEVEL row) (SET row)
                                  (entryOfRow row)
           else ensured)
  end.

(** [row] is a result of student [sid] for the set [s/l/k]. *)
Definition resultOf (sid s l k : string) (row : ResRow) : Prop :=
  RES_STUDENT_ID row = sid ∧ SUBJECT row = s ∧ LEVEL row = l ∧ SET row = k.

(** What the scan does to the slot [s/l/k] when it reads [row]. *)
Definition slotStep (sid s l k : string) (cur : option Progress.Entry) (row : ResRow) : option Progress.Entry :=
  if bool_decide (resultOf sid s l k row)
  then match cur with
       | None => Some (entryOfRow row)
       | Some e =>
           if bool_decide (default 0 (Progress.percentage e) ≤ PERCENTAGE row)%Z
           then Some (entryOfRow row) else cur
       end
  else cur.

(** The slot holds the entry of a row of the student for that set whose
    percentage no other such row exceeds; it is empty when there is no such
    row. *)
Definition bestOf (sid s l k : string) (data : list ResRow) (slot : option Progress.Entry) : Prop :=
  match slot with
  | Some e =>
      ∃ row, row ∈ data ∧ resultOf sid s l k row ∧ e = entryOfRow row ∧
             ∀ row', row' ∈ data → resultOf sid s l k row' →
                     (PERCENTAGE row' ≤ PERCENTAGE row)%Z
  | None => ∀ row, row ∈ data → ¬ resultOf sid s l k row
  end.

(** The result rows of the student name no inherited property as subject
    or level: the scan writes on no built-in object. *)
Definition plainRows (sid : string) (data : list ResRow) : Prop :=
  ∀ row, row ∈ data → RES_STUDENT_ID row = sid →
         Progress.inherited (SUBJECT row) = false
         ∧ Progress.inherited (LEVEL row) = false.

(** [_getStudentProgress(studentId)]. *)
Definition _getStudentProgress (st : State) (studentId : string) :
    gmap string (gmap string (gmap string Progress.Entry)) :=
  match RESULTS st with
  | None => ∅
  | Some data => progressLoop studentId data ∅
  end.

End Backend.

(** ** The earlier copy of the web app (src/unnamed/part_000): login *)

Module Backend0.
Import JsString.

(** The JSON object [_handleLogin] answers with. *)
Record Response := mkResponse {
  success : bool;
  status : option string;
  error : option string;
  studentId : option string;
  studentName : option string;
  email : option string;
  sessionToken : option string
}.

Definition errorResponse (err : string) : Response :=
  mkResponse false None (Some err) None None None None.
Definition statusResponse (st : string) : Response :=
  mkResponse false (Some st) None None None None None.

(** [n.toString(16).padStart(2, '0')] for [0 <= n < 256]. *)
Definition padHex (n : Z) : string :=
  if bool_decide (n < 16)%Z then "0" ++ Backend.toString16 n else Backend.toString16 n.

(** [((b + 256) % 256).toString(16).padStart(2, '0')]. *)
Definition byteHex (b : Z) : string := padHex (Z.rem (b + 256) 256).

(** The loop of [_handleLogin] over the rows: the first row whose email,
    trimmed and in lower case, is the one given; [i] is the position of the
    first row of [rows] in the sheet. *)
Fixpoint findByEmail (email : string) (rows : list Backend.RegRow) (i : nat) :
    option (nat * Backend.RegRow) :=
  match rows with
  | [] => None
  | row :: rest =>
      if bool_decide (toLowerCase (trim (Backend.EMAIL row)) = email)
      then Some (i, row)
      else findByEmail email rest (S i)
  end.

Section WithPlatform.
Context {PF : Platform}.

(** [_hashPassword(password, salt)], as in the later copy. *)
Definition _hashPassword (password salt : string) : string :=
  Backend._hashPassword password salt.

(** [_generateSessionToken()]; [uuid] is the UUID drawn and [time] the
    clock in milliseconds, as text. *)
Definition _generateSessionToken (uuid time : string) : string :=
  let seed := uuid ++ time in
  let digest := computeDigest_SHA_256 seed in
  foldr (λ b acc, byteHex b ++ acc) "" digest.

(** [_handleLogin(data)]; the state is the REGISTRATION sheet, [None] when
    it does not exist. *)
Definition _handleLogin (regSheet : option (list Backend.RegRow))
    (data : Backend.LoginData) (uuid time nowIso : string) :
    option (list Backend.RegRow) * Response :=
  if falsy (Backend.login_email data) || falsy (Backend.login_password data)
  then (regSheet, errorResponse "Email and password are required.")
  else
    let email := toLowerCase (trim (Backend.login_email data)) in
    let password := Backend.login_password data in
    match regSheet with
    | None => (regSheet, errorResponse "Registration sheet not found.")
    | Some rows =>
        match findByEmail email rows 0 with
        | None => (regSheet, errorResponse "Invalid email or password.")
        | Some (i, row) =>
            let status := Backend.statusOf row in
            if bool_decide (status = "pending")
            then (regSheet, statusResponse "pending")
            else if bool_decide (status = "blocked")
            then (regSheet, statusResponse "blocked")
            else if negb (bool_decide (status = "approved"))
            then (regSheet, errorResponse "Account not approved.")
            else
              let inputHash := _hashPassword password (Backend.SALT row) in
              if negb (bool_decide (inputHash = Backend.HASH row))
              then (regSheet, errorResponse "Invalid email or password.")
              else
                let sessionToken := _generateSessionToken uuid time in
                let rows1 := alter (Backend.setLastLogin nowIso) i rows in
                let rows2 := alter (Backend.setSessionToken sessionToken) i rows1 in
                (Some rows2,
                 mkResponse true None None (Some (Backend.STUDENT_ID row))
                            (Some (Backend.NAME row)) (Some email) (Some sessionToken))
        end
    end.

End WithPlatform.

End Backend0.

(** ** backend/api.js: result syncing and the offline queue *)

Module Api.

(** [BACKEND_URL]. *)
Definition BACKEND_URL : option string :=
  Some "https://script.google.com/macros/s/AKfycbwaKHhwriV6EXea2zvkf6lIJPA14Q4uHLcui2v-o9ynvfSJYm572t-WVfXfd7vuLoGxhQ/exec".

Definition MAX_RETRIES : Z := 3.

(** The payload of a completed set. *)
Record Payload := mkPayload {
  action : string;
  studentId : string;
  studentName : string;
  subject : string;
  level : string;
  set : string;
  score : Z;
  total : Z;
  timeTaken : Z;
  percentage : Z;
  timestamp : Z;
  date : string
}.

(** An element of the offline queue: [{ ...payload, retries }]. *)
Record QueueItem := mkQueueItem {
  payload : Payload;
  retries : option Z
}.

(** The marker [Progress] keeps in [sessionStorage] under [CACHE_KEY]. *)
Record DashboardCache := mkDashboardCache {
  cachedAt : Z;
  cacheStudentId : string;
  valid : bool
}.

(** The browser storage [syncResult] and [retryQueue] touch:
    [localStorage[QUEUE_KEY]] and [sessionStorage[CACHE_KEY]], parsed;
    [None] for a missing key. *)
Record Storage := mkStorage {
  syncQueue : option (list QueueItem);
  dashboardCache : option DashboardCache
}.

(** How a [fetch] of the backend ends. *)
Inductive FetchOutcome :=
| HttpOk (body : option string)      (* [res.ok]; the body when it parses *)
| HttpError (status : Z)             (* [!res.ok] *)
| NetworkError (msg : string).       (* [fetch] throws *)

Inductive Reason :=
| http_ (status : Z)                 (* [`http_${res.status}`] *)
| errMessage (msg : string).         (* [err.message] *)

(** The object [_sendPayload] resolves to. *)
Record SendResult := mkSendResult {
  success : bool;
  reason : option Reason;
  data : option string
}.

(** [_getQueue()]. *)
Definition _getQueue (st : Storage) : list QueueItem := default [] (syncQueue st).

(** [_saveQueue(queue)]. *)
Definition _saveQueue (st : Storage) (queue : list QueueItem) : Storage :=
  mkStorage (Some queue) (dashboardCache st).

(** [Progress.invalidateCache()]. *)
Definition invalidateCache (st : Storage) : Storage :=
  match dashboardCache st with
  | Some cache =>
      mkStorage (syncQueue st)
                (Some (mkDashboardCache (cachedAt cache) (cacheStudentId cache) false))
  | None => st
  end.

(** [Progress._hasValidCache()]. *)
Definition _hasValidCache (st : Storage) : bool :=
  match dashboardCache st with
  | Some cache => valid cache
  | None => false
  end.

(** [_sendPayload(payload)], given how the request ends. *)
Definition _sendPayload (outcome : FetchOutcome) : SendResult :=
  match outcome with
  | HttpError status => mkSendResult false (Some (http_ status)) None
  | HttpOk responseData => mkSendResult true None responseData
  | NetworkError msg => mkSendResult false (Some (errMessage msg)) None
  end.

Section WithPlatform.
Context {PF : Platform}.

(** [syncResult(subject, level, set, score, total, timeTaken)].  [sid] is
    what [getStudentId()] returns, [name] what [getStudentName()] returns,
    [now] and [nowIso] the clock, [outcome] how the request ends. *)
Definition syncResult (st : Storage) (sid : string) (name : option string)
    (now : Z) (nowIso : string) (outcome : FetchOutcome)
    (subject level set : string) (score total timeTaken : Z) :
    Storage * SendResult :=
  match BACKEND_URL with
  | None => (st, mkSendResult false (Some (errMessage "no_backend_configured")) None)
  | Some _ =>
      let payload :=
        mkPayload "saveResult" sid (default "Anonymous" name) subject level set
                  score total timeTaken (Math_round_pct score total) now nowIso in
      let result := _sendPayload outcome in
      let st1 := if success result then invalidateCache st else st in
      let st2 :=
        if negb (success result)
        then _saveQueue st1 (_getQueue st1 ++ [mkQueueItem payload (Some 0%Z)])
        else st1 in
      (st2, result)
  end.

End WithPlatform.

(** [(item.retries || 0)]. *)
Definition retriesOf (item : QueueItem) : Z := default 0%Z (retries item).

(** The loop of [retryQueue]: [i] is the position of the next item and
    [outcomes i] how its request ends. *)
Fixpoint retryLoop (outcomes : nat → FetchOutcome) (i : nat) (queue : list QueueItem)
    (remaining : list QueueItem) : list QueueItem :=
  match queue with
  | [] => remaining
  | item :: rest =>
      let result := _sendPayload (outcomes i) in
      if negb (success result)
      then
        let item' := mkQueueItem (payload item) (Some (retriesOf item + 1)%Z) in
        if bool_decide (retriesOf item' < MAX_RETRIES)%Z
        then retryLoop outcomes (S i) rest (remaining ++ [item'])
        else retryLoop outcomes (S i) rest remaining
      else retryLoop outcomes (S i) rest remaining
  end.

(** [retryQueue()]. *)
Definition retryQueue (st : Storage) (outcomes : nat → FetchOutcome) : Storage :=
  match BACKEND_URL with
  | None => st
  | Some _ =>
      let queue := _getQueue st in
      if bool_decide (List.length queue = 0%nat) then st
      else _saveQueue st (retryLoop outcomes 0 queue [])
  end.

(** A request that ends without an OK status. *)
Definition failed (outcome : FetchOutcome) : Prop :=
  match outcome with HttpOk _ => False | _ => True end.

End Api.

(** ** js/engine.js: the quiz engine *)

Module Engine.
Import JsString.

(** A parsed JSON value.  The fields of an object are in source order; a key
    written twice holds its last value, as [JSON.parse] has it. *)
#[warnings="-register-all"]
Inductive JSON :=
| JNull
| JBool (b : bool)
| JNumber (n : Q)
| JString (s : string)
| JArray (items : list JSON)
| JObject (fields : list (string * JSON)).

Fixpoint lookupLast (key : string) (fields : list (string * JSON)) : option JSON :=
  match fields with
  | [] => None
  | (k, v) :: rest =>
      match lookupLast key rest with
      | Some v' => Some v'
      | None => if bool_decide (k = key) then Some v else None
      end
  end.

(** [v.key] for the keys the engine reads ([q], [options], [answer]): only
    an object has them; [None] is [undefined]. *)
Definition prop (v : JSON) (key : string) : option JSON :=
  match v with
  | JObject fields => lookupLast key fields
  | _ => None
  end.

(** Truthiness of a JSON value. *)
Definition truthy (v : JSON) : bool :=
  match v with
  | JNull => false
  | JBool b => b
  | JNumber n => negb (Qeq_bool n 0%Q)
  | JString s => negb (bool_decide (s = ""))
  | JArray _ | JObject _ => true
  end.

(** [Number.isInteger(n)]. *)
Definition isInteger (n : Q) : bool := bool_decide (Qden (Qred n) = 1%positive).

(** The test of [validateQuestions]. *)
Definition validQuestion (q : JSON) : bool :=
  truthy q &&
  match prop q "q" with
  | Some (JString text) => bool_decide (0 < String.length (trim text))%nat
  | _ => false
  end &&
  match prop q "options" with
  | Some (JArray options) =>
      bool_decide (2 ≤ List.length options)%nat &&
      match prop q "answer" with
      | Some (JNumber answer) =>
          isInteger answer &&
          Qle_bool 0%Q answer &&
          negb (Qle_bool (inject_Z (Z.of_nat (List.length options))) answer)
      | _ => false
      end
  | _ => false
  end.

(** [validateQuestions(raw)]. *)
Definition validateQuestions (raw : JSON) : list JSON :=
  match raw with
  | JArray items => filter (λ q, validQuestion q = true) items
  | _ => []
  end.

(** [item.q], [item.options] and [item.answer] of a question. *)
Definition textOf (item : JSON) : string :=
  match prop item "q" with Some (JString text) => text | _ => "" end.
Definition optionsOf (item : JSON) : list JSON :=
  match prop item "options" with Some (JArray options) => options | _ => [] end.
Definition answerOf (item : JSON) : option nat :=
  match prop item "answer" with
  | Some (JNumber answer) =>
      if isInteger answer && Qle_bool 0%Q answer
      then Some (Z.to_nat (Qnum (Qred answer))) else None
  | _ => None
  end.

(** [item.options[item.answer]]. *)
Definition correctOption (item : JSON) : option JSON :=
  answerOf item ≫= λ i, optionsOf item !! i.

Inductive EngineType := mcq | fill.

(** An option as rendered: [{ text, origIdx }], with [isCorrect] in the fill
    engine. *)
Record Opt := mkOpt {
  text : JSON;
  origIdx : nat;
  isCorrect : option bool
}.

(** [answers[qIdx]]: the index of the button chosen (MCQ) or the option
    chosen (fill). *)
Inductive Answer :=
| SelectedIndex (i : nat)
| SelectedOpt (o : Opt).

(** What the reveal functions read from the card of a question: the options
    in displayed order with [dataset.correct] of each button (MCQ), or
    whether the element [#blank-qIdx] exists (fill). *)
Inductive Card :=
| McqCard (opts : list Opt) (correct : list bool)
| FillCard (opts : list Opt) (blank : bool).

(** [escapeHTML(str)] of a string. *)
Fixpoint escapeHTML (s : string) : string :=
  match s with
  | EmptyString => EmptyString
  | String c rest =>
      (if Ascii.eqb c "&" then "&amp;"
       else if Ascii.eqb c "<" then "&lt;"
       else if Ascii.eqb c ">" then "&gt;"
       else String c EmptyString) ++ escapeHTML rest
  end.

(** The three bytes of the ellipsis character (U+2026) in UTF-8. *)
Definition ELLIPSIS_1 : ascii := ascii_of_nat 226.
Definition ELLIPSIS_2 : ascii := ascii_of_nat 128.
Definition ELLIPSIS_3 : ascii := ascii_of_nat 166.

(** Whether the expression of line 360 matches (two or more underscores,
    three or more dots, or the ellipsis character), so that [_renderFill]
    puts a blank into the card. *)
Fixpoint hasBlankMarker (s : string) : bool :=
  match s with
  | EmptyString => false
  | String c rest =>
      match rest with
      | String c1 rest1 =>
          (Ascii.eqb c "_" && Ascii.eqb c1 "_")
          || (Ascii.eqb c "." && Ascii.eqb c1 "." &&
              match rest1 with String c2 _ => Ascii.eqb c2 "." | _ => false end)
          || (Ascii.eqb c ELLIPSIS_1 && Ascii.eqb c1 ELLIPSIS_2 &&
              match rest1 with String c2 _ => Ascii.eqb c2 ELLIPSIS_3 | _ => false end)
          || hasBlankMarker rest
      | EmptyString => false
      end
  end.

(** [shuffle(arr)]: [order] lists the original positions in their new
    order, as the random draws decide it. *)
Definition shuffle {A} (order : list nat) (arr : list A) : list A :=
  omap (λ i, arr !! i) order.

(** [opts.findIndex(o => o.origIdx === answer)]; [None] is [-1]. *)
Fixpoint findIndex (answer : option nat) (opts : list Opt) (i : nat) : option nat :=
  match opts with
  | [] => None
  | o :: rest =>
      if bool_decide (Some (origIdx o) = answer) then Some i
      else findIndex answer rest (S i)
  end.

(** The card [_renderMCQ] builds for one question. *)
Definition mcqCard (order : list nat) (item : JSON) : Card :=
  let opts := shuffle order (imap (λ origI t, mkOpt t origI None) (optionsOf item)) in
  let newCorrectIdx := findIndex (answerOf item) opts 0 in
  McqCard opts (imap (λ i _, bool_decide (Some i = newCorrectIdx)) opts).

(** The card [_renderFill] builds for one question. *)
Definition fillCard (order : list nat) (item : JSON) : Card :=
  let opts :=
    shuffle order
      (imap (λ origI t, mkOpt t origI (Some (bool_decide (Some origI = answerOf item))))
            (optionsOf item)) in
  FillCard opts (hasBlankMarker (escapeHTML (textOf item))).

(** [_renderMCQ(container)] and [_renderFill(container)]: [orders qIdx] is
    the shuffle of question [qIdx]. *)
Definition _renderMCQ (orders : nat → list nat) (qs : list JSON) : list Card :=
  imap (λ qIdx item, mcqCard (orders qIdx) item) qs.
Definition _renderFill (orders : nat → list nat) (qs : list JSON) : list Card :=
  imap (λ qIdx item, fillCard (orders qIdx) item) qs.

(** The module state, the cards on the page, the result modal and the
    progress store. *)
Record Page := mkPage {
  questions : list JSON;
  answers : gmap nat Answer;
  engineType : EngineType;
  submitted : bool;
  cards : list Card;
  modal : option (Z * nat * Z);            (* score, total, percent *)
  storage : Progress.LocalStorage
}.

(** [_render()]. *)
Definition _render (engine : EngineType) (orders : nat → list nat) (qs : list JSON) :
    list Card :=
  match engine with
  | mcq => _renderMCQ orders qs
  | fill => _renderFill orders qs
  end.

(** How the request for the set file ends. *)
Inductive SetResponse :=
| NotOk (status : string)      (* [!res.ok] *)
| BadBody (msg : string)       (* [res.json()] throws *)
| Body (raw : JSON).

(** [init()] from the point where the set is fetched: the message shown when
    loading fails, or the page with the quiz rendered. *)
Definition init (engine : EngineType) (orders : nat → list nat) (set : string)
    (ls : Progress.LocalStorage) (res : SetResponse) : string + Page :=
  match res with
  | NotOk status => inl ("Set " ++ set ++ " not found (HTTP " ++ status ++ ")")
  | BadBody msg => inl msg
  | Body raw =>
      let questions := validateQuestions raw in
      if bool_decide (List.length questions = 0%nat)
      then inl "No valid questions found in this set."
      else inr (mkPage questions ∅ engine false (_render engine orders questions) None ls)
  end.

(** [_selectMCQ(qIdx, selectedI, grid, card)]. *)
Definition _selectMCQ (p : Page) (qIdx selectedI : nat) : Page :=
  if submitted p then p
  else mkPage (questions p) (<[qIdx := SelectedIndex selectedI]> (answers p))
              (engineType p) (submitted p) (cards p) (modal p) (storage p).

(** [_selectFill(qIdx, opt, blankId, optsWrap, card)]. *)
Definition _selectFill (p : Page) (qIdx : nat) (opt : Opt) : Page :=
  if submitted p then p
  else mkPage (questions p) (<[qIdx := SelectedOpt opt]> (answers p))
              (engineType p) (submitted p) (cards p) (modal p) (storage p).

(** [_revealMCQ(card, qIdx, item)]: the score of the question. *)
Definition _revealMCQ (p : Page) (qIdx : nat) : Z :=
  match cards p !! qIdx, answers p !! qIdx with
  | Some (McqCard _ correct), Some (SelectedIndex selectedI) =>
      if default false (correct !! selectedI) then 1 else 0
  | _, _ => 0
  end%Z.

(** [_revealFill(card, qIdx, item)]: the score of the question. *)
Definition _revealFill (p : Page) (qIdx : nat) : Z :=
  match cards p !! qIdx, answers p !! qIdx with
  | Some (FillCard _ blank), Some (SelectedOpt userAns) =>
      if blank && default false (isCorrect userAns) then 1 else 0
  | _, _ => 0
  end%Z.

(** The score loop of [_submitQuiz]. *)
Definition scoreOf (p : Page) : Z :=
  foldl (λ score qIdx,
           match engineType p with
           | mcq => score + _revealMCQ p qIdx
           | fill => score + _revealFill p qIdx
           end)%Z 0%Z (seq 0 (List.length (questions p))).

Section WithPlatform.
Context {PF : Platform}.

(** [_submitQuiz()]; [timeTaken] is what [stopTimer()] returns and
    [subject], [level], [set] what [getParams()] returns.  The call of
    [API.syncResult], which is not awaited, is [Api.syncResult]. *)
Definition _submitQuiz (p : Page) (today : string) (now : Z) (timeTaken : Z)
    (subject level set : string) : Page :=
  if submitted p then p
  else if bool_decide (size (answers p) < List.length (questions p))%nat then p
  else
    let score := scoreOf p in
    let saved := Progress.saveResult (storage p) today now subject level set score
                   (Z.of_nat (List.length (questions p))) (Some timeTaken) in
    mkPage (questions p) (answers p) (engineType p) true (cards p)
           (Some (score, List.length (questions p), saved.2)) saved.1.

End WithPlatform.

(** The option a student chose for a question. *)
Definition chosenOpt (p : Page) (qIdx : nat) : option Opt :=
  match cards p !! qIdx, answers p !! qIdx with
  | Some (McqCard opts _), Some (SelectedIndex i) => opts !! i
  | Some (FillCard _ _), Some (SelectedOpt o) => Some o
  | _, _ => None
  end.

(** The chosen option is the correct answer of the question. *)
Definition choseCorrect (p : Page) (qIdx : nat) : bool :=
  match questions p !! qIdx, chosenOpt p qIdx with
  | Some item, Some o => bool_decide (Some (origIdx o) = answerOf item)
  | _, _ => false
  end.

(** The answers recorded belong to questions of the page: the handlers
    [_selectMCQ] and [_selectFill] are bound to the cards rendered. *)
Definition answersWf (p : Page) : Prop :=
  ∀ qIdx, is_Some (answers p !! qIdx) → (qIdx < List.length (questions p))%nat.

(** In the fill engine the option recorded for a question is one of the
    options of its card. *)
Definition answersClicked (p : Page) : Prop :=
  ∀ qIdx o, answers p !! qIdx = Some (SelectedOpt o) →
    match cards p !! qIdx with
    | Some (FillCard opts _) => o ∈ opts
    | _ => True
    end.

(** The card of the question shows a blank. *)
Definition hasBlank (p : Page) (qIdx : nat) : bool :=
  match questions p !! qIdx with
  | Some item => hasBlankMarker (escapeHTML (textOf item))
  | None => false
  end.

End Engine.

(** ** A platform instance for evaluating the definitions on concrete inputs

    The percentage is computed in IEEE 754 double precision, as a JavaScript
    engine does: the quotient and the product are rounded to doubles and
    [Math.round] takes the nearest integer, the upper one at a half (a
    result that is no number, which [total = 0] gives, is shown as 0).  The
    digest is a stand-in that returns the character codes of its input as
    signed bytes. *)

Module Doubles.

(** The double nearest to an integer (exact below [2^53]). *)
Definition ofZ (z : Z) : PrimFloat.float :=
  if bool_decide (z < 0)%Z
  then PrimFloat.opp (PrimFloat.of_uint63 (Uint63.of_Z (- z)))
  else PrimFloat.of_uint63 (Uint63.of_Z z).

(** [Math.round(x)] of a finite double: [floor(x + 1/2)], computed exactly
    from the mantissa and the exponent. *)
Definition round (x : PrimFloat.float) : Z :=
  match FloatOps.Prim2SF x with
  | SpecFloat.S754_finite s m e =>
      let sm := if s then Z.neg m else Z.pos m in
      if bool_decide (0 ≤ e)%Z then (sm * 2 ^ e)%Z
      else ((2 * sm + 2 ^ (- e)) `div` 2 ^ (- e + 1))%Z
  | _ => 0%Z
  end.

(** [Math.round((score / total) * 100)]. *)
Definition roundPct (score total : Z) : Z :=
  round (PrimFloat.mul (PrimFloat.div (ofZ score) (ofZ total)) (ofZ 100)).

End Doubles.

Definition signedByte (n : Z) : Z :=
  (if bool_decide (n `mod` 256 < 128) then n `mod` 256 else n `mod` 256 - 256)%Z.

Fixpoint charCodes (s : string) : list Z :=
  match s with
  | EmptyString => []
  | String c rest => Z.of_nat (nat_of_ascii c) :: charCodes rest
  end.

Definition evalPlatform : Platform := {|
  Math_round_pct := Doubles.roundPct;
  computeDigest_SHA_256 := λ input, signedByte <$> charCodes input
|}.

(** ** Concrete data for evaluating the definitions *)

Module Samples.
Import Progress.

(** A remote entry: 9 of 10, 90 percent. *)
Definition entry90 : Entry :=
  mkEntry (Some 9%Z) (Some 10%Z) (Some 90%Z) (Some "Mar 3, 2026")
          (Some 1772500000000%Z) (Some 42%Z).

(** A stored entry: 7 of 10, 70 percent, older. *)
Definition entry70 : Entry :=
  mkEntry (Some 7%Z) (Some 10%Z) (Some 70%Z) (Some "Mar 1, 2026")
          (Some 1772300000000%Z) (Some 55%Z).

Definition storeTenses : LocalStorage :=
  Some (mkStore None {[ "tenses" := {[ "high" := {[ "1" := entry70 ]} ]} ]}).

Definition remoteTenses : RemoteProgress :=
  [("tenses", RObj [("high", RObj [("1", Some entry90); ("2", Some entry70)])])].


(** The offline queue: a result queued once, and one that failed twice. *)
Definition payload1 : Api.Payload :=
  Api.mkPayload "saveResult" "STU_A1B2C3D4E5F6" "Alice" "tenses" "high" "1"
                4 5 30 80 1772500000000 "2026-03-03T01:06:40.000Z".

Definition storageQueued : Api.Storage :=
  Api.mkStorage (Some [Api.mkQueueItem payload1 (Some 0%Z);
                       Api.mkQueueItem payload1 (Some 2%Z)])
                (Some (Api.mkDashboardCache 1772400000000 "STU_A1B2C3D4E5F6" true)).

Definition offline : nat → Api.FetchOutcome := λ _, Api.NetworkError "Failed to fetch".

(** The registration sheet: one approved account that has not logged in,
    one pending account. *)
Definition alice : Backend.RegRow :=
  Backend.mkRegRow "STU_A1B2C3D4E5F6" "Alice" "alice@school.com"
    (Backend._hashPassword (PF := evalPlatform) "secret1" "0123456789abcdef")
    "0123456789abcdef" "approved" "student" "2026-03-01T10:00:00.000Z" "" "" "" "".

Definition bob : Backend.RegRow :=
  Backend.mkRegRow "STU_0F1E2D3C4B5A" "Bob" "bob@school.com"
    (Backend._hashPassword (PF := evalPlatform) "hunter22" "fedcba9876543210")
    "fedcba9876543210" "pending" "student" "2026-03-02T10:00:00.000Z" "" "" "" "".

(** A suspended account. *)
Definition dave : Backend.RegRow :=
  Backend.mkRegRow "STU004" "Dave" "dave@school.com"
    (Backend._hashPassword (PF := evalPlatform) "letmein" "a1b2c3d4e5f6a7b8")
    "a1b2c3d4e5f6a7b8" " Suspended" "student" "2026-03-02T11:00:00.000Z" "" "" "" "".

Definition daveLogin : Backend.LoginData :=
  Backend.mkLoginData "dave@school.com" "letmein".

(** An account the teacher has rejected. *)
Definition erin : Backend.RegRow :=
  Backend.mkRegRow "STU005" "Erin" "erin@school.com"
    (Backend._hashPassword (PF := evalPlatform) "sesame55" "0a1b2c3d4e5f6a7b")
    "0a1b2c3d4e5f6a7b" "Rejected" "student" "2026-03-02T12:00:00.000Z" "" "" "" "".

Definition erinLogin : Backend.LoginData :=
  Backend.mkLoginData "erin@school.com" "sesame55".

Definition backend0 : Backend.State :=
  Backend.mkState (Some [alice; bob]) (Some []) ∅.

Definition aliceLogin : Backend.LoginData :=
  Backend.mkLoginData "Alice@School.com " "secret1".

Definition bobLogin : Backend.LoginData :=
  Backend.mkLoginData "bob@school.com" "hunter22".

Definition carolRegister : Backend.RegisterData :=
  Backend.mkRegisterData " Carol " "Carol@School.com" "opensesame".

(** Register, approve, log in. *)
Definition carolRegistered : Backend.State :=
  (Backend._handleRegister (PF := evalPlatform) backend0 carolRegister
     "1b4e28ba-2fa1-11d2-883f-0016d3cca427" "6fa459ea-ee8a-3ca4-894e-db77e160355e"
     "2026-03-03T09:00:00.000Z").1.



(** Two questions for the fill engine: the first has no blank in its text. *)
Definition nounQuestion : Engine.JSON :=
  Engine.JObject [("q", Engine.JString "Pick the noun");
                  ("options", Engine.JArray [Engine.JString "cat"; Engine.JString "run"]);
                  ("answer", Engine.JNumber 0%Q)].

Definition blankQuestion : Engine.JSON :=
  Engine.JObject [("q", Engine.JString "She __ to school.");
                  ("options", Engine.JArray [Engine.JString "go"; Engine.JString "goes"]);
                  ("answer", Engine.JNumber 1%Q)].

(** Entries [validateQuestions] drops. *)
Definition malformedQuestions : list Engine.JSON :=
  [Engine.JNull;
   Engine.JObject [("q", Engine.JString "   ");
                   ("options", Engine.JArray [Engine.JString "a"; Engine.JString "b"]);
                   ("answer", Engine.JNumber 0%Q)];
   Engine.JObject [("q", Engine.JString "One option");
                   ("options", Engine.JArray [Engine.JString "a"]);
                   ("answer", Engine.JNumber 0%Q)];
   Engine.JObject [("q", Engine.JString "Out of range");
                   ("options", Engine.JArray [Engine.JString "a"; Engine.JString "b"]);
                   ("answer", Engine.JNumber 2%Q)];
   Engine.JObject [("q", Engine.JString "Fraction");
                   ("options", Engine.JArray [Engine.JString "a"; Engine.JString "b"]);
                   ("answer", Engine.JNumber (1 # 2)%Q)]].

(** The fill page of the two questions, options shown in reverse order. *)
Definition fillPage : Engine.Page :=
  let qs := [nounQuestion; blankQuestion] in
  Engine.mkPage qs ∅ Engine.fill false
                (Engine._render Engine.fill (λ _, [1; 0]%nat) qs) None None.

(** The student picks the right option of each question. *)
Definition fillAnswered : Engine.Page :=
  Engine._selectFill
    (Engine._selectFill fillPage 0 (Engine.mkOpt (Engine.JString "cat") 0 (Some true)))
    1 (Engine.mkOpt (Engine.JString "goes") 1 (Some true)).

(** The same questions in the MCQ engine; the first button of each card is
    chosen (the second option of the question, as the order is reversed). *)
Definition mcqPage : Engine.Page :=
  let qs := [blankQuestion; nounQuestion] in
  Engine.mkPage qs ∅ Engine.mcq false
                (Engine._render Engine.mcq (λ _, [1; 0]%nat) qs) None None.

Definition mcqAnswered : Engine.Page :=
  Engine._selectMCQ (Engine._selectMCQ mcqPage 0 0) 1 0.

End Samples.


(** ** The other handlers of the web app (src/unnamed/part_001)

    Numbers of a request are integers; a number tested with [!x] or
    [x || d] is absent when it is [None] or zero. *)

Module Handlers.
Import JsString Backend.

(** [x || d] for a number of the request. *)
Definition orElse (x : option Z) (d : Z) : Z :=
  match x with
  | Some v => if bool_decide (v = 0%Z) then d else v
  | None => d
  end.

(** [s || d] for a string. *)
Definition orText (s d : string) : string := if falsy s then d else s.

Record ValidateData := mkValidateData {
  validate_studentId : string;
  validate_token : string;
  validate_loginAt : Z
}.

(** The answers of [_handleValidateSession]. *)
Record ValidateResponse := mkValidateResponse {
  v_success : bool;
  v_verified : option bool;
  v_error : option string;
  v_code : option string
}.

(** [_handleValidateSession(data)]. *)
Definition _handleValidateSession (st : State) (data : ValidateData) : ValidateResponse :=
  if falsy (validate_studentId data) || falsy (validate_token data)
     || bool_decide (validate_loginAt data = 0%Z)
  then mkValidateResponse false None (Some "Invalid session data.") (Some "MISSING_FIELDS")
  else
    match REGISTRATION st with
    | None => mkValidateResponse false None (Some "Sheet not found.") (Some "SHEET_NOT_FOUND")
    | Some regSheet =>
        match _findRowByColumn regSheet COL_STUDENT_ID (validate_studentId data) with
        | None => mkValidateResponse false (Some false) None None
        | Some (_, row) =>
            let approved := bool_decide (statusOf row = "approved") in
            mkValidateResponse approved (Some approved) None None
        end
    end.

(** The fields of a [saveResult] request; [None] for a score or a total
    that is not a number. *)
Record ResultData := mkResultData {
  result_studentId : string;
  result_studentName : string;
  result_subject : string;
  result_level : string;
  result_set : string;
  result_score : option Z;
  result_total : option Z;
  result_percentage : option Z;
  result_timeTaken : option Z;
  result_date : string;
  result_timestamp : option Z
}.

(** The test of lines 300-303 on the row the text finder landed on. *)
Definition sameResult (studentId : string) (data : ResultData) (rowVals : ResRow) : bool :=
  bool_decide (RES_STUDENT_ID rowVals = studentId)
  && bool_decide (SUBJECT rowVals = result_subject data)
  && bool_decide (LEVEL rowVals = result_level data)
  && bool_decide (SET rowVals = result_set data).

Section WithPlatform.
Context {PF : Platform}.

(** The row [_handleSaveResult] appends. *)
Definition resultRow (data : ResultData) (score total : Z) (now : Z) (nowIso : string) :
    ResRow :=
  mkResRow (orText (result_studentId data) "anonymous")
           (orText (result_studentName data) "Anonymous")
           (result_subject data) (result_level data) (result_set data)
           score total
           (orElse (result_percentage data) (Math_round_pct score total))
           (orElse (result_timeTaken data) 0%Z)
           (orText (result_date data) nowIso)
           (orElse (result_timestamp data) now).

(** [_handleSaveResult(data)].  [found] is the sheet row on which
    [createTextFinder(tsStr).findNext()] lands ([None] when it finds
    nothing; the header row holds no result), [now] and [nowIso] are the
    clock. *)
Definition _handleSaveResult (st : State) (data : ResultData) (found : option nat)
    (now : Z) (nowIso : string) : State * Response :=
  match result_score data, result_total data with
  | Some score, Some total =>
      if falsy (result_subject data) || falsy (result_level data) || falsy (result_set data)
      then (st, errorResponse "Missing required fields." "MISSING_FIELDS")
      else
        let studentId := orText (result_studentId data) "anonymous" in
        let refused : option Response :=
          if bool_decide (studentId = "anonymous") then None
          else
            match REGISTRATION st with
            | None => Some (errorResponse "Registration sheet not found." "SHEET_NOT_FOUND")
            | Some regSheet =>
                match _findRowByColumn regSheet COL_STUDENT_ID studentId with
                | None => Some (errorResponse "Student not found." "STUDENT_NOT_FOUND")
                | Some (_, studentRow) =>
                    if negb (bool_decide (statusOf studentRow = "approved"))
                    then Some (errorResponse "Student not verified." "NOT_VERIFIED")
                    else None
                end
            end in
        match refused with
        | Some answer => (st, answer)
        | None =>
            match RESULTS st with
            | None => (st, errorResponse "RESULTS sheet not found." "SHEET_NOT_FOUND")
            | Some results =>
                let duplicate :=
                  if bool_decide (orElse (result_timestamp data) 0%Z = 0%Z) then false
                  else
                    match found with
                    | Some foundRow =>
                        if bool_decide (2 ≤ foundRow)%nat
                        then match results !! (foundRow - 2)%nat with
                             | Some rowVals => sameResult studentId data rowVals
                             | None => false
                             end
                        else false
                    | None => false
                    end in
                if duplicate
                then (st, messageResponse "Duplicate — already saved.")
                else
                  (mkState (REGISTRATION st)
                           (Some (results ++ [resultRow data score total now nowIso])%list)
                           (scriptCache st),
                   messageResponse "Result saved.")
            end
        end
  | _, _ => (st, errorResponse "Missing required fields." "MISSING_FIELDS")
  end.

(** [createStudent(studentId, studentName, email, plainPassword)], run from
    the script editor: the message of the error thrown, or the state after
    the row is appended.  The row has nine cells; the cells after them are
    empty. *)
Definition createStudent (st : State) (studentId studentName email plainPassword : string)
    (uuid nowIso : string) : string + State :=
  if falsy studentId || falsy studentName || falsy email || falsy plainPassword
  then inl "All parameters required: createStudent(studentId, studentName, email, plainPassword)"
  else
    let email := trim email in
    match REGISTRATION st with
    | None => inl "REGISTRATION sheet not found"
    | Some sheet =>
        match _findRowByColumn sheet COL_EMAIL email with
        | Some _ => inl ("Email already registered: " ++ email)
        | None =>
            match _findRowByColumn sheet COL_STUDENT_ID studentId with
            | Some _ => inl ("Student ID already exists: " ++ studentId)
            | None =>
                let salt := _generateSalt uuid in
                let passwordHash := _hashPassword plainPassword salt in
                let row := mkRegRow studentId studentName (toLowerCase email)
                                    passwordHash salt "approved" "student" nowIso
                                    "" "" "" "" in
                inr (mkState (Some (sheet ++ [row])%list) (RESULTS st) (scriptCache st))
            end
        end
    end.

(** A login the sheet answers with INVALID_CREDENTIALS: both fields are
    given, and the email is unknown or belongs to an approved account with
    another password. *)
Definition badCredentials (sheet : list RegRow) (data : LoginData) : Prop :=
  login_email data ≠ "" ∧ login_password data ≠ "" ∧
  match _findRowByColumn sheet COL_EMAIL (toLowerCase (trim (login_email data))) with
  | None => True
  | Some (_, row) =>
      statusOf row = "approved" ∧
      _hashPassword (login_password data) (SALT row) ≠ HASH row
  end.

(** The counter of failed logins kept for an email. *)
Definition rateLimitKeyOf (email : string) : string :=
  "login_attempts_" ++ toLowerCase (trim email).

(** The failed logins counted for an email at time [now]:
    [parseInt(cache.get(rateLimitKey) || '0', 10)]. *)
Definition attemptsOf (st : State) (now : Z) (email : string) : Z :=
  default 0%Z (cacheGet (scriptCache st) now (rateLimitKeyOf email)).

End WithPlatform.

(** A row of the STUDENT_DETAILS sheet, in column order. *)
Record DetailsRow := mkDetailsRow {
  det_studentId : string;
  det_studentName : string;
  det_schoolName : string;
  det_className : string;
  det_profileImageURL : string;
  det_guardianName : string;
  det_contactNumber : string;
  det_address : string;
  det_createdAt : string
}.

(** [_findRowByColumn(sheet, 0, searchValue)] on the STUDENT_DETAILS sheet:
    column 0 is searched with [matchCase(true)]. *)
Definition _findDetailsRow (sheet : list DetailsRow) (searchValue : string) :
    option (nat * DetailsRow) :=
  if falsy searchValue then None
  else
    let searchStr := trim searchValue in
    if falsy searchStr then None
    else
      match findNext true searchStr (det_studentId <$> sheet) 0 with
      | None => None
      | Some i =>
          match sheet !! i with
          | None => None
          | Some values =>
              if bool_decide (trim (det_studentId values) = searchStr)
              then Some ((i + 2)%nat, values) else None
          end
      end.

(** The object [_getStudentProfile] returns. *)
Record Profile := mkProfile {
  p_success : bool;
  p_error : option string;
  p_row : option DetailsRow
}.

(** [_getStudentProfile(studentId)]; the sheet is [None] when it does not
    exist. *)
Definition _getStudentProfile (details : option (list DetailsRow)) (studentId : string) :
    Profile :=
  match details with
  | None => mkProfile false (Some "STUDENT_DETAILS sheet not found.") None
  | Some sheet =>
      match _findDetailsRow sheet studentId with
      | None => mkProfile false (Some "Student details not found.") None
      | Some (_, d) => mkProfile true None (Some d)
      end
  end.

(** [createStudentDetails(...)]: the message of the error thrown, or the
    sheet after the row is appended. *)
Definition createStudentDetails (details : option (list DetailsRow))
    (studentId studentName schoolName className profileImageURL guardianName
       contactNumber address nowIso : string) : string + list DetailsRow :=
  match details with
  | None => inl "STUDENT_DETAILS sheet not found"
  | Some sheet =>
      inr (sheet ++ [mkDetailsRow studentId studentName (orText schoolName "")
                       (orText className "") (orText profileImageURL "")
                       (orText guardianName "") (orText contactNumber "")
                       (orText address "") nowIso])%list
  end.

(** An element of the list [_handleListStudents] answers with. *)
Record Student := mkStudent {
  s_studentId : string;
  s_studentName : string;
  s_email : string;
  s_status : string;
  s_role : string;
  s_createdAt : string;
  s_lastLogin : string;
  s_approvedAt : string;
  s_approvedBy : string;
  s_schoolName : string;
  s_className : string;
  s_guardianName : string;
  s_contactNumber : string
}.

(** [detailsMap]: the rows of STUDENT_DETAILS by student id, a later row
    replacing an earlier one. *)
Definition detailsMap (details : option (list DetailsRow)) : gmap string DetailsRow :=
  foldl (λ m row, <[det_studentId row := row]> m) ∅ (default [] details).

(** The object pushed for one row. *)
Definition studentOf (dm : gmap string DetailsRow) (row : RegRow) : Student :=
  let sid := STUDENT_ID row in
  let d := dm !! sid in
  mkStudent sid (NAME row) (EMAIL row) (statusOf row) (orText (ROLE row) "student")
            (CREATED_AT row) (LAST_LOGIN row) (APPROVED_AT row) (APPROVED_BY row)
            (default "" (det_schoolName <$> d)) (default "" (det_className <$> d))
            (default "" (det_guardianName <$> d)) (default "" (det_contactNumber <$> d)).

(** The loop of [_handleListStudents] over the rows. *)
Fixpoint listLoop (filter : string) (dm : gmap string DetailsRow) (allData : list RegRow) :
    list Student :=
  match allData with
  | [] => []
  | row :: rest =>
      if negb (bool_decide (filter = "all")) && negb (bool_decide (statusOf row = filter))
      then listLoop filter dm rest
      else studentOf dm row :: listLoop filter dm rest
  end.

Record ListResponse := mkListResponse {
  l_success : bool;
  l_error : option string;
  l_code : option string;
  l_students : option (list Student)
}.

(** [_handleListStudents(data)]. *)
Definition _handleListStudents (st : State) (details : option (list DetailsRow))
    (statusFilter : string) : ListResponse :=
  match REGISTRATION st with
  | None => mkListResponse false (Some "Sheet not found.") (Some "SHEET_NOT_FOUND") None
  | Some allData =>
      let filter := toLowerCase (trim (orText statusFilter "all")) in
      mkListResponse true None None (Some (listLoop filter (detailsMap details) allData))
  end.

(** The body of a POST request, parsed: the fields the handlers read. *)
Record PostData := mkPostData {
  post_action : string;
  post_email : string;
  post_password : string;
  post_name : string;
  post_studentId : string;
  post_activeSessionToken : string;
  post_token : string;
  post_loginAt : Z;
  post_adminAction : string;
  post_adminName : string;
  post_statusFilter : string;
  post_studentName : string;
  post_subject : string;
  post_level : string;
  post_set : string;
  post_score : option Z;
  post_total : option Z;
  post_percentage : option Z;
  post_timeTaken : option Z;
  post_date : string;
  post_timestamp : option Z
}.

(** What one request draws from the runtime: two UUIDs, the clock, and the
    row the text finder lands on. *)
Record Draws := mkDraws {
  uuid1 : string;
  uuid2 : string;
  clockIso : string;
  clock : Z;
  finder : option nat
}.

Inductive PostResponse :=
| Answered (r : Response)
| Validated (r : ValidateResponse)
| Listed (r : ListResponse).

Section WithPlatform.
Context {PF : Platform}.

(** [doPost(e)], on a body that parses. *)
Definition doPost (st : State) (details : option (list DetailsRow)) (data : PostData)
    (env : Draws) : State * PostResponse :=
  let action := orText (post_action data) "saveResult" in
  if bool_decide (action = "login") then
    let r := _handleLogin st (mkLoginData (post_email data) (post_password data))
                          (uuid1 env) (clockIso env) (clock env) in
    (r.1, Answered r.2)
  else if bool_decide (action = "saveResult") then
    let r := _handleSaveResult st
               (mkResultData (post_studentId data) (post_studentName data)
                  (post_subject data) (post_level data) (post_set data)
                  (post_score data) (post_total data) (post_percentage data)
                  (post_timeTaken data) (post_date data) (post_timestamp data))
               (finder env) (clock env) (clockIso env) in
    (r.1, Answered r.2)
  else if bool_decide (action = "validateSession") then
    (st, Validated (_handleValidateSession st
                      (mkValidateData (post_studentId data) (post_token data)
                                      (post_loginAt data))))
  else if bool_decide (action = "checkSession") then
    (st, Answered (_handleCheckSession st
                     (mkSessionData (post_studentId data) (post_activeSessionToken data))))
  else if bool_decide (action = "logout") then
    let r := _handleLogout st (post_studentId data) in
    (r.1, Answered r.2)
  else if bool_decide (action = "register") then
    let r := _handleRegister st
               (mkRegisterData (post_name data) (post_email data) (post_password data))
               (uuid1 env) (uuid2 env) (clockIso env) in
    (r.1, Answered r.2)
  else if bool_decide (action = "listStudents") then
    (st, Listed (_handleListStudents st details (post_statusFilter data)))
  else if bool_decide (action = "adminAction") then
    let r := _handleAdminAction st
               (mkAdminData (post_studentId data) (post_adminAction data)
                            (post_adminName data))
               (clockIso env) in
    (r.1, Answered r.2)
  else (st, Answered (errorResponse ("Unknown action: " ++ action) "UNKNOWN_ACTION")).

(** Requests served one after the other. *)
Definition serve (st : State) (details : option (list DetailsRow))
    (requests : list (PostData * Draws)) : State :=
  foldl (λ st r, (doPost st details r.1 r.2).1) st requests.

End WithPlatform.

(** The emails of the sheet are trimmed and in lower case, and no email
    other than the empty one is held by two rows. *)
Definition emailsOk (emails : list string) : Prop :=
  Forall (λ e, e = toLowerCase (trim e)) emails ∧
  ∀ i j e, emails !! i = Some e → emails !! j = Some e → e ≠ "" → i = j.

Definition emailsDistinct (st : State) : Prop :=
  ∀ sheet, REGISTRATION st = Some sheet → emailsOk (EMAIL <$> sheet).

End Handlers.

(** ** The utilities of app.js: URL parameters and the sets of a level *)

From stdpp Require Import sorting.
Local Open Scope string_scope.

Module App.
Import JsString.

(** [/[a-zA-Z0-9_-]/]. *)
Definition isParamChar (c : ascii) : bool :=
  let n := nat_of_ascii c in
  (Nat.leb 97 n && Nat.leb n 122) || (Nat.leb 65 n && Nat.leb n 90)
  || (Nat.leb 48 n && Nat.leb n 57) || Nat.eqb n 95 || Nat.eqb n 45.

(** [/\d/]. *)
Definition isDigit (c : ascii) : bool :=
  let n := nat_of_ascii c in Nat.leb 48 n && Nat.leb n 57.

(** Every character of the string passes the test. *)
Fixpoint allChars (p : ascii → bool) (s : string) : bool :=
  match s with
  | EmptyString => true
  | String c rest => p c && allChars p rest
  end.

(** [/^[a-zA-Z0-9_-]+$/.test(s)] and [/^\d+$/.test(s)]. *)
Definition VALID_PARAM_RE (s : string) : bool :=
  negb (bool_decide (s = "")) && allChars isParamChar s.
Definition allDigits (s : string) : bool :=
  negb (bool_decide (s = "")) && allChars isDigit s.

Definition VALID_LEVELS : list string := ["preprimary"; "primary"; "middle"; "high"].

(** [parseInt(s, 10)] of a string of digits, from the value [acc] of the
    digits read so far. *)
Fixpoint parseDigits (s : string) (acc : Z) : Z :=
  match s with
  | EmptyString => acc
  | String c rest => parseDigits rest (10 * acc + (Z.of_nat (nat_of_ascii c) - 48))%Z
  end.
Definition parseInt10 (s : string) : Z := parseDigits s 0%Z.

(** [p.get(name) || d]: [None] is [null]. *)
Definition getOr (v : option string) (d : string) : string :=
  match v with
  | Some s => if falsy s then d else s
  | None => d
  end.

(** The query string, by [URLSearchParams.get]. *)
Record Query := mkQuery {
  q_subject : option string;
  q_level : option string;
  q_set : option string;
  q_mode : option string
}.

Record Params := mkParams {
  subject : string;
  level : string;
  set : string;
  mode : string
}.

(** [getParams()]. *)
Definition getParams (p : Query) : Params :=
  let subject := getOr (q_subject p) "tenses" in
  let level := getOr (q_level p) "high" in
  let set := getOr (q_set p) "1" in
  let mode := getOr (q_mode p) "student" in
  let subject := if negb (VALID_PARAM_RE subject) then "tenses" else subject in
  let level := if negb (bool_decide (level ∈ VALID_LEVELS)) then "high" else level in
  let set := if negb (allDigits set) || bool_decide (parseInt10 set < 1)%Z
             then "1" else set in
  let mode := if negb (VALID_PARAM_RE mode) then "student" else mode in
  mkParams subject level set mode.

(** [Array.from({ length: count }, (_, i) => i + 1)] for a number
    [count > 0]: the length is the integer part. *)
Definition arrayFromLength (count : Q) : list nat :=
  (λ i, i + 1)%nat <$> seq 0 (Z.to_nat (Qnum count `div` Z.pos (Qden count))).

(** [getSetsFromConfig(config, level)]; [setCounts] is
    [config?.setCounts], [None] when there is none. *)
Definition getSetsFromConfig (setCounts : option (gmap string Engine.JSON))
    (level : string) : option (list nat) :=
  match setCounts ≫= λ m, m !! level with
  | Some (Engine.JNumber count) =>
      if Qle_bool count 0%Q then None else Some (arrayFromLength count)
  | _ => None
  end.

Definition BATCH_SIZE : nat := 10.

(** The numbers [n] of one batch: [start <= n < start + BATCH_SIZE] and
    [n <= 60]. *)
Definition batchNumbers (start : nat) : list nat :=
  filter (λ n, n ≤ 60)%nat (seq start BATCH_SIZE).

(** [results.filter(n => n !== null).sort((a, b) => a - b)] of a batch;
    [ok n] tells whether the request for [set<n>.json] is answered OK. *)
Definition foundIn (ok : nat → bool) (start : nat) : list nat :=
  merge_sort (≤)%nat (filter (λ n, ok n = true) (batchNumbers start)).

(** The loop of [discoverSets] over the batches that start at [starts]. *)
Fixpoint discoverLoop (ok : nat → bool) (starts : list nat) (sets : list nat) : list nat :=
  match starts with
  | [] => sets
  | start :: rest =>
      let found := foundIn ok start in
      let sets := (sets ++ found)%list in
      if bool_decide (List.length found = 0%nat) then sets
      else discoverLoop ok rest sets
  end.

(** [discoverSets(subject, level)]: the batches start at 1, 11, ..., 51. *)
Definition discoverSets (ok : nat → bool) : list nat :=
  discoverLoop ok ((λ k, 1 + BATCH_SIZE * k)%nat <$> seq 0 6) [].

End App.

(** ** js/progress.js: the last attempt kept by the merge *)

Module Merge.
Import Progress.

(** A remote entry with the subject, the level and the set it is filed
    under. *)
Record Reached := mkReached {
  r_subject : string;
  r_level : string;
  r_set : string;
  r_entry : Entry
}.

(** The remote entries the three loops of [_mergeBackendData] reach, in the
    order in which they reach them, for a call that runs to its end. *)
Definition reachedSets (subject level : string) (sets : RemoteSets) : list Reached :=
  omap (λ p : string * option Entry,
          if bool_decide (p.1 = "_meta") then None
          else mkReached subject level p.1 <$> p.2) sets.

Definition reachedLevels (subject : string) (levels : RemoteLevels) : list Reached :=
  levels ≫= λ p,
    if bool_decide (p.1 = "_meta") then []
    else match p.2 with
         | RObj sets => reachedSets subject p.1 sets
         | RScalar => []
         end.

Definition reachedEntries (remote : RemoteProgress) : list Reached :=
  remote ≫= λ p,
    if reservedSubject p.1 then []
    else match p.2 with
         | RObj levels => reachedLevels p.1 levels
         | RScalar => []
         end.

(** The attempt lines 339-344 build from a remote entry. *)
Definition attemptOf (r : Reached) : Attempt :=
  mkAttempt (r_subject r) (r_level r) (r_set r) (pctOf (Some (r_entry r)))
            (default "" (date (r_entry r))) (Some (tsOf (Some (r_entry r)))).

(** [latestAttempt.timestamp || 0]. *)
Definition attemptTs (a : Attempt) : Z := default 0%Z (la_timestamp a).

(** The attempt kept after the entries [rs] are reached, from the attempt
    [latest] kept before. *)
Definition latestOf (latest : option Attempt) (rs : list Reached) : option Attempt :=
  foldl (λ latest r, newerAttempt latest (r_subject r) (r_level r) (r_set r) (r_entry r))
        latest rs.

(** [_meta.lastAttempted] of the stored object. *)
Definition lastAttemptedOf (ls : LocalStorage) : option Attempt :=
  match meta (getAll ls) with
  | Some m => lastAttempted m
  | None => None
  end.

End Merge.

(** ** js/progress.js: the counters of the dashboard

    The keys of an object are given by [map_to_list]; the order in which
    the code visits them makes no difference to a count or to a sum.
    [Math.round(total / n)] is an operation of the platform, given as
    [round]. *)

Module Stats.
Import Progress.

(** [Object.keys(lvl).filter(k => k !== '_meta')], with the entries. *)
Definition setsOf (lvl : gmap string Entry) : list (string * Entry) :=
  filter (λ p, p.1 ≠ "_meta") (map_to_list lvl).

Record LevelStats := mkLevelStats {
  completed : nat;
  avgScore : Z
}.

(** The statistics of the level object [lvl]: the body of
    [getLevelStats]. *)
Definition levelStatsOf (round : Z → nat → Z) (lvl : gmap string Entry) : LevelStats :=
  let keys := setsOf lvl in
  if bool_decide (List.length keys = 0%nat) then mkLevelStats 0 0
  else
    let total := foldl (λ sum p, sum + pctOf (Some p.2))%Z 0%Z keys in
    mkLevelStats (List.length keys) (round total (List.length keys)).

(** [getLevelStats(subject, level)], for a subject of the store: other
    than [_meta], and own or naming no inherited property.  For the others
    ([None]) the code counts the keys of the meta data or of a built-in
    object, which the store does not give. *)
Definition getLevelStats (round : Z → nat → Z) (ls : LocalStorage)
    (subject level : string) : option LevelStats :=
  if bool_decide (subject = "_meta") then None
  else
    match slotOf (subjects (getAll ls)) subject with
    | Inherited => None
    | _ =>
        Some (levelStatsOf round
                (default ∅ (subjects (getAll ls) !! subject ≫= λ sub, sub !! level)))
    end.

(** What one level adds to the count of a subject. *)
Definition levelCount (p : string * gmap string Entry) : nat :=
  if bool_decide (p.1 = "_meta") then 0%nat else List.length (setsOf p.2).

(** The sets counted in the subject object [sub]: the body of
    [getSubjectStats]. *)
Definition subjectCountOf (sub : gmap string (gmap string Entry)) : nat :=
  foldl (λ completed p,
           if bool_decide (p.1 = "_meta") then completed
           else (completed + List.length (setsOf p.2))%nat)
        0%nat (map_to_list sub).

(** [getSubjectStats(subject).completed], for a subject other than [_meta]
    ([None] for that one: the code walks the meta data). *)
Definition getSubjectStats (ls : LocalStorage) (subject : string) : option nat :=
  if bool_decide (subject = "_meta") then None
  else Some (subjectCountOf (default ∅ (subjects (getAll ls) !! subject))).

End Stats.

(** ** The browser side: identity, session guard, dashboard cache

    [localStorage] and [sessionStorage] are given by the parsed values of
    the keys the code uses: the progress store, the student id, the session,
    and (in [Api.Storage]) the sync queue and the dashboard cache.  Calls of
    these functions do not overlap; the arguments that the code takes as
    strings are strings. *)

Module Client.
Import JsString.

(** The object under [SESSION_KEY]. *)
Record Session := mkSession {
  sess_studentId : string;
  sess_studentName : string;
  sess_email : string;
  sess_activeSessionToken : string;
  sess_loginAt : Z;
  sess_expiresAt : option Z;
  sess_lastChecked : option Z;
  sess_verified : option bool
}.

(** What is under [grammarhub_progress_v2].  [getAll()] reads every value
    that is not an object as the empty object; the functions that parse
    the key themselves ([JSON.parse(...) || {}] inside a [try]) tell two
    cases apart: [Missing] is no key or a value that is falsy ([null],
    [false], [0], the empty string), for which they start from [{}];
    [Unreadable] is text that is not JSON, or a number, a string or
    [true], on which the parse or the assignment of [_meta] throws, so
    that nothing is written. *)
Inductive Stored :=
| Missing
| Unreadable
| Holds (data : Progress.Store).

(** The key as [getAll()] reads it, and the key after a write of
    progress.js. *)
Definition parsed (p : Stored) : Progress.LocalStorage :=
  match p with
  | Holds data => Some data
  | _ => None
  end.

Definition written (ls : Progress.LocalStorage) : Stored :=
  match ls with
  | Some data => Holds data
  | None => Missing
  end.

Record Browser := mkBrowser {
  progress : Stored;                   (* [grammarhub_progress_v2] *)
  student_id : option string;          (* [grammarhub_student_id] *)
  session : option Session;            (* [grammarhub_session] *)
  storage : Api.Storage                (* [grammarhub_sync_queue], [grammarhub_dashboard_cache] *)
}.

Definition SESSION_MAX_AGE : Z := 24 * 60 * 60 * 1000.
Definition CHECK_INTERVAL_MS : Z := 2 * 60 * 1000.
Definition LOGIN_PAGE : string := "login.html".

(** [getStudentId()] of api.js; [dateStr] and [rand] are the date and the
    random text of an id that is generated. *)
Definition getStudentId (b : Browser) (dateStr rand : string) : Browser * string :=
  let id := default "" (student_id b) in
  if falsy id
  then
    let id := "STU_" ++ dateStr ++ "_" ++ rand in
    (mkBrowser (progress b) (Some id) (session b) (storage b), id)
  else (b, id).

(** [setStudentId(id)]. *)
Definition setStudentId (b : Browser) (id : string) : Browser :=
  if bool_decide (0 < String.length (trim id))%nat
  then mkBrowser (progress b) (Some (trim id)) (session b) (storage b)
  else b.

(** [data?._meta?.field] of the progress store. *)
Definition metaField (ls : Progress.LocalStorage) (field : string) : option string :=
  match ls with
  | Some data =>
      match Progress.meta data with
      | Some m => Progress.otherFields m !! field
      | None => None
      end
  | None => None
  end.

(** [getStudentName()]. *)
Definition getStudentName (b : Browser) : option string :=
  match metaField (parsed (progress b)) "studentName" with
  | Some name => if falsy name then None else Some name
  | None => None
  end.

(** [{ ...(data._meta || {}), k1: v1, ... }]: the fields [_meta] keeps
    beside [lastAttempted]. *)
Definition withFields (ls : Progress.LocalStorage)
    (update : gmap string string → gmap string string) : Progress.LocalStorage :=
  let data := Progress.getAll ls in
  let m := default (Progress.mkMeta None ∅) (Progress.meta data) in
  Some (Progress.mkStore
          (Some (Progress.mkMeta (Progress.lastAttempted m)
                                 (update (Progress.otherFields m))))
          (Progress.subjects data)).

(** The same update by a function that parses the key itself. *)
Definition withFieldsRaw (p : Stored)
    (update : gmap string string → gmap string string) : Stored :=
  match p with
  | Unreadable => Unreadable
  | _ => written (withFields (parsed p) update)
  end.

(** [setStudentName(name)]; on a key that cannot be read, the parse throws
    before [getStudentId()] is called. *)
Definition setStudentName (b : Browser) (name : string) (dateStr rand : string) : Browser :=
  match progress b with
  | Unreadable => b
  | _ =>
      let r := getStudentId b dateStr rand in
      mkBrowser (withFieldsRaw (progress b)
                   (λ fields, <["studentId" := r.2]> (<["studentName" := name]> fields)))
                (student_id r.1) (session r.1) (storage r.1)
  end.

(** [getSession()]. *)
Definition getSession (b : Browser) : option Session :=
  match session b with
  | Some s =>
      if falsy (sess_studentId s) || falsy (sess_activeSessionToken s)
         || bool_decide (sess_loginAt s = 0%Z)
      then None else Some s
  | None => None
  end.

(** [createSession(studentId, studentName, email, activeSessionToken)];
    [now] is [Date.now()]. *)
Definition createSession (b : Browser) (studentId studentName email token : string)
    (now : Z) : Browser * Session :=
  let loginAt := now in
  let s := mkSession studentId studentName email token loginAt
                     (Some (loginAt + SESSION_MAX_AGE)%Z) (Some loginAt) None in
  (mkBrowser (withFieldsRaw (progress b)
                (λ fields, <["studentId" := studentId]> (<["studentName" := studentName]> fields)))
             (Some studentId) (Some s) (storage b),
   s).

(** [Date.now() > session.expiresAt]. *)
Definition expired (s : Session) (now : Z) : bool :=
  match sess_expiresAt s with
  | Some e => bool_decide (e < now)%Z
  | None => false
  end.

(** [isAuthenticated()]. *)
Definition isAuthenticated (b : Browser) (now : Z) : bool :=
  match getSession b with
  | Some s => negb (expired s now)
  | None => false
  end.

(** [Progress.clearAllSessionData()]. *)
Definition clearAllSessionData (b : Browser) : Browser :=
  mkBrowser Missing None (session b) (Api.mkStorage None None).

(** [_clearLocalSession()]. *)
Definition _clearLocalSession (b : Browser) : Browser :=
  mkBrowser Missing None None (Api.mkStorage None None).

(** [_redirectToLogin(reason)]: the address the page is sent to, if any;
    [onLoginPage] tells whether the path of the page includes
    [login.html]. *)
Definition _redirectToLogin (onLoginPage : bool) (reason : option string) : option string :=
  if onLoginPage then None
  else Some match reason with
            | Some r => LOGIN_PAGE ++ "?reason=" ++ r
            | None => LOGIN_PAGE
            end.

(** How a request of the client ends: an OK status with the body parsed
    ([None] when it does not parse), another status, or no answer. *)
Inductive Fetched (A : Type) :=
| FetchOk (body : option A)
| FetchHttpError (status : Z)
| FetchNetworkError (msg : string).
Arguments FetchOk {A} body.
Arguments FetchHttpError {A} status.
Arguments FetchNetworkError {A} msg.

(** An answer that holds [success] and nothing else. *)
Definition onlySuccess (ok : bool) : Backend.Response :=
  Backend.mkResponse ok None None None None None None None None None None.

(** [API.checkSession(studentId, activeSessionToken)] and
    [API.logoutSession(studentId, activeSessionToken)], given how the
    request ends. *)
Definition API_checkSession (outcome : Fetched Backend.Response) : Backend.Response :=
  match Api.BACKEND_URL with
  | None => onlySuccess true
  | Some _ =>
      match outcome with
      | FetchOk (Some body) => body
      | FetchOk None => onlySuccess true
      | FetchHttpError _ => onlySuccess false
      | FetchNetworkError _ => onlySuccess true
      end
  end.

Definition API_logoutSession (outcome : Fetched Backend.Response) : Backend.Response :=
  API_checkSession outcome.

(** The requests a function sends to the backend. *)
Inductive Call :=
| CallCheckSession (studentId activeSessionToken : string)
| CallLogout (studentId activeSessionToken : string).

(** What a guard leaves behind: the storage, the session returned, the
    address the page is sent to and the requests sent. *)
Record Guarded := mkGuarded {
  after : Browser;
  returned : option Session;
  redirect : option string;
  calls : list Call
}.

(** [logout()], when its promise has settled. *)
Definition logout (b : Browser) (onLoginPage : bool) : Guarded :=
  let sent :=
    match getSession b with
    | Some s => [CallLogout (sess_studentId s) (sess_activeSessionToken s)]
    | None => []
    end in
  mkGuarded (_clearLocalSession (clearAllSessionData b)) None
            (_redirectToLogin onLoginPage None) sent.

(** [checkAuth()]; [now] is the clock, [outcome] how the request of
    [API.checkSession] ends when it is sent. *)
Definition checkAuth (b : Browser) (now : Z) (onLoginPage : bool)
    (outcome : Fetched Backend.Response) : Guarded :=
  match getSession b with
  | None => mkGuarded b None (_redirectToLogin onLoginPage None) []
  | Some s =>
      if expired s now then logout b onLoginPage
      else
        let due :=
          match sess_lastChecked s with
          | Some t => bool_decide (t = 0%Z) || bool_decide (CHECK_INTERVAL_MS < now - t)%Z
          | None => true
          end in
        if due then
          let result := API_checkSession outcome in
          let sent := [CallCheckSession (sess_studentId s) (sess_activeSessionToken s)] in
          if negb (Backend.success result)
          then mkGuarded (_clearLocalSession b) None
                         (_redirectToLogin onLoginPage (Some "session_revoked")) sent
          else
            let s' := mkSession (sess_studentId s) (sess_studentName s) (sess_email s)
                                (sess_activeSessionToken s) (sess_loginAt s)
                                (sess_expiresAt s) (Some now) (Some true) in
            mkGuarded (mkBrowser (progress b) (student_id b) (Some s') (storage b))
                      (Some s') None sent
        else mkGuarded b (Some s) None []
  end.

(** What [prefetchDashboardData] gets from its environment: the answers of
    its two requests after the timeout ([None] is [null]), and whether a
    built-in object makes the merge throw when its loops reach one. *)
Record Prefetched := mkPrefetched {
  remote : option Progress.RemoteProgress;
  profile : option Handlers.Profile;
  builtinThrows : bool
}.

(** Whether the merge of the prefetch is called and throws; the [catch] of
    line 195 then ends the call. *)
Definition mergeFails (ls : Progress.LocalStorage) (answers : Prefetched) : bool :=
  match remote answers with
  | Some remote =>
      bool_decide (0 < List.length remote)%nat
      && Progress.mergeThrows (builtinThrows answers) ls remote
  | None => false
  end.

(** The profile fields [prefetchDashboardData] writes into [_meta]; a field
    the answer does not hold is [undefined]. *)
Definition profileFields (p : Handlers.Profile) (fields : gmap string string) :
    gmap string string :=
  let d := Handlers.p_row p in
  let put (key : string) (v : option string) (m : gmap string string) :=
    match v with Some x => <[key := x]> m | None => delete key m end in
  <["contactNumber" := default "" (Handlers.det_contactNumber <$> d)]>
    (<["guardianName" := default "" (Handlers.det_guardianName <$> d)]>
       (<["profilePhoto" := default "" (Handlers.det_profileImageURL <$> d)]>
          (<["className" := default "" (Handlers.det_className <$> d)]>
             (<["schoolName" := default "" (Handlers.det_schoolName <$> d)]>
                (put "studentName" (Handlers.det_studentName <$> d)
                   (put "studentId" (Handlers.det_studentId <$> d) fields)))))).

(** [Progress.prefetchDashboardData(studentId)]; [dateStr] and [rand] serve
    [getStudentId()], [now] is the clock. *)
Definition prefetchDashboardData (b : Browser) (studentId : string)
    (dateStr rand : string) (now : Z) (answers : Prefetched) : Browser * bool :=
  match Api.BACKEND_URL with
  | None => (b, false)
  | Some _ =>
      let r := if falsy studentId then getStudentId b dateStr rand else (b, studentId) in
      let b := r.1 in
      let sid := r.2 in
      if falsy sid then (b, false)
      else if mergeFails (parsed (progress b)) answers then (b, false)
      else
        let merged :=
          match remote answers with
          | Some remote =>
              if bool_decide (0 < List.length remote)%nat
              then written (Progress._mergeBackendData (parsed (progress b)) remote)
              else progress b
          | None => progress b
          end in
        let withProfile :=
          match profile answers with
          | Some p =>
              if Handlers.p_success p
              then written (withFields (parsed merged) (profileFields p))
              else merged
          | None => merged
          end in
        (mkBrowser withProfile (student_id b) (session b)
                   (Api.mkStorage (Api.syncQueue (storage b))
                                  (Some (Api.mkDashboardCache now sid true))),
         true)
  end.

(** [Progress.syncFromBackend()], when no other call is in flight. *)
Definition syncFromBackend (b : Browser) (dateStr rand : string) (now : Z)
    (answers : Prefetched) : Browser * bool :=
  if Api._hasValidCache (storage b) then (b, true)
  else
    match Api.BACKEND_URL with
    | None => (b, false)
    | Some _ =>
        let r := getStudentId b dateStr rand in
        if falsy r.2 then (r.1, false)
        else prefetchDashboardData r.1 r.2 dateStr rand now answers
    end.

Section WithPlatform.
Context {PF : Platform}.

(** [API.syncResult(...)] with its reads of the storage: the student id of
    [getStudentId()] and the name of [getStudentName()]. *)
Definition syncResult (b : Browser) (dateStr rand : string) (now : Z) (nowIso : string)
    (outcome : Api.FetchOutcome) (subject level set : string)
    (score total timeTaken : Z) : Browser * Api.SendResult :=
  let r := match Api.BACKEND_URL with
           | Some _ => getStudentId b dateStr rand
           | None => (b, "")
           end in
  let sent := Api.syncResult (storage r.1) r.2 (getStudentName r.1) now nowIso outcome
                             subject level set score total timeTaken in
  (mkBrowser (progress r.1) (student_id r.1) (session r.1) sent.1, sent.2).

End WithPlatform.

End Client.

(** ** js/register.js: the checks of the form *)

Module Register.
Import JsString.

(** A character of the class [[^\s@]]. *)
Definition plainChar (c : ascii) : bool :=
  negb (isWhiteSpace c) && negb (Ascii.eqb c "@").

(** Whether [/^[^\s@]+\.[^\s@]+$/] matches: plain characters with a dot
    that is neither the first nor the last of them; [seen] tells whether a
    character was read before. *)
Fixpoint domainOk (s : string) (seen : bool) : bool :=
  match s with
  | EmptyString => false
  | String c rest =>
      plainChar c &&
      ((seen && Ascii.eqb c "." && negb (bool_decide (rest = "")) && App.allChars plainChar rest)
       || domainOk rest true)
  end.

(** [_isValidEmail(email)]: [/^[^\s@]+@[^\s@]+\.[^\s@]+$/.test(email)];
    [seen] tells whether a character of the local part was read. *)
Fixpoint emailOk (s : string) (seen : bool) : bool :=
  match s with
  | EmptyString => false
  | String c rest =>
      if Ascii.eqb c "@" then seen && domainOk rest false
      else plainChar c && emailOk rest true
  end.

Definition _isValidEmail (email : string) : bool := emailOk email false.

Inductive Field := FieldName | FieldEmail | FieldPassword | FieldConfirm.

(** The field errors the submit handler shows, in the order of the
    checks. *)
Definition fieldErrors (name email password confirm : string) : list (Field * string) :=
  (if falsy name || bool_decide (String.length name < 2)%nat
   then [(FieldName, "Please enter your full name.")] else [])%list
  ++ (if falsy email then [(FieldEmail, "Please enter your email address.")]
      else if negb (_isValidEmail email)
      then [(FieldEmail, "Please enter a valid email address.")] else [])%list
  ++ (if falsy password then [(FieldPassword, "Please enter a password.")]
      else if bool_decide (String.length password < 6)%nat
      then [(FieldPassword, "Password must be at least 6 characters.")] else [])%list
  ++ (if falsy confirm then [(FieldConfirm, "Please confirm your password.")]
      else if negb (falsy password) && negb (bool_decide (password = confirm))
      then [(FieldConfirm, "Passwords do not match.")] else [])%list.

(** The submit handler up to the request: the errors shown, or the
    arguments of [API.register(name, email, password)]. *)
Definition submit (nameInput emailInput password confirm : string) :
    list (Field * string) + Backend.RegisterData :=
  let name := trim nameInput in
  let email := trim emailInput in
  match fieldErrors name email password confirm with
  | [] => inr (Backend.mkRegisterData name email password)
  | errors => inl errors
  end.

End Register.

(** ** js/engine.js: the shuffle of the options *)

Module FisherYates.

(** [[arr[i], arr[j]] = [arr[j], arr[i]]] for positions of the array. *)
Definition swap {A} (i j : nat) (arr : list A) : list A :=
  match arr !! i, arr !! j with
  | Some x, Some y => <[j := x]> (<[i := y]> arr)
  | _, _ => arr
  end.

(** The loop of [shuffle] from position [i] down to 1; [draw i] is
    [Math.floor(Math.random() * (i + 1))] at position [i]. *)
Fixpoint shuffleLoop {A} (draw : nat → nat) (i : nat) (arr : list A) : list A :=
  match i with
  | O => arr
  | S i' => shuffleLoop draw i' (swap i (draw i) arr)
  end.

(** [shuffle(arr)]. *)
Definition shuffle {A} (draw : nat → nat) (arr : list A) : list A :=
  shuffleLoop draw (List.length arr - 1) arr.

End FisherYates.

(** ** Concrete data for the handlers *)

Module HandlerSamples.
Import Backend Handlers Samples.

(** Alice has logged in and holds the token [uuid-1]. *)
Definition aliceIn : State :=
  (_handleLogin (PF := evalPlatform) backend0 aliceLogin "uuid-1"
                "2026-03-03T08:00:00.000Z" 1772500000000).1.

Definition aliceId : string := "STU_A1B2C3D4E5F6".

(** A login for Alice's account with a wrong password. *)
Definition aliceGuess : LoginData := mkLoginData "alice@school.com" "guess".

(** A result Alice sends: 4 of 5 in tenses, high, set 1. *)
Definition aliceResult : ResultData :=
  mkResultData aliceId "Alice" "tenses" "high" "1" (Some 4%Z) (Some 5%Z) (Some 80%Z)
               (Some 30%Z) "2026-03-03T01:06:40.000Z" (Some 1772500000000%Z).

(** The details sheet with one row for Alice. *)
Definition aliceDetails : DetailsRow :=
  mkDetailsRow aliceId "Alice" "Hill School" "10th" "" "Ann" "5550100" "Hill Road 1"
               "2026-03-01T10:00:00.000Z".

End HandlerSamples.

(** ** Concrete data for the browser side *)

Module ClientSamples.
Import Client HandlerSamples.

(** A browser that holds nothing. *)
Definition emptyBrowser : Browser := mkBrowser Missing None None (Api.mkStorage None None).

(** The time of Alice's login, and her browser after it. *)
Definition loginTime : Z := 1772500000000.

Definition aliceBrowser : Browser :=
  (createSession emptyBrowser aliceId "Alice" "alice@school.com" "uuid-1" loginTime).1.

Definition aliceSession : Session :=
  mkSession aliceId "Alice" "alice@school.com" "uuid-1" loginTime
            (Some (loginTime + SESSION_MAX_AGE)%Z) (Some loginTime) None.

(** The registration sheet when Alice has logged in, and her row. *)
Definition sheetIn : list Backend.RegRow := default [] (Backend.REGISTRATION aliceIn).
Definition aliceRowIn : Backend.RegRow := default Samples.alice (sheetIn !! 0%nat).

(** A browser that holds Alice's id and a stored result, and an answer of
    the backend with a better result for the same set. *)
Definition storeBrowser : Browser :=
  mkBrowser (written Samples.storeTenses) (Some aliceId) None (Api.mkStorage None None).

Definition answersTenses : Prefetched :=
  mkPrefetched (Some Samples.remoteTenses) None false.

End ClientSamples.


Local Open Scope list_scope.

(** * Properties of the progress store *)

Section ProgressFacts.
Import Progress.
Implicit Types (m : gmap string (gmap string (gmap string Entry))).
Implicit Types (subject level set : string) (ls : LocalStorage).

Lemma slotOf_Some {A} (mp : gmap string A) k a : mp !! k = Some a → slotOf mp k = Own a.
Proof. unfold slotOf. by intros ->. Qed.

Lemma slotOf_plain {A} (mp : gmap string A) k :
  inherited k = false → slotOf mp k ≠ Inherited.
Proof. unfold slotOf. intros ->. by destruct (mp !! k). Qed.

Lemma slotOf_Inherited {A} (mp : gmap string A) k :
  slotOf mp k = Inherited ↔ mp !! k = None ∧ inherited k = true.
Proof.
  unfold slotOf. destruct (mp !! k); [by split; [|intros []]|].
  destruct (inherited k); by split; [|intros []].
Qed.

Lemma slotOf_insert_ne {A} (mp : gmap string A) k k' a :
  k ≠ k' → slotOf (<[k := a]> mp) k' = slotOf mp k'.
Proof. intros. unfold slotOf. by rewrite lookup_insert_ne. Qed.

Lemma lookupEntry_level m subject level set :
  lookupEntry m subject level set
  = default ∅ (default ∅ (m !! subject) !! level) !! set.
Proof.
  unfold lookupEntry. destruct (m !! subject) as [sub|]; [|done]. cbn.
  by destruct (sub !! level).
Qed.


Lemma leaves_plain m subject level :
  inherited subject = false → inherited level = false → leaves m subject level = false.
Proof.
  intros Hs Hl. unfold leaves.
  pose proof (slotOf_plain m subject Hs).
  pose proof (slotOf_plain (default ∅ (m !! subject)) level Hl).
  destruct (slotOf m subject); [|done|]; by destruct (slotOf _ level).
Qed.

Lemma assign_lookup_eq (lvl : gmap string Entry) set e :
  assign lvl set e !! set
  = if bool_decide (set = "__proto__") && bool_decide (lvl !! set = None)
    then None else Some e.
Proof.
  unfold assign. destruct (bool_decide (set = "__proto__") && _) eqn:Hp.
  - by apply andb_true_iff in Hp as [_ Hp%bool_decide_eq_true].
  - by rewrite lookup_insert_eq.
Qed.

Lemma assign_lookup_ne (lvl : gmap string Entry) set e k :
  k ≠ set → assign lvl set e !! k = lvl !! k.
Proof.
  intros. unfold assign. destruct (_ && _); [done|]. by rewrite lookup_insert_ne.
Qed.

Lemma lookupEntry_putEntry_eq m subject level set e :
  leaves m subject level = false →
  set ≠ "__proto__" ∨ is_Some (lookupEntry m subject level set) →
  lookupEntry (putEntry m subject level set e) subject level set = Some e.
Proof.
  intros Hin Hset. unfold putEntry. unfold leaves in Hin.
  rewrite lookupEntry_level in Hset.
  destruct (slotOf m subject) eqn:Hs; [|done|];
    (destruct (slotOf (default ∅ (m !! subject)) level) eqn:Hl; [|done|]);
    rewrite lookupEntry_level, lookup_insert_eq; cbn; rewrite lookup_insert_eq; cbn;
    rewrite assign_lookup_eq;
    (destruct Hset as [Hne|[old Hold]];
     [by rewrite (bool_decide_eq_false_2 (set = "__proto__"))
     |by rewrite Hold, (bool_decide_eq_false_2 (Some old = None)), andb_false_r]).
Qed.

Lemma lookupEntry_putEntry_ne m subject level set e s' l' k' :
  (s', l', k') ≠ (subject, level, set) →
  lookupEntry (putEntry m subject level set e) s' l' k' = lookupEntry m s' l' k'.
Proof.
  intros Hne. unfold putEntry. rewrite !lookupEntry_level.
  destruct (slotOf m subject); [|done|];
    (destruct (slotOf (default ∅ (m !! subject)) level);
     (destruct (decide (subject = s')) as [->|Hs];
      [rewrite lookup_insert_eq; cbn|by rewrite lookup_insert_ne]);
     [|done| ];
     (destruct (decide (level = l')) as [->|Hl];
      [rewrite lookup_insert_eq; cbn; apply assign_lookup_ne; congruence
      |by rewrite lookup_insert_ne])).
Qed.


Lemma lookupEntry_ensureLevel m subject level s' l' k' :
  lookupEntry (ensureLevel m subject level) s' l' k' = lookupEntry m s' l' k'.
Proof.
  unfold ensureLevel. rewrite !lookupEntry_level.
  destruct (slotOf m subject); [|done|];
    (destruct (slotOf (default ∅ (m !! subject)) level);
     (destruct (decide (subject = s')) as [->|Hs];
      [rewrite lookup_insert_eq; cbn|by rewrite lookup_insert_ne]);
     [|done| ];
     (destruct (decide (level = l')) as [->|Hl];
      [by rewrite lookup_insert_eq|by rewrite lookup_insert_ne])).
Qed.

Lemma assoc_None {A} (k : string) (l : list (string * A)) :
  k ∉ l.*1 → assoc k l = None.
Proof.
  induction l as [|[k' v] l IH]; simpl; [done|].
  intros Hnotin. apply not_elem_of_cons in Hnotin as [Hne Hnotin].
  rewrite bool_decide_eq_false_2 by done. auto.
Qed.

Lemma assoc_cons_ne {A} (k k' : string) (v : A) l :
  k' ≠ k → assoc k ((k', v) :: l) = assoc k l.
Proof. intros. simpl. by rewrite bool_decide_eq_false_2. Qed.

Lemma assoc_cons_eq {A} (k : string) (v : A) l :
  assoc k ((k, v) :: l) = Some v.
Proof. simpl. by rewrite bool_decide_eq_true_2. Qed.


Lemma mergedSet_localEntry (lvl : gmap string Entry) k :
  match lvl !! k with
  | Some e => Some e
  | None => if inherited k then Some noFields else None
  end = localEntryOf lvl k.
Proof. unfold localEntryOf, slotOf. destruct (lvl !! k); [done|]. by destruct (inherited k). Qed.

Lemma mergeSets_lookup subject level sets acc k :
  setsWf sets →
  (mergeSets subject level sets acc).1 !! k =
    mergedSet k (acc.1 !! k)
      (if bool_decide (k = "_meta") then None else mjoin (assoc k sets)).
Proof.
  unfold setsWf. revert acc.
  induction sets as [|[set v] rest IH]; intros acc Hnd.
  { simpl. by case_bool_decide. }
  simpl in Hnd. apply NoDup_cons in Hnd as [Hnotin Hnd].
  cbn [mergeSets]. key_cases set "_meta" Hm.
  { rewrite IH by done. subst set.
    case_bool_decide; [done|]. by rewrite assoc_cons_ne. }
  destruct v as [re|].
  2:{ rewrite IH by done. destruct (decide (k = set)) as [->|Hk].
      - rewrite bool_decide_eq_false_2 by done.
        rewrite assoc_None by done. by rewrite assoc_cons_eq.
      - by rewrite assoc_cons_ne. }
  rewrite IH by done. cbn [fst snd].
  destruct (decide (k = set)) as [->|Hk].
  - rewrite bool_decide_eq_false_2 by done.
    rewrite assoc_None by done. rewrite assoc_cons_eq. cbn [mjoin option_join mergedSet].
    rewrite mergedSet_localEntry.
    destruct (remoteWins (localEntryOf acc.1 set) re); [|done].
    apply assign_lookup_eq.
  - rewrite assoc_cons_ne by done.
    destruct (remoteWins (localEntryOf acc.1 set) re); [|done].
    by rewrite assign_lookup_ne.
Qed.

Lemma lookup2_default (sm : gmap string (gmap string Entry)) level set :
  default ∅ (sm !! level) !! set = lookup2 sm level set.
Proof. unfold lookup2. by destruct (sm !! level). Qed.

Lemma reached2_cons level v rest l k :
  level ∉ rest.*1 →
  reached2 ((level, v) :: rest) l k = reached2 rest l k
  ∨ (l = level ∧ level ≠ "_meta" ∧ ∃ sets, v = RObj sets).
Proof.
  intros Hnotin. unfold reached2. destruct (_ || _) eqn:Hres; [by left|].
  apply orb_false_iff in Hres as [Hl%bool_decide_eq_false _].
  destruct (decide (l = level)) as [->|Hne].
  - destruct v as [sets|]; [right; eauto|].
    left. rewrite assoc_cons_eq. by rewrite assoc_None.
  - left. by rewrite assoc_cons_ne.
Qed.

Lemma reached2_None rest l k : l ∉ rest.*1 → reached2 rest l k = None.
Proof. intros. unfold reached2. destruct (_ || _); [done|]. by rewrite assoc_None. Qed.

(** The levels of one subject after the loop: under a level that the
    subject inherits nothing is stored. *)
Lemma mergeLevels_lookup subject levels acc l k :
  levelsWf levels →
  lookup2 (mergeLevels subject levels acc).1 l k =
    match slotOf acc.1 l with
    | Inherited => lookup2 acc.1 l k
    | _ => mergedSet k (lookup2 acc.1 l k) (reached2 levels l k)
    end.
Proof.
  unfold levelsWf. revert acc.
  induction levels as [|[level v] rest IH]; intros acc [Hnd Hall].
  { unfold reached2. simpl. destruct (slotOf acc.1 l); [|done|]; by destruct (_ || _). }
  simpl in Hnd. apply NoDup_cons in Hnd as [Hnotin Hnd].
  apply Forall_cons in Hall as [Hv Hall]. simpl in Hv.
  pose proof (reached2_cons level v rest l k Hnotin) as Hskip.
  cbn [mergeLevels]. key_cases level "_meta" Hm.
  { rewrite IH by done. destruct Hskip as [->|(_ & ? & _)]; done. }
  destruct v as [sets|].
  2:{ rewrite IH by done. destruct Hskip as [->|(_ & _ & ? & ?)]; done. }
  destruct (decide (l = level)) as [->|Hne].
  - rewrite (reached2_None rest) in IH by done.
    destruct (slotOf acc.1 level) eqn:Hslot.
    + rewrite IH by done. cbn [fst snd mergedSet].
      rewrite (slotOf_Some _ _ _ (lookup_insert_eq _ _ _)).
      unfold lookup2 at 1; rewrite lookup_insert_eq. cbn.
      rewrite mergeSets_lookup by done. cbn [fst].
      rewrite lookup2_default. f_equal. unfold reached2.
      rewrite (bool_decide_eq_false_2 _ Hm). cbn [orb]. by rewrite assoc_cons_eq.
    + rewrite IH by done. cbn [fst snd]. rewrite Hslot. done.
    + rewrite IH by done. cbn [fst snd mergedSet].
      rewrite (slotOf_Some _ _ _ (lookup_insert_eq _ _ _)).
      unfold lookup2 at 1; rewrite lookup_insert_eq. cbn.
      rewrite mergeSets_lookup by done. cbn [fst].
      rewrite lookup2_default. f_equal. unfold reached2.
      rewrite (bool_decide_eq_false_2 _ Hm). cbn [orb]. by rewrite assoc_cons_eq.
  - assert (Hr : reached2 ((level, RObj sets) :: rest) l k = reached2 rest l k).
    { destruct Hskip as [->|(? & _)]; done. }
    rewrite Hr.
    destruct (slotOf acc.1 level) eqn:Hslot; rewrite IH by done; cbn [fst snd];
      rewrite ?slotOf_insert_ne by done; unfold lookup2;
      rewrite ?lookup_insert_ne by done; done.
Qed.

Lemma lookupEntry_default m subject level set :
  lookup2 (default ∅ (m !! subject)) level set = lookupEntry m subject level set.
Proof.
  unfold lookup2, lookupEntry. destruct (m !! subject); [done|].
  simpl. by rewrite lookup_empty.
Qed.

Lemma remoteEntryAt_reserved remote s l k :
  reservedSubject s = true → remoteEntryAt remote s l k = None.
Proof. unfold reservedSubject, remoteEntryAt, reservedPath. by intros ->. Qed.

Lemma remoteEntryAt_here levels rest s l k :
  reservedSubject s = false →
  remoteEntryAt ((s, RObj levels) :: rest) s l k = reached2 levels l k.
Proof.
  unfold reservedSubject, remoteEntryAt, reservedPath, remoteAt, reached2.
  intros ->. cbn [orb].
  destruct (_ || _); [done|]. by rewrite assoc_cons_eq.
Qed.

Lemma remoteEntryAt_skip_ne subject v rest s l k :
  subject ≠ s →
  remoteEntryAt ((subject, v) :: rest) s l k = remoteEntryAt rest s l k.
Proof. intros. unfold remoteEntryAt, remoteAt. by rewrite assoc_cons_ne. Qed.

Lemma remoteEntryAt_absent remote s l k :
  s ∉ remote.*1 → remoteEntryAt remote s l k = None.
Proof.
  intros. unfold remoteEntryAt, remoteAt. destruct (reservedPath _ _ _); [done|].
  by rewrite assoc_None.
Qed.

Lemma remoteEntryAt_scalar rest s l k :
  s ∉ rest.*1 → remoteEntryAt ((s, RScalar) :: rest) s l k = None.
Proof.
  intros. unfold remoteEntryAt, remoteAt. destruct (reservedPath _ _ _); [done|].
  by rewrite assoc_cons_eq.
Qed.

(** The store after the loops: on a path that leaves the store nothing is
    stored; a set of a level of the store is merged. *)
Lemma mergeSubjects_lookup remote acc s l k :
  remoteWf remote →
  lookupEntry (mergeSubjects remote acc).1 s l k =
    if leaves acc.1 s l then lookupEntry acc.1 s l k
    else mergedSet k (lookupEntry acc.1 s l k) (remoteEntryAt remote s l k).
Proof.
  unfold remoteWf. revert acc.
  induction remote as [|[subject v] rest IH]; intros acc [Hnd Hall].
  { unfold remoteEntryAt. simpl. destruct (leaves _ _ _); [done|]. by destruct (reservedPath _ _ _). }
  simpl in Hnd. apply NoDup_cons in Hnd as [Hnotin Hnd].
  apply Forall_cons in Hall as [Hv Hall]. simpl in Hv.
  cbn [mergeSubjects]. fold (reservedSubject subject).
  destruct (reservedSubject subject) eqn:Hres.
  { rewrite IH by done. destruct (decide (subject = s)) as [->|Hne].
    - by rewrite !remoteEntryAt_reserved.
    - by rewrite remoteEntryAt_skip_ne. }
  destruct v as [levels|].
  2:{ rewrite IH by done. destruct (decide (subject = s)) as [->|Hne].
      - rewrite remoteEntryAt_scalar by done. by rewrite remoteEntryAt_absent.
      - by rewrite remoteEntryAt_skip_ne. }
  destruct (decide (subject = s)) as [->|Hne].
  - assert (Hrest : ∀ acc', lookupEntry (mergeSubjects rest acc').1 s l k
                            = lookupEntry acc'.1 s l k).
    { intros acc'. rewrite IH by done. rewrite remoteEntryAt_absent by done.
      by destruct (leaves _ _ _). }
    rewrite remoteEntryAt_here by done. unfold leaves.
    destruct (slotOf acc.1 s) eqn:Hslot; rewrite Hrest; cbn [fst snd]; [|done|];
      unfold lookupEntry at 1; rewrite lookup_insert_eq; cbn [mbind option_bind];
      match goal with
      | |- context [mergeLevels s levels ?a] =>
          fold (lookup2 (mergeLevels s levels a).1 l k)
      end;
      rewrite mergeLevels_lookup by done; cbn [fst];
      rewrite lookupEntry_default;
      by destruct (slotOf (default ∅ (acc.1 !! s)) l).
  - rewrite remoteEntryAt_skip_ne by done.
    destruct (slotOf acc.1 subject) eqn:Hslot; rewrite IH by done; cbn [fst snd];
      [|done|]; unfold leaves; rewrite !slotOf_insert_ne by done;
      unfold lookupEntry; rewrite !lookup_insert_ne by done; done.
Qed.

Lemma remoteWins_pct old re :
  is_Some old → remoteWins old re = true → (pctOf old ≤ pctOf (Some re))%Z.
Proof.
  intros Hsome. unfold remoteWins.
  rewrite (bool_decide_eq_true_2 _ Hsome). cbn [negb orb].
  intros [Hlt%bool_decide_eq_true|[Heq%bool_decide_eq_true _]%andb_true_iff]%orb_true_iff; lia.
Qed.

Lemma pctOf_fromRemote re : pctOf (Some (fromRemote re)) = pctOf (Some re).
Proof. done. Qed.




(** C10. Every call of [saveResult] (with a subject other than the reserved
    key) sets [_meta.lastAttempted] to the subject, level, set, percentage,
    date and timestamp of the new attempt and keeps the other fields of
    [_meta]; when the new percentage is lower than the stored best, the
    subject dictionaries are unchanged; and the entry of every other
    subject/level/set is unchanged in all cases. *)
Theorem saveResult_frame {PF : Platform} ls today now subject level set
    score total timeTaken :
  subject ≠ "_meta" →
  let r := saveResult ls today now subject level set score total timeTaken in
  let pct := Math_round_pct score total in
  meta (getAll r.1) ≫= lastAttempted
    = Some (mkAttempt subject level set pct today (Some now)) ∧
  otherFields <$> meta (getAll r.1)
    = Some (otherFields (default (mkMeta None ∅) (meta (getAll ls)))) ∧
  ((pct < pctOf (getSetResult ls subject level set))%Z →
     subjects (getAll r.1) = subjects (getAll ls)) ∧
  (∀ s' l' k', (s', l', k') ≠ (subject, level, set) →
     getSetResult r.1 s' l' k' = getSetResult ls s' l' k').
Proof.
  intros _. simpl. split; [done|]. split; [done|]. split.
  - intros Hlt. rewrite bool_decide_eq_false_2; [done|].
    unfold getSetResult in Hlt. lia.
  - intros s' l' k' Hne. unfold getSetResult. simpl.
    case_bool_decide; [|done]. by apply lookupEntry_putEntry_ne.
Qed.

End ProgressFacts.

(** * The backend's best-per-set scan *)

Section StudentProgressFacts.
Import Progress Backend.
Implicit Types (row : ResRow) (data : list ResRow).
Implicit Types (progress : gmap string (gmap string (gmap string Entry))).

Lemma inherited_proto k : inherited k = false → k ≠ "__proto__".
Proof. intros Hk ->. by vm_compute in Hk. Qed.

Lemma progressLoop_step_ne sid row progress s l k :
  (s, l, k) ≠ (SUBJECT row, LEVEL row, SET row) →
  lookupEntry (progressLoop sid [row] progress) s l k = lookupEntry progress s l k.
Proof.
  intros Hne. cbn [progressLoop]. destruct (negb _); [done|].
  destruct (_ && _).
  - by apply lookupEntry_putEntry_ne.
  - apply lookupEntry_ensureLevel.
Qed.

Lemma progressLoop_cons sid row rest progress :
  progressLoop sid (row :: rest) progress
  = progressLoop sid rest (progressLoop sid [row] progress).
Proof. cbn [progressLoop]. by destruct (negb _). Qed.

(** A slot on a path of names that no object inherits. *)
Lemma progressLoop_slot sid data progress s l k :
  inherited s = false → inherited l = false → inherited k = false →
  lookupEntry (progressLoop sid data progress) s l k
  = foldl (slotStep sid s l k) (lookupEntry progress s l k) data.
Proof.
  intros Hs Hl Hk.
  revert progress. induction data as [|row rest IH]; intros progress; [done|].
  rewrite progressLoop_cons, IH. cbn [foldl]. f_equal.
  unfold slotStep, resultOf.
  destruct (decide (RES_STUDENT_ID row = sid)) as [Hsid|Hsid].
  2:{ cbn [progressLoop]. rewrite (bool_decide_eq_false_2 _ Hsid). cbn [negb].
      by rewrite bool_decide_eq_false_2 by (intros (? & ? & ? & ?); congruence). }
  destruct (decide ((s, l, k) = (SUBJECT row, LEVEL row, SET row))) as [Heq|Hne].
  2:{ rewrite progressLoop_step_ne by done.
      by rewrite bool_decide_eq_false_2 by (intros (? & ? & ? & ?); congruence). }
  simplify_eq. rewrite bool_decide_eq_true_2 by done.
  cbn [progressLoop]. rewrite (bool_decide_eq_true_2 (RES_STUDENT_ID row = _)) by done.
  cbn [negb]. rewrite (leaves_plain _ _ _ Hs Hl). cbn [negb andb].
  rewrite (lookupEntry_level progress). unfold slotOf at 1. rewrite Hk.
  destruct (default ∅ (default ∅ (progress !! SUBJECT row) !! LEVEL row) !! SET row)
    as [e|] eqn:Hex.
  - case_bool_decide.
    + apply lookupEntry_putEntry_eq; [by apply leaves_plain|].
      left. by apply inherited_proto.
    + by rewrite lookupEntry_ensureLevel, lookupEntry_level.
  - apply lookupEntry_putEntry_eq; [by apply leaves_plain|].
    left. by apply inherited_proto.
Qed.

(** A slot of which the student has no row. *)
Lemma progressLoop_slot_none sid data progress s l k :
  (∀ row, row ∈ data → ¬ resultOf sid s l k row) →
  lookupEntry (progressLoop sid data progress) s l k = lookupEntry progress s l k.
Proof.
  revert progress. induction data as [|row rest IH]; intros progress Hno; [done|].
  rewrite progressLoop_cons, IH by (intros ? ?; apply Hno; set_solver).
  destruct (decide (RES_STUDENT_ID row = sid)) as [Hsid|Hsid].
  2:{ cbn [progressLoop]. by rewrite (bool_decide_eq_false_2 _ Hsid). }
  apply progressLoop_step_ne. intros [= -> -> ->].
  apply (Hno row); [set_solver|done].
Qed.

(** Under a set name that the level inherits nothing is stored. *)
Lemma progressLoop_slot_inherited sid data progress s l k :
  inherited k = true →
  lookupEntry progress s l k = None →
  lookupEntry (progressLoop sid data progress) s l k = None.
Proof.
  intros Hk. revert progress. induction data as [|row rest IH]; intros progress Hnone;
    [done|].
  rewrite progressLoop_cons. apply IH.
  destruct (decide ((s, l, k) = (SUBJECT row, LEVEL row, SET row))) as [Heq|Hne].
  2:{ by rewrite progressLoop_step_ne. }
  simplify_eq. cbn [progressLoop]. destruct (negb _); [done|].
  rewrite lookupEntry_level in Hnone. unfold slotOf at 1. rewrite Hnone, Hk.
  rewrite andb_false_r. by rewrite lookupEntry_ensureLevel, lookupEntry_level.
Qed.

Lemma slotFold_bestOf sid s l k data :
  bestOf sid s l k data (foldl (slotStep sid s l k) None data).
Proof.
  induction data as [|x data IH] using rev_ind.
  { simpl. intros row Hin. by apply elem_of_nil in Hin. }
  rewrite foldl_snoc. unfold slotStep at 1.
  destruct (decide (resultOf sid s l k x)) as [Hx|Hx].
  - rewrite (bool_decide_eq_true_2 _ Hx).
    destruct (foldl (slotStep sid s l k) None data) as [e|]; simpl in IH.
    + destruct IH as (row & Hin & Hrow & -> & Hmax). simpl.
      case_bool_decide as Hcmp; simpl.
      * exists x. split; [set_solver|]. split; [done|]. split; [done|].
        intros row' [Hin'|Hlast%list_elem_of_singleton]%elem_of_app Hrow'; simplify_eq; [|lia].
        specialize (Hmax _ Hin' Hrow'). lia.
      * exists row. split; [set_solver|]. split; [done|]. split; [done|].
        intros row' [Hin'|Hlast%list_elem_of_singleton]%elem_of_app Hrow'; simplify_eq; [by apply Hmax|lia].
    + simpl. exists x. split; [set_solver|]. split; [done|]. split; [done|].
      intros row' [Hin'|Hlast%list_elem_of_singleton]%elem_of_app Hrow'; simplify_eq; [|lia].
      by destruct (IH _ Hin').
  - rewrite (bool_decide_eq_false_2 _ Hx).
    destruct (foldl (slotStep sid s l k) None data) as [e|]; simpl in *.
    + destruct IH as (row & Hin & Hrow & -> & Hmax).
      exists row. split; [set_solver|]. split; [done|]. split; [done|].
      intros row' [Hin'|Hlast%list_elem_of_singleton]%elem_of_app Hrow'; simplify_eq; [by apply Hmax|done].
    + intros row [Hin'|Hlast%list_elem_of_singleton]%elem_of_app; simplify_eq; [by apply IH|done].
Qed.

End StudentProgressFacts.

(** * Best-score merge *)

Section BestScore.
Import Progress Backend.


Lemma getStudentProgress_bestOf st sid s l k :
  plainRows sid (default [] (RESULTS st)) →
  inherited k = false →
  bestOf sid s l k (default [] (RESULTS st))
         (lookupEntry (_getStudentProgress st sid) s l k).
Proof.
  intros Hrows Hk.
  unfold _getStudentProgress. destruct (RESULTS st) as [data|]; simpl.
  2:{ unfold lookupEntry. rewrite lookup_empty. simpl.
      intros row Hin. by apply elem_of_nil in Hin. }
  simpl in Hrows.
  destruct (inherited s) eqn:Hs; [|destruct (inherited l) eqn:Hl].
  - assert (Hno : ∀ row, row ∈ data → ¬ resultOf sid s l k row).
    { intros row Hin (Hsid & <- & _). destruct (Hrows row Hin Hsid). congruence. }
    rewrite progressLoop_slot_none by done. by unfold lookupEntry; rewrite lookup_empty.
  - assert (Hno : ∀ row, row ∈ data → ¬ resultOf sid s l k row).
    { intros row Hin (Hsid & _ & <- & _). destruct (Hrows row Hin Hsid). congruence. }
    rewrite progressLoop_slot_none by done. by unfold lookupEntry; rewrite lookup_empty.
  - rewrite progressLoop_slot by done. apply slotFold_bestOf.
Qed.

Lemma getStudentProgress_inherited st sid s l k :
  inherited k = true → lookupEntry (_getStudentProgress st sid) s l k = None.
Proof.
  intros Hk. unfold _getStudentProgress. destruct (RESULTS st) as [data|].
  - by apply progressLoop_slot_inherited.
  - done.
Qed.


End BestScore.

Section ProgressExamples.
Import Progress Backend Samples.

Lemma remoteTenses_wf : remoteWf remoteTenses.
Proof. apply (bool_decide_unpack _). by vm_compute. Defined.




(** The same under a subject that the store inherits: the loops reach the
    remote entry, there is no local entry, and the store after the merge
    holds none. *)
Example mergeBackendData_inherited_subject :
  remoteEntryAt [("constructor", RObj [("high", RObj [("1", Some entry90)])])]
                "constructor" "high" "1" = Some entry90 ∧
  subjects (getAll (_mergeBackendData None
    [("constructor", RObj [("high", RObj [("1", Some entry90)])])])) = ∅.
Proof. by vm_compute. Qed.

(** The one result row of a student, under the subject [constructor]: the
    object [_getStudentProgress] returns holds no entry for it. *)
Example getStudentProgress_inherited_subject :
  let row := mkResRow "STU_1" "Ann" "constructor" "high" "1" 9 10 90 30
                      "2026-03-03T01:06:40.000Z" 1772500000000 in
  lookupEntry (_getStudentProgress (mkState None (Some [row]) ∅) "STU_1")
              "constructor" "high" "1" = None.
Proof. by vm_compute. Qed.



Lemma saveResult_frame_witness :
  let r := saveResult (PF := evalPlatform) storeTenses "Mar 3, 2026" 1772500000000%Z
                      "tenses" "high" "1" 3 5 None in
  meta (getAll r.1) ≫= lastAttempted
    = Some (mkAttempt "tenses" "high" "1" 60%Z "Mar 3, 2026" (Some 1772500000000%Z)) ∧
  subjects (getAll r.1) = subjects (getAll storeTenses).
Proof.
  destruct (saveResult_frame (PF := evalPlatform) storeTenses "Mar 3, 2026"
              1772500000000%Z "tenses" "high" "1" 3 5 None)
    as (Hla & _ & Hsame & _); [done|].
  split; [exact Hla|]. apply Hsame. by vm_compute.
Defined.

End ProgressExamples.

Section PlatformExamples.

(** The doubles of the evaluation platform: [0.145 * 100] falls just below
    14.5, [12.5] rounds up, [-12.5] rounds towards positive infinity. *)
Example roundPct_samples :
  Doubles.roundPct 29 200 = 14%Z ∧ Doubles.roundPct 1 8 = 13%Z ∧
  Doubles.roundPct (-1) 8 = (-12)%Z ∧ Doubles.roundPct 2 3 = 67%Z ∧
  Doubles.roundPct 5 5 = 100%Z.
Proof. by vm_compute. Qed.

End PlatformExamples.


(** * Properties of result syncing and of the offline queue *)

Section ApiFacts.
Import Api.
Implicit Types (st : Storage) (queue remaining : list QueueItem).
Implicit Types (outcomes : nat → FetchOutcome) (item : QueueItem).

(** C7. When sending the result fails (a status that is not OK, or a network
    error), [syncResult] returns a result with [success: false] and the stored
    queue becomes the old queue followed by the whole payload with
    [retries: 0], the dashboard cache being left alone; when sending succeeds,
    the result has [success: true], the stored queue is untouched and the
    dashboard cache is no longer valid. *)
Theorem syncResult_queues_on_failure {PF : Platform} st sid name now nowIso outcome
    subject level set score total timeTaken :
  let r := syncResult st sid name now nowIso outcome
                      subject level set score total timeTaken in
  let payload :=
    mkPayload "saveResult" sid (default "Anonymous" name) subject level set
              score total timeTaken (Math_round_pct score total) now nowIso in
  match outcome with
  | HttpError _ | NetworkError _ =>
      success r.2 = false ∧
      syncQueue r.1 = Some (_getQueue st ++ [mkQueueItem payload (Some 0%Z)])%list ∧
      dashboardCache r.1 = dashboardCache st
  | HttpOk _ =>
      success r.2 = true ∧
      syncQueue r.1 = syncQueue st ∧
      _hasValidCache r.1 = false
  end.
Proof.
  destruct outcome as [body|status|msg]; cbn.
  - split; [done|]. unfold invalidateCache, _hasValidCache.
    destruct (dashboardCache st) as [cache|] eqn:Hcache; simpl; [done|].
    by rewrite Hcache.
  - done.
  - done.
Qed.

(** The list collected so far is a prefix of the result. *)
Lemma retryLoop_app outcomes i queue remaining :
  retryLoop outcomes i queue remaining = remaining ++ retryLoop outcomes i queue [].
Proof.
  revert i remaining. induction queue as [|item rest IH]; intros i remaining.
  { simpl. by rewrite app_nil_r. }
  cbn [retryLoop]. destruct (negb _); [|apply IH].
  case_bool_decide; [|apply IH].
  rewrite app_nil_l, IH, (IH _ [_]). by rewrite app_assoc.
Qed.

(** The items one pass of the loop collects. *)
Lemma retryLoop_elem outcomes i queue item' :
  item' ∈ retryLoop outcomes i queue [] ↔
  ∃ j item, queue !! j = Some item ∧
            success (_sendPayload (outcomes (i + j)%nat)) = false ∧
            (retriesOf item + 1 < MAX_RETRIES)%Z ∧
            item' = mkQueueItem (payload item) (Some (retriesOf item + 1)%Z).
Proof.
  revert i. induction queue as [|item rest IH]; intros i.
  { simpl. split; [by intros ?%elem_of_nil|]. by intros (j & it & ? & _). }
  cbn [retryLoop].
  assert (Hrest : (∃ j it, rest !! j = Some it ∧
                      success (_sendPayload (outcomes (S i + j)%nat)) = false ∧
                      (retriesOf it + 1 < MAX_RETRIES)%Z ∧
                      item' = mkQueueItem (payload it) (Some (retriesOf it + 1)%Z)) →
                  ∃ j it, (item :: rest) !! j = Some it ∧
                      success (_sendPayload (outcomes (i + j)%nat)) = false ∧
                      (retriesOf it + 1 < MAX_RETRIES)%Z ∧
                      item' = mkQueueItem (payload it) (Some (retriesOf it + 1)%Z)).
  { intros (j & it & Hj & Hf & Hlt & ->). exists (S j), it.
    by replace (i + S j)%nat with (S i + j)%nat by lia. }
  assert (Hhead : ∀ j it, (item :: rest) !! j = Some it →
                    success (_sendPayload (outcomes (i + j)%nat)) = false →
                    (j = 0%nat ∧ it = item
                       ∧ success (_sendPayload (outcomes i)) = false)
                    ∨ ∃ j', rest !! j' = Some it
                       ∧ success (_sendPayload (outcomes (S i + j')%nat)) = false).
  { intros [|j'] it Hj Hf.
    - left. rewrite Nat.add_0_r in Hf. by simplify_eq/=.
    - right. exists j'. by replace (S i + j')%nat with (i + S j')%nat by lia. }
  destruct (success (_sendPayload (outcomes i))) eqn:Hs; cbn [negb].
  - rewrite IH. split; [done|].
    intros (j & it & Hj & Hf & Hlt & ->).
    destruct (Hhead _ _ Hj Hf) as [(_ & _ & ?)|(j' & ? & ?)]; [congruence|eauto 10].
  - unfold retriesOf at 1. cbn [retries default].
    fold (retriesOf item). case_bool_decide as Hlt.
    + rewrite app_nil_l, retryLoop_app, elem_of_app, list_elem_of_singleton, IH.
      split.
      * intros [->|Hin]; [|by apply Hrest].
        exists 0%nat, item. by rewrite Nat.add_0_r.
      * intros (j & it & Hj & Hf & Hlt' & ->).
        destruct (Hhead _ _ Hj Hf) as [(_ & -> & _)|(j' & ? & ?)]; [by left|].
        right. eauto 10.
    + rewrite IH. split; [done|].
      intros (j & it & Hj & Hf & Hlt' & ->).
      destruct (Hhead _ _ Hj Hf) as [(_ & -> & _)|(j' & ? & ?)]; [done|eauto 10].
Qed.

Lemma getQueue_retryQueue st outcomes :
  _getQueue (retryQueue st outcomes) = retryLoop outcomes 0 (_getQueue st) [].
Proof.
  unfold retryQueue. simpl. case_bool_decide as Hlen; [|done].
  apply nil_length_inv in Hlen. by rewrite Hlen.
Qed.

(** Every item left by one run has been retried once more. *)
Lemma retryQueue_retries_grow st outcomes (n : Z) :
  (∀ item, item ∈ _getQueue st → (n ≤ retriesOf item)%Z) →
  ∀ item, item ∈ _getQueue (retryQueue st outcomes) →
          (n + 1 ≤ retriesOf item)%Z ∧ (retriesOf item < MAX_RETRIES)%Z.
Proof.
  intros Hall item Hin. rewrite getQueue_retryQueue in Hin.
  apply retryLoop_elem in Hin as (j & it & Hj & _ & Hlt & ->).
  apply list_elem_of_lookup_2 in Hj. specialize (Hall _ Hj).
  unfold retriesOf at 1 3. simpl. lia.
Qed.

(** C4. One run of [retryQueue] leaves in the queue exactly the items whose
    send failed and whose incremented counter is strictly less than
    [MAX_RETRIES = 3], each with the incremented counter (so an item whose
    send succeeds is removed); and a queue of items with counters from 0 up
    is empty after three runs, however the requests end. *)
Theorem retryQueue_bounded st :
  MAX_RETRIES = 3%Z ∧
  (∀ outcomes item',
     item' ∈ _getQueue (retryQueue st outcomes) ↔
     ∃ i item, _getQueue st !! i = Some item ∧
               success (_sendPayload (outcomes i)) = false ∧
               (retriesOf item + 1 < MAX_RETRIES)%Z ∧
               item' = mkQueueItem (payload item) (Some (retriesOf item + 1)%Z)) ∧
  ((∀ item, item ∈ _getQueue st → (0 ≤ retriesOf item)%Z) →
   ∀ o1 o2 o3,
     _getQueue (retryQueue (retryQueue (retryQueue st o1) o2) o3) = []).
Proof.
  split; [done|]. split.
  - intros outcomes item'. rewrite getQueue_retryQueue. apply retryLoop_elem.
  - intros Hall o1 o2 o3.
    pose proof (retryQueue_retries_grow st o1 0 Hall) as H1.
    pose proof (retryQueue_retries_grow (retryQueue st o1) o2 1
                  (λ item Hin, proj1 (H1 item Hin))) as H2.
    pose proof (retryQueue_retries_grow (retryQueue (retryQueue st o1) o2) o3 2
                  (λ item Hin, proj1 (H2 item Hin))) as H3.
    destruct (_getQueue (retryQueue (retryQueue (retryQueue st o1) o2) o3))
      as [|item rest]; [done|].
    destruct (H3 item) as [Hlo Hhi]; [by left|]. unfold MAX_RETRIES in Hhi. lia.
Qed.

End ApiFacts.

Section ApiExamples.
Import Api Samples.

Example syncResult_offline :
  let r := syncResult (PF := evalPlatform) storageQueued "STU_A1B2C3D4E5F6" (Some "Alice")
             1772500000000 "2026-03-03T01:06:40.000Z" (HttpError 503)
             "tenses" "high" "1" 4 5 30 in
  success r.2 = false ∧ reason r.2 = Some (http_ 503) ∧
  _getQueue r.1 = _getQueue storageQueued ++ [mkQueueItem payload1 (Some 0%Z)] ∧
  _hasValidCache r.1 = true.
Proof. by vm_compute. Qed.

Example syncResult_online :
  let r := syncResult (PF := evalPlatform) storageQueued "STU_A1B2C3D4E5F6" (Some "Alice")
             1772500000000 "2026-03-03T01:06:40.000Z" (HttpOk None)
             "tenses" "high" "1" 4 5 30 in
  success r.2 = true ∧ _getQueue r.1 = _getQueue storageQueued ∧
  _hasValidCache r.1 = false.
Proof. by vm_compute. Qed.

Lemma storageQueued_retries item :
  item ∈ _getQueue storageQueued → (0 ≤ retriesOf item)%Z.
Proof.
  intros Hin. repeat (apply elem_of_cons in Hin as [->|Hin]; [by vm_compute|]).
  by apply elem_of_nil in Hin.
Defined.

Lemma retryQueue_bounded_witness :
  _getQueue (retryQueue storageQueued offline) = [mkQueueItem payload1 (Some 1%Z)] ∧
  _getQueue (retryQueue (retryQueue (retryQueue storageQueued offline) offline) offline)
    = [].
Proof.
  split; [by vm_compute|].
  exact (proj2 (proj2 (retryQueue_bounded storageQueued)) storageQueued_retries
               offline offline offline).
Defined.

End ApiExamples.


(** * Properties of the string operations *)

Section JsStringFacts.
Import JsString.

Lemma isWhiteSpace_lowerChar c : isWhiteSpace (lowerChar c) = isWhiteSpace c.
Proof.
  destruct c as [[] [] [] [] [] [] [] []]; reflexivity.
Qed.

Lemma toLowerCase_trimStart s :
  toLowerCase (trimStart s) = trimStart (toLowerCase s).
Proof.
  induction s as [|c s IH]; [done|]. cbn [trimStart toLowerCase mapChars].
  rewrite isWhiteSpace_lowerChar. destruct (isWhiteSpace c); [apply IH|done].
Qed.

Lemma toLowerCase_empty s : toLowerCase s = "" ↔ s = "".
Proof. destruct s; [done|]. split; discriminate. Qed.

Lemma toLowerCase_trimEnd s :
  toLowerCase (trimEnd s) = trimEnd (toLowerCase s).
Proof.
  induction s as [|c s IH]; [done|]. cbn [trimEnd toLowerCase mapChars].
  fold (toLowerCase s). rewrite <- IH.
  destruct (trimEnd s) as [|c' s'] eqn:Hs; cbn.
  - rewrite isWhiteSpace_lowerChar. by destruct (isWhiteSpace c).
  - done.
Qed.

Lemma toLowerCase_trim s : toLowerCase (trim s) = trim (toLowerCase s).
Proof. unfold trim. by rewrite toLowerCase_trimEnd, toLowerCase_trimStart. Qed.

Lemma toLowerCase_idemp s : toLowerCase (toLowerCase s) = toLowerCase s.
Proof.
  induction s as [|c s IH]; [done|]. cbn [toLowerCase mapChars]. f_equal; [|apply IH].
  destruct c as [[] [] [] [] [] [] [] []]; reflexivity.
Qed.

Lemma trimStart_clean s : startsClean (trimStart s).
Proof.
  induction s as [|c s IH]; [done|]. cbn [trimStart].
  destruct (isWhiteSpace c) eqn:Hc; [done|]. exact Hc.
Qed.

Lemma trimStart_of_clean s : startsClean s → trimStart s = s.
Proof. destruct s as [|c s]; [done|]. cbn. by intros ->. Qed.

Lemma trimEnd_clean s : startsClean s → startsClean (trimEnd s).
Proof.
  destruct s as [|c s]; [done|]. cbn. intros Hc.
  destruct (trimEnd s); [by rewrite Hc|done].
Qed.

Lemma trimEnd_cons c s :
  trimEnd (String c s) =
    match trimEnd s with
    | EmptyString => if isWhiteSpace c then EmptyString else String c EmptyString
    | rest => String c rest
    end.
Proof. done. Qed.

Lemma trimEnd_idemp s : trimEnd (trimEnd s) = trimEnd s.
Proof.
  induction s as [|c s IH]; [done|]. rewrite trimEnd_cons.
  destruct (trimEnd s) as [|c' s'] eqn:Hs.
  - destruct (isWhiteSpace c) eqn:Hc; [done|]. cbn. by rewrite Hc.
  - rewrite trimEnd_cons, IH. done.
Qed.

Lemma trim_idemp s : trim (trim s) = trim s.
Proof.
  unfold trim. rewrite (trimStart_of_clean (trimEnd _)).
  - apply trimEnd_idemp.
  - apply trimEnd_clean, trimStart_clean.
Qed.

Example trim_sample : trim "  Alice Smith 	 " = "Alice Smith" ∧ trim "   " = "".
Proof. split; reflexivity. Qed.

Example toLowerCase_sample : toLowerCase " Alice@School.COM" = " alice@school.com".
Proof. reflexivity. Qed.

Example studentId_sample :
  ("STU_" ++ toUpperCase (prefix 12 (removeDashes "1b4e28ba-2fa1-11d2-883f-0016d3cca427")))%string
  = "STU_1B4E28BA2FA1".
Proof. reflexivity. Qed.

Example sliceLast2_sample : sliceLast2 "0ff" = "ff" ∧ sliceLast2 "0a" = "0a".
Proof. split; reflexivity. Qed.

End JsStringFacts.

(** * Properties of the backend handlers *)

Section BackendFacts.
Import JsString Backend.
Context {PF : Platform}.
Implicit Types (st : State) (sheet : list RegRow) (row : RegRow).

Lemma findNext_bounds mc searchStr cells i j :
  findNext mc searchStr cells i = Some j → (i ≤ j < i + List.length cells)%nat.
Proof.
  revert i. induction cells as [|c cells IH]; intros i; [done|]. simpl.
  destruct (if mc then _ else _).
  - intros [= <-]. lia.
  - intros Hj%IH. lia.
Qed.

Lemma findRow_lookup sheet col v rowIndex row :
  _findRowByColumn sheet col v = Some (rowIndex, row) →
  (2 ≤ rowIndex)%nat ∧ sheet !! (rowIndex - 2)%nat = Some row.
Proof.
  unfold _findRowByColumn. intros Hfind.
  repeat (case_match; simplify_eq; try done).
  all: split; [lia|]; by replace (n + 2 - 2)%nat with n by lia.
Qed.

Lemma findRow_elem sheet col v rowIndex row :
  _findRowByColumn sheet col v = Some (rowIndex, row) → row ∈ sheet.
Proof. intros [_ Hl]%findRow_lookup. by eapply list_elem_of_lookup_2. Qed.

(** The rows after [setRow]. *)
Lemma setRow_lookup_eq sheet rowIndex f row :
  sheet !! (rowIndex - 2)%nat = Some row →
  setRow sheet rowIndex f !! (rowIndex - 2)%nat = Some (f row).
Proof. intros Hl. unfold setRow. by rewrite list_lookup_alter_eq, Hl. Qed.

Lemma setRow_lookup_ne sheet rowIndex f j :
  j ≠ (rowIndex - 2)%nat → setRow sheet rowIndex f !! j = sheet !! j.
Proof. intros Hne. unfold setRow. by rewrite list_lookup_alter_ne. Qed.

(** A change of a row that keeps the cells of a column keeps what a search
    of that column finds, up to the change itself. *)
Lemma findRow_setRow sheet col v rowIndex f :
  (2 ≤ rowIndex)%nat →
  (∀ row, cell col (f row) = cell col row) →
  _findRowByColumn (setRow sheet rowIndex f) col v =
    match _findRowByColumn sheet col v with
    | Some (i, row) => Some (i, if bool_decide (i = rowIndex) then f row else row)
    | None => None
    end.
Proof.
  intros Hge Hcell. unfold _findRowByColumn.
  destruct (falsy v); [done|]. destruct (falsy (trim v)); [done|].
  assert (cell col <$> setRow sheet rowIndex f = cell col <$> sheet) as ->.
  { unfold setRow. apply list_eq. intros j. rewrite !list_lookup_fmap.
    destruct (decide (j = (rowIndex - 2)%nat)) as [->|Hne].
    - rewrite list_lookup_alter_eq. destruct (sheet !! _); simpl; [|done].
      by rewrite Hcell.
    - by rewrite list_lookup_alter_ne. }
  destruct (findNext _ _ _ _) as [i|] eqn:Hi; [|done].
  apply findNext_bounds in Hi. unfold setRow.
  destruct (decide (i = (rowIndex - 2)%nat)) as [->|Hne].
  - rewrite list_lookup_alter_eq. destruct (sheet !! _) as [row|] eqn:Hrow; simpl; [|done].
    rewrite Hcell. destruct col; case_bool_decide; try done;
      rewrite bool_decide_eq_true_2; try done; lia.
  - rewrite list_lookup_alter_ne by done.
    destruct (sheet !! i) as [row|]; [|done].
    destruct col; case_bool_decide; try done;
      rewrite bool_decide_eq_false_2; try done; lia.
Qed.

(** The two ways a login ends. *)
Lemma login_cases st data uuid nowIso clock :
  let r := _handleLogin st data uuid nowIso clock in
  (success r.2 = true ∧
   ∃ sheet rowIndex row,
     REGISTRATION st = Some sheet ∧
     _findRowByColumn sheet COL_EMAIL (toLowerCase (trim (login_email data)))
       = Some (rowIndex, row) ∧
     statusOf row = "approved" ∧
     _hashPassword (login_password data) (SALT row) = HASH row ∧
     REGISTRATION r.1
       = Some (setRow (setRow sheet rowIndex (setLastLogin nowIso)) rowIndex
                      (setSessionToken uuid)) ∧
     activeSessionToken r.2 = Some uuid ∧
     studentId r.2 = Some (STUDENT_ID row))
  ∨ (success r.2 = false ∧ REGISTRATION r.1 = REGISTRATION st ∧
     activeSessionToken r.2 = None).
Proof.
  unfold _handleLogin.
  destruct (falsy _ || falsy _); [by right|].
  case_bool_decide; [by right|].
  destruct (REGISTRATION st) as [sheet|] eqn:Hsheet; [|by right].
  destruct (_findRowByColumn _ _ _) as [[rowIndex row]|] eqn:Hfind; [|by right].
  repeat (case_bool_decide; [by right|]).
  case_bool_decide as Happ; cbn [negb]; [|by right].
  case_bool_decide as Hhash; cbn [negb]; [|by right].
  left. split; [done|]. exists sheet, rowIndex, row. done.
Qed.

(** A token that passes [checkSession] is the token of a row of the sheet. *)
Lemma checkSession_success st data :
  success (_handleCheckSession st data) = true →
  ∃ sheet rowIndex row,
    REGISTRATION st = Some sheet ∧
    _findRowByColumn sheet COL_STUDENT_ID (session_studentId data)
      = Some (rowIndex, row) ∧
    statusOf row = "approved" ∧
    session_activeSessionToken data ≠ "" ∧
    SESSION_TOKEN row = session_activeSessionToken data.
Proof.
  unfold _handleCheckSession.
  destruct (falsy (session_studentId data)); [done|].
  destruct (falsy (session_activeSessionToken data)) eqn:Htok; [done|].
  apply bool_decide_eq_false in Htok. cbn [orb].
  destruct (REGISTRATION st) as [sheet|]; [|done].
  destruct (_findRowByColumn _ _ _) as [[rowIndex row]|] eqn:Hfind; [|done].
  case_bool_decide as Happ; cbn [negb]; [|done].
  case_bool_decide as Htoken; [|done]. intros _.
  by exists sheet, rowIndex, row.
Qed.

(** After a login no row holds a token that was in no row before, other
    than the one issued. *)
Lemma login_tokens st data uuid nowIso clock sheet' row' :
  REGISTRATION (_handleLogin st data uuid nowIso clock).1 = Some sheet' →
  row' ∈ sheet' →
  SESSION_TOKEN row' = uuid ∨
  ∃ sheet row, REGISTRATION st = Some sheet ∧ row ∈ sheet ∧
               SESSION_TOKEN row = SESSION_TOKEN row'.
Proof.
  intros Hsheet' Hin.
  destruct (login_cases st data uuid nowIso clock)
    as [(_ & sheet & rowIndex & row & Hsheet & Hfind & _ & _ & Hnew & _)
       |(_ & Hsame & _)].
  - rewrite Hnew in Hsheet'. simplify_eq.
    apply list_elem_of_lookup_1 in Hin as [j Hj].
    destruct (decide (j = (rowIndex - 2)%nat)) as [->|Hne].
    + left. apply findRow_lookup in Hfind as [_ Hrow].
      erewrite setRow_lookup_eq in Hj; [|by apply setRow_lookup_eq].
      by simplify_eq.
    + right. rewrite !setRow_lookup_ne in Hj by done.
      exists sheet, row'. split; [done|]. split; [|done].
      by eapply list_elem_of_lookup_2.
  - right. rewrite Hsame in Hsheet'. eauto.
Qed.

Lemma findNext_Some mc searchStr cells i j :
  findNext mc searchStr cells i = Some j →
  ∃ c, cells !! (j - i)%nat = Some c ∧
       (if mc then c = searchStr else toLowerCase c = toLowerCase searchStr).
Proof.
  revert i. induction cells as [|c cells IH]; intros i; [done|]. simpl.
  destruct mc; case_bool_decide as Hm.
  1,3: intros [= <-]; exists c; by rewrite Nat.sub_diag.
  all: intros Hj; pose proof (findNext_bounds _ _ _ _ _ Hj) as Hb;
    destruct (IH _ Hj) as (c' & Hc' & Hmatch); exists c';
    (split; [|done]);
    by replace (j - i)%nat with (S (j - S i)) by lia.
Qed.

Lemma findNext_snoc mc searchStr cells c i :
  findNext mc searchStr cells i = None →
  findNext mc searchStr (cells ++ [c]) i =
    if (if mc then bool_decide (c = searchStr)
        else bool_decide (toLowerCase c = toLowerCase searchStr))
    then Some (i + List.length cells)%nat else None.
Proof.
  revert i. induction cells as [|c' cells IH]; intros i; simpl.
  - intros _. rewrite Nat.add_0_r. by destruct (if mc then _ else _).
  - destruct (if mc then bool_decide (c' = searchStr) else _); [done|].
    intros Hn. rewrite IH by done.
    by replace (S i + List.length cells)%nat with (i + S (List.length cells))%nat by lia.
Qed.

(** On the email column the second comparison of [_findRowByColumn] always
    agrees with the text finder. *)
Lemma findRow_email sheet v :
  falsy v = false → falsy (trim v) = false →
  _findRowByColumn sheet COL_EMAIL v =
    match findNext false (trim v) (cell COL_EMAIL <$> sheet) 0 with
    | Some i => (λ row, ((i + 2)%nat, row)) <$> sheet !! i
    | None => None
    end.
Proof.
  intros Hv Ht. unfold _findRowByColumn. rewrite Hv, Ht.
  destruct (findNext _ _ _ _) as [i|] eqn:Hi; [|done].
  destruct (sheet !! i) as [row|] eqn:Hrow; [|done]. simpl.
  apply findNext_Some in Hi as (c & Hc & Hmatch).
  rewrite Nat.sub_0_r, list_lookup_fmap, Hrow in Hc. simplify_eq/=.
  rewrite bool_decide_eq_true_2; [done|].
  by rewrite toLowerCase_trim, Hmatch, <- toLowerCase_trim, trim_idemp.
Qed.

(** The email under which an account is filed and looked up. *)
Lemma normalized_email_trim e : trim (toLowerCase (trim e)) = toLowerCase (trim e).
Proof. by rewrite <- toLowerCase_trim, trim_idemp. Qed.

(** The two ways a registration ends. *)
Lemma register_cases st data uuidId uuidSalt nowIso :
  let r := _handleRegister st data uuidId uuidSalt nowIso in
  (success r.2 = true ∧
   ∃ sheet,
     REGISTRATION st = Some sheet ∧
     _findRowByColumn sheet COL_EMAIL (toLowerCase (trim (reg_email data))) = None ∧
     r.1 = mkState (Some (sheet ++ [registeredRow data uuidId uuidSalt nowIso]))
                   (RESULTS st) (scriptCache st))
  ∨ (success r.2 = false ∧ r.1 = st).
Proof.
  unfold _handleRegister.
  destruct (falsy _ || falsy _ || falsy _); [by right|].
  case_bool_decide; [by right|].
  destruct (REGISTRATION st) as [sheet|] eqn:Hsheet; [|by right].
  destruct (_findRowByColumn _ _ _) as [[rowIndex row]|] eqn:Hfind; [by right|].
  left. split; [done|]. by exists sheet.
Qed.

(** After a registration the lookup of the login finds the new row, unless
    the email is blank. *)
Lemma register_then_find sheet data uuidId uuidSalt nowIso :
  let email := toLowerCase (trim (reg_email data)) in
  email ≠ "" →
  _findRowByColumn sheet COL_EMAIL email = None →
  _findRowByColumn (sheet ++ [registeredRow data uuidId uuidSalt nowIso]) COL_EMAIL email
    = Some ((List.length sheet + 2)%nat, registeredRow data uuidId uuidSalt nowIso).
Proof.
  intros email Hne Hnone.
  assert (Hf : falsy email = false) by by apply bool_decide_eq_false.
  assert (Hft : falsy (trim email) = false).
  { unfold email. rewrite normalized_email_trim. exact Hf. }
  rewrite findRow_email in Hnone by done. rewrite findRow_email by done.
  destruct (findNext false (trim email) (cell COL_EMAIL <$> sheet) 0) as [i|] eqn:Hi.
  { pose proof (findNext_bounds _ _ _ _ _ Hi) as Hb. rewrite length_fmap in Hb.
    destruct (lookup_lt_is_Some_2 sheet i) as [row Hrow]; [lia|].
    by rewrite Hrow in Hnone. }
  rewrite fmap_app. simpl. rewrite findNext_snoc by done.
  rewrite bool_decide_eq_true_2.
  2:{ unfold email. by rewrite normalized_email_trim. }
  rewrite length_fmap. simpl.
  rewrite lookup_app_r by lia. by rewrite Nat.sub_diag.
Qed.

(** The hexadecimal encoding: every byte gives the two digits of its value
    modulo 256, high digit first. *)
Lemma byteHex_digits byte :
  byteHex byte =
    String (hexDigit ((byte `mod` 256) `div` 16)%Z)
           (String (hexDigit ((byte `mod` 256) `mod` 16)%Z) EmptyString).
Proof.
  unfold byteHex, toString16.
  replace 255%Z with (Z.ones 8) by done. rewrite Z.land_ones by lia.
  change (2 ^ 8)%Z with 256%Z.
  assert (0 ≤ byte `mod` 256 < 256)%Z as Hb by (apply Z.mod_pos_bound; lia).
  case_bool_decide as Hlt.
  - rewrite Z.div_small by lia.
    rewrite (Z.mod_small (byte `mod` 256) 16) by lia. done.
  - done.
Qed.

(** C2 (as amended). For a request that names an approved student,
    [checkSession] succeeds exactly when the presented token is not empty and
    equals the token stored in the student's row; a successful login writes
    the UUID it drew into the row it found and returns it; two tokens that
    both pass for one student id are equal; and once the same account has
    logged in again with another UUID, the token of the earlier login (fresh
    when issued) passes for no student id. *)
Theorem checkSession_single_device st :
  (∀ data sheet rowIndex row,
     REGISTRATION st = Some sheet →
     _findRowByColumn sheet COL_STUDENT_ID (session_studentId data)
       = Some (rowIndex, row) →
     statusOf row = "approved" →
     (success (_handleCheckSession st data) = true ↔
      session_activeSessionToken data ≠ "" ∧
      SESSION_TOKEN row = session_activeSessionToken data)) ∧
  (∀ data uuid nowIso clock,
     let r := _handleLogin st data uuid nowIso clock in
     success r.2 = true →
     activeSessionToken r.2 = Some uuid ∧
     ∃ sheet rowIndex row sheet' row',
       REGISTRATION st = Some sheet ∧
       _findRowByColumn sheet COL_EMAIL (toLowerCase (trim (login_email data)))
         = Some (rowIndex, row) ∧
       REGISTRATION r.1 = Some sheet' ∧
       sheet' !! (rowIndex - 2)%nat = Some row' ∧
       SESSION_TOKEN row' = uuid) ∧
  (∀ sid token1 token2,
     success (_handleCheckSession st (mkSessionData sid token1)) = true →
     success (_handleCheckSession st (mkSessionData sid token2)) = true →
     token1 = token2) ∧
  (∀ data1 data2 uuid1 uuid2 now1 now2 clock1 clock2,
     let r1 := _handleLogin st data1 uuid1 now1 clock1 in
     let r2 := _handleLogin r1.1 data2 uuid2 now2 clock2 in
     success r1.2 = true → success r2.2 = true →
     toLowerCase (trim (login_email data1)) = toLowerCase (trim (login_email data2)) →
     (∀ sheet row, REGISTRATION st = Some sheet → row ∈ sheet →
                   SESSION_TOKEN row ≠ uuid1) →
     uuid1 ≠ uuid2 →
     ∀ sid, success (_handleCheckSession r2.1 (mkSessionData sid uuid1)) = false).
Proof.
  split; [|split; [|split]].
  - intros data sheet rowIndex row Hsheet Hfind Happ. split.
    + intros (sheet' & i & row' & Hs' & Hf' & _ & Hne & Htok)%checkSession_success.
      by simplify_eq.
    + intros [Hne Htok]. unfold _handleCheckSession.
      destruct (falsy (session_studentId data)) eqn:Hsid.
      { unfold _findRowByColumn in Hfind. by rewrite Hsid in Hfind. }
      unfold falsy at 1. rewrite (bool_decide_eq_false_2 _ Hne). cbn [orb].
      rewrite Hsheet, Hfind, (bool_decide_eq_true_2 _ Happ). cbn [negb].
      by rewrite (bool_decide_eq_true_2 _ Htok).
  - intros data uuid nowIso clock r Hok. subst r.
    destruct (login_cases st data uuid nowIso clock)
      as [(_ & sheet & rowIndex & row & Hsheet & Hfind & _ & _ & Hnew & Htok & _)
         |(Hfail & _)]; [|congruence].
    split; [done|].
    apply findRow_lookup in Hfind as Hrow. destruct Hrow as [_ Hrow].
    exists sheet, rowIndex, row, (setRow (setRow sheet rowIndex (setLastLogin nowIso))
                                          rowIndex (setSessionToken uuid)),
           (setSessionToken uuid (setLastLogin nowIso row)).
    split; [done|]. split; [done|]. split; [done|]. split; [|done].
    by apply setRow_lookup_eq, setRow_lookup_eq.
  - intros sid token1 token2
      (sheet1 & i1 & row1 & Hs1 & Hf1 & _ & _ & Ht1)%checkSession_success
      (sheet2 & i2 & row2 & Hs2 & Hf2 & _ & _ & Ht2)%checkSession_success.
    simpl in *. by simplify_eq.
  - intros data1 data2 uuid1 uuid2 now1 now2 clock1 clock2 r1 r2 Hok1 Hok2 Hsame Hfresh Hne sid.
    subst r1 r2.
    destruct (login_cases st data1 uuid1 now1 clock1)
      as [(_ & sheet & i1 & row1 & Hsheet & Hfind1 & _ & _ & Hnew1 & _)
         |(Hfail & _)]; [|congruence].
    destruct (login_cases (_handleLogin st data1 uuid1 now1 clock1).1 data2 uuid2 now2 clock2)
      as [(_ & sheet1 & i2 & row2 & Hsheet1 & Hfind2 & _ & _ & Hnew2 & _)
         |(Hfail & _)]; [|congruence].
    rewrite Hnew1 in Hsheet1. simplify_eq.
    pose proof (findRow_lookup _ _ _ _ _ Hfind1) as [Hge1 Hrow1].
    rewrite <- Hsame in Hfind2.
    rewrite !findRow_setRow, Hfind1 in Hfind2 by done.
    rewrite !bool_decide_eq_true_2 in Hfind2 by done. simplify_eq.
    destruct (success (_handleCheckSession _ _)) eqn:Hcheck; [|done].
    apply checkSession_success in Hcheck
      as (sheet2 & j & row' & Hsheet2 & Hf & _ & _ & Htok).
    simpl in Htok. rewrite Hnew2 in Hsheet2. injection Hsheet2 as <-.
    apply findRow_lookup in Hf as [_ Hrow'].
    destruct (decide ((j - 2)%nat = (i2 - 2)%nat)) as [Heq|Hneq].
    + rewrite Heq in Hrow'.
      erewrite setRow_lookup_eq in Hrow';
        [|erewrite setRow_lookup_eq;
            [done|erewrite setRow_lookup_eq; [done|by apply setRow_lookup_eq]]].
      injection Hrow' as <-. simpl in Htok. congruence.
    + rewrite !setRow_lookup_ne in Hrow' by done.
      apply list_elem_of_lookup_2 in Hrow'. destruct (Hfresh _ _ Hsheet Hrow' Htok).
Qed.

Lemma login_status_gate st data uuid nowIso clock sheet rowIndex row :
  reachesRow st clock data sheet rowIndex row →
  statusOf row ∈ ["pending"; "suspended"; "rejected"; "blocked"] →
  let r := _handleLogin st data uuid nowIso clock in
  success r.2 = false ∧ status r.2 = Some (statusOf row) ∧
  activeSessionToken r.2 = None ∧ r.1 = st.
Proof.
  intros (He & Hp & Hlim & Hsheet & Hfind) Hst. unfold _handleLogin.
  unfold falsy. rewrite (bool_decide_eq_false_2 _ He), (bool_decide_eq_false_2 _ Hp).
  cbn [orb]. rewrite bool_decide_eq_false_2 by lia.
  rewrite Hsheet, Hfind.
  repeat (apply elem_of_cons in Hst as [->|Hst]; [done|]).
  by apply elem_of_nil in Hst.
Qed.

Lemma login_password_check st data uuid nowIso clock sheet rowIndex row :
  reachesRow st clock data sheet rowIndex row →
  statusOf row = "approved" →
  let r := _handleLogin st data uuid nowIso clock in
  (success r.2 = true ↔ _hashPassword (login_password data) (SALT row) = HASH row) ∧
  (_hashPassword (login_password data) (SALT row) ≠ HASH row →
   error r.2 = Some "Invalid email or password.").
Proof.
  intros (He & Hp & Hlim & Hsheet & Hfind) Hst. unfold _handleLogin.
  unfold falsy. rewrite (bool_decide_eq_false_2 _ He), (bool_decide_eq_false_2 _ Hp).
  cbn [orb]. rewrite bool_decide_eq_false_2 by lia.
  rewrite Hsheet, Hfind, Hst. simpl.
  case_bool_decide as Hhash; simpl.
  - split; [by split|]. by intros Hne.
  - split; [|done]. split; [done|]. by intros Heq.
Qed.


End BackendFacts.

(** * The earlier copy of the login handler *)

Section Backend0Facts.
Import JsString.
Context {PF : Platform}.

(** The two hexadecimal encodings of the repository agree on bytes. *)
Lemma byteHex_agree (b : Z) :
  (-128 ≤ b ≤ 127)%Z → Backend0.byteHex b = Backend.byteHex b.
Proof.
  intros Hb. rewrite byteHex_digits.
  unfold Backend0.byteHex, Backend0.padHex, Backend.toString16.
  rewrite Z.rem_mod_nonneg by lia.
  replace ((b + 256) `mod` 256)%Z with (b `mod` 256)%Z
    by (rewrite <- (Z.add_mod_idemp_r b 256 256) by lia;
        rewrite Z.mod_same by lia; by rewrite Z.add_0_r).
  assert (0 ≤ b `mod` 256 < 256)%Z as Hm by (apply Z.mod_pos_bound; lia).
  case_bool_decide as Hlt.
  - rewrite Z.div_small by lia.
    rewrite (Z.mod_small (b `mod` 256) 16) by lia. done.
  - done.
Qed.

(** X4. In the earlier copy of the backend, a login that succeeds found a
    row whose status is [approved], and one that does not succeed returns no
    session token and leaves the sheet as it is; an account found pending or
    blocked is answered with exactly [{success: false, status}], and one
    with any other status than approved with
    [{success: false, error: 'Account not approved.'}]. *)
Theorem login0_status_gate regSheet data uuid time nowIso :
  let r := Backend0._handleLogin regSheet data uuid time nowIso in
  let email := toLowerCase (trim (Backend.login_email data)) in
  (Backend0.success r.2 = true →
   ∃ rows i row, regSheet = Some rows ∧
                 Backend0.findByEmail email rows 0 = Some (i, row) ∧
                 Backend.statusOf row = "approved") ∧
  (Backend0.success r.2 = false →
   Backend0.sessionToken r.2 = None ∧ r.1 = regSheet) ∧
  (∀ rows i row,
     Backend.login_email data ≠ "" → Backend.login_password data ≠ "" →
     regSheet = Some rows →
     Backend0.findByEmail email rows 0 = Some (i, row) →
     (Backend.statusOf row = "pending" → r.2 = Backend0.statusResponse "pending") ∧
     (Backend.statusOf row = "blocked" → r.2 = Backend0.statusResponse "blocked") ∧
     (Backend.statusOf row ∉ ["pending"; "blocked"; "approved"] →
      r.2 = Backend0.errorResponse "Account not approved.")).
Proof.
  unfold Backend0._handleLogin. split; [|split].
  - destruct (falsy _ || falsy _); [done|].
    destruct regSheet as [rows|]; [|done].
    destruct (Backend0.findByEmail _ _ _) as [[i row]|] eqn:Hfind; [|done].
    repeat (case_bool_decide; [done|]).
    case_bool_decide as Happ; [|done]. intros _. by exists rows, i, row.
  - destruct (falsy _ || falsy _); [done|].
    destruct regSheet as [rows|]; [|done].
    destruct (Backend0.findByEmail _ _ _) as [[i row]|] eqn:Hfind; [|done].
    repeat (case_bool_decide; [done|]).
    case_bool_decide as Happ; [|done]. cbn [negb].
    case_bool_decide as Hhash; [|done]. done.
  - intros rows i row He Hp -> Hfind. unfold falsy.
    rewrite (bool_decide_eq_false_2 _ He), (bool_decide_eq_false_2 _ Hp).
    cbn [orb]. rewrite Hfind. split; [|split].
    + by intros ->.
    + by intros ->.
    + intros Hother.
      rewrite bool_decide_eq_false_2 by (intros Heq; apply Hother; rewrite Heq; set_solver).
      rewrite bool_decide_eq_false_2 by (intros Heq; apply Hother; rewrite Heq; set_solver).
      rewrite bool_decide_eq_false_2; [done|].
      intros Heq; apply Hother; rewrite Heq; set_solver.
Qed.

End Backend0Facts.

(** * The approval workflow *)

Section ApprovalFacts.
Import JsString Backend.
Context {PF : Platform}.
Implicit Types (st : State) (sheet : list RegRow) (row : RegRow).

(** What a registration needs to succeed. *)
Lemma register_success st data uuidId uuidSalt nowIso :
  success (_handleRegister st data uuidId uuidSalt nowIso).2 = true ↔
  reg_name data ≠ "" ∧ reg_email data ≠ "" ∧ reg_password data ≠ "" ∧
  (6 ≤ String.length (reg_password data))%nat ∧
  ∃ sheet, REGISTRATION st = Some sheet ∧
           _findRowByColumn sheet COL_EMAIL (toLowerCase (trim (reg_email data))) = None.
Proof.
  unfold _handleRegister, falsy.
  destruct (decide (reg_name data = "")) as [Hn|Hn].
  { rewrite (bool_decide_eq_true_2 _ Hn). cbn. split; [done|]. by intros (? & _). }
  rewrite (bool_decide_eq_false_2 _ Hn).
  destruct (decide (reg_email data = "")) as [He|He].
  { rewrite (bool_decide_eq_true_2 _ He). cbn. split; [done|]. by intros (_ & ? & _). }
  rewrite (bool_decide_eq_false_2 _ He).
  destruct (decide (reg_password data = "")) as [Hp|Hp].
  { rewrite (bool_decide_eq_true_2 _ Hp). cbn. split; [done|]. by intros (_ & _ & ? & _). }
  rewrite (bool_decide_eq_false_2 _ Hp). cbn [orb].
  case_bool_decide as Hlen.
  { cbn. split; [done|]. intros (_ & _ & _ & ? & _). lia. }
  destruct (REGISTRATION st) as [sheet|].
  2:{ cbn. split; [done|]. by intros (_ & _ & _ & _ & ? & ? & _). }
  destruct (_findRowByColumn _ _ _) as [found|] eqn:Hfind.
  { cbn. split; [done|]. intros (_ & _ & _ & _ & sheet' & [= <-] & Hnone). congruence. }
  cbn. split; [|done]. intros _. repeat split; try done; [lia|]. by exists sheet.
Qed.

(** The answer of the earlier copy to a login that finds the row of the
    account. *)
Lemma login0_reached rows data uuid time nowIso i row :
  login_email data ≠ "" → login_password data ≠ "" →
  Backend0.findByEmail (toLowerCase (trim (login_email data))) rows 0 = Some (i, row) →
  statusOf row ≠ "approved" →
  Backend0._handleLogin (Some rows) data uuid time nowIso =
    (Some rows,
     if bool_decide (statusOf row = "pending") then Backend0.statusResponse "pending"
     else if bool_decide (statusOf row = "blocked") then Backend0.statusResponse "blocked"
     else Backend0.errorResponse "Account not approved.").
Proof.
  intros He Hp Hfind Hst. unfold Backend0._handleLogin, falsy.
  rewrite (bool_decide_eq_false_2 _ He), (bool_decide_eq_false_2 _ Hp).
  cbn [orb]. rewrite Hfind.
  do 2 (case_bool_decide; [done|]). by rewrite (bool_decide_eq_false_2 _ Hst).
Qed.

(** C5 (as amended). A registration succeeds exactly when the three fields
    are given, the password has at least six characters, the sheet exists
    and no row holds the email; it then appends one row, with the name and
    the email given, the status [pending] and no session token, and
    otherwise it leaves the state as it is.  A login that succeeds found a
    row whose status is [approved], and a login that does not succeed
    returns no session token and leaves the sheet as it is.  A login that
    reaches a row whose status is pending, suspended, rejected or blocked
    answers [success: false] with that status.  The earlier copy of the
    handler answers a pending or blocked account with that status, and a
    suspended or rejected one with an error and no status; it gives no
    token and leaves the sheet as it is in either case. *)
Theorem approval_workflow st :
  (∀ data uuidId uuidSalt nowIso,
     let r := _handleRegister st data uuidId uuidSalt nowIso in
     let email := toLowerCase (trim (reg_email data)) in
     (success r.2 = true ↔
      reg_name data ≠ "" ∧ reg_email data ≠ "" ∧ reg_password data ≠ "" ∧
      (6 ≤ String.length (reg_password data))%nat ∧
      ∃ sheet, REGISTRATION st = Some sheet ∧
               _findRowByColumn sheet COL_EMAIL email = None) ∧
     (success r.2 = true →
      ∃ sheet row,
        REGISTRATION st = Some sheet ∧
        r.1 = mkState (Some (sheet ++ [row])) (RESULTS st) (scriptCache st) ∧
        NAME row = trim (reg_name data) ∧ EMAIL row = email ∧
        STATUS row = "pending" ∧ SESSION_TOKEN row = "") ∧
     (success r.2 = false → r.1 = st)) ∧
  (∀ data uuid nowIso clock,
     let r := _handleLogin st data uuid nowIso clock in
     (success r.2 = true →
      ∃ sheet rowIndex row,
        REGISTRATION st = Some sheet ∧
        _findRowByColumn sheet COL_EMAIL (toLowerCase (trim (login_email data)))
          = Some (rowIndex, row) ∧
        statusOf row = "approved") ∧
     (success r.2 = false →
      activeSessionToken r.2 = None ∧ REGISTRATION r.1 = REGISTRATION st)) ∧
  (∀ data uuid nowIso clock sheet rowIndex row,
     reachesRow st clock data sheet rowIndex row →
     statusOf row ∈ ["pending"; "suspended"; "rejected"; "blocked"] →
     let r := _handleLogin st data uuid nowIso clock in
     success r.2 = false ∧ status r.2 = Some (statusOf row) ∧
     activeSessionToken r.2 = None ∧ r.1 = st) ∧
  (∀ rows data uuid time nowIso i row,
     login_email data ≠ "" → login_password data ≠ "" →
     Backend0.findByEmail (toLowerCase (trim (login_email data))) rows 0 = Some (i, row) →
     let r := Backend0._handleLogin (Some rows) data uuid time nowIso in
     (statusOf row ∈ ["pending"; "blocked"] →
      r = (Some rows, Backend0.statusResponse (statusOf row))) ∧
     (statusOf row ∈ ["suspended"; "rejected"] →
      r = (Some rows, Backend0.errorResponse "Account not approved.") ∧
      Backend0.status r.2 = None ∧ Backend0.sessionToken r.2 = None)).
Proof.
  split; [|split; [|split]].
  - intros data uuidId uuidSalt nowIso r email. subst r email.
    split; [apply register_success|].
    destruct (register_cases st data uuidId uuidSalt nowIso)
      as [(Hok & sheet & Hsheet & _ & Hnew)|(Hfail & Hsame)].
    + split; [|congruence]. intros _.
      exists sheet, (registeredRow data uuidId uuidSalt nowIso). by rewrite Hnew.
    + split; [congruence|done].
  - intros data uuid nowIso clock r. subst r.
    destruct (login_cases st data uuid nowIso clock)
      as [(Hok & sheet & rowIndex & row & Hsheet & Hfind & Happ & _)
         |(Hfail & Hsame & Htok)].
    + split; [|congruence]. intros _. by exists sheet, rowIndex, row.
    + split; [congruence|done].
  - intros data uuid nowIso clock sheet rowIndex row. apply login_status_gate.
  - intros rows data uuid time nowIso i row He Hp Hfind r. subst r.
    split; intros Hst.
    + assert (Hna : statusOf row ≠ "approved").
      { intros Happ. rewrite Happ in Hst.
        repeat (apply elem_of_cons in Hst as [Hst|Hst]; [done|]).
        by apply elem_of_nil in Hst. }
      rewrite (login0_reached _ _ _ _ _ _ _ He Hp Hfind Hna).
      apply elem_of_cons in Hst as [->|Hst]; [done|].
      apply list_elem_of_singleton in Hst as ->. done.
    + assert (Hna : statusOf row ≠ "approved").
      { intros Happ. rewrite Happ in Hst.
        repeat (apply elem_of_cons in Hst as [Hst|Hst]; [done|]).
        by apply elem_of_nil in Hst. }
      rewrite (login0_reached _ _ _ _ _ _ _ He Hp Hfind Hna).
      apply elem_of_cons in Hst as [->|Hst]; [done|].
      apply list_elem_of_singleton in Hst as ->. done.
Qed.

End ApprovalFacts.

Section BackendExamples.
Import JsString Backend Samples.

Example hashPassword_sample :
  _hashPassword (PF := evalPlatform) "ab" "s" = "733a6162".
Proof. reflexivity. Qed.

Example byteHex_negative : byteHex (-1) = "ff" ∧ byteHex 10 = "0a".
Proof. split; reflexivity. Qed.

Lemma backend0_fresh_token sheet row :
  REGISTRATION backend0 = Some sheet → row ∈ sheet → SESSION_TOKEN row ≠ "uuid-1".
Proof.
  intros [= <-] Hin.
  repeat (apply elem_of_cons in Hin as [->|Hin]; [done|]).
  by apply elem_of_nil in Hin.
Defined.

Lemma checkSession_single_device_witness :
  let r1 := _handleLogin (PF := evalPlatform) backend0 aliceLogin "uuid-1" "t1" 1000 in
  let r2 := _handleLogin (PF := evalPlatform) r1.1 aliceLogin "uuid-2" "t2" 2000 in
  success (_handleCheckSession r1.1 (mkSessionData "STU_A1B2C3D4E5F6" "uuid-1")) = true ∧
  success (_handleCheckSession r2.1 (mkSessionData "STU_A1B2C3D4E5F6" "uuid-2")) = true ∧
  success (_handleCheckSession r2.1 (mkSessionData "STU_A1B2C3D4E5F6" "uuid-1")) = false.
Proof.
  split; [by vm_compute|]. split; [by vm_compute|].
  apply (proj2 (proj2 (proj2 (checkSession_single_device (PF := evalPlatform) backend0)))
           aliceLogin aliceLogin "uuid-1" "uuid-2" "t1" "t2" 1000%Z 2000%Z).
  - by vm_compute.
  - by vm_compute.
  - done.
  - apply backend0_fresh_token.
  - done.
Defined.

(** C2, as first stated, fails: an approved student whose stored token is
    empty (no login yet, or after a logout) presents the empty token, equal
    to the stored one, and [checkSession] refuses. *)
Lemma checkSession_rejects_empty_token :
  ∃ row,
    _findRowByColumn [alice; bob] COL_STUDENT_ID "STU_A1B2C3D4E5F6" = Some (2%nat, row) ∧
    statusOf row = "approved" ∧
    SESSION_TOKEN row = session_activeSessionToken (mkSessionData "STU_A1B2C3D4E5F6" "") ∧
    success (_handleCheckSession backend0 (mkSessionData "STU_A1B2C3D4E5F6" "")) = false.
Proof. exists alice. by vm_compute. Qed.

Lemma approval_workflow_witness :
  let r := _handleRegister (PF := evalPlatform) backend0 carolRegister
             "1b4e28ba-2fa1-11d2-883f-0016d3cca427"
             "6fa459ea-ee8a-3ca4-894e-db77e160355e" "2026-03-03T09:00:00.000Z" in
  ∃ sheet row,
    REGISTRATION backend0 = Some sheet ∧
    r.1 = mkState (Some (sheet ++ [row])) (RESULTS backend0) (scriptCache backend0) ∧
    NAME row = "Carol" ∧ EMAIL row = "carol@school.com" ∧
    STATUS row = "pending" ∧ SESSION_TOKEN row = "".
Proof.
  apply (proj1 (proj2 (proj1 (approval_workflow (PF := evalPlatform) backend0)
                         carolRegister "1b4e28ba-2fa1-11d2-883f-0016d3cca427"
                         "6fa459ea-ee8a-3ca4-894e-db77e160355e"
                         "2026-03-03T09:00:00.000Z"))).
  by vm_compute.
Defined.

(** The account registered is answered [pending] when it logs in. *)
Example carolRegistered_pending :
  let r := _handleLogin (PF := evalPlatform) carolRegistered
             (mkLoginData "Carol@School.com" "opensesame") "uuid-3" "t3" 3000 in
  success r.2 = false ∧ status r.2 = Some "pending" ∧
  activeSessionToken r.2 = None ∧ r.1 = carolRegistered.
Proof. by vm_compute. Qed.

(** C5, as first stated, fails for the earlier copy of the handler: an
    account whose status is [rejected] is answered with an error and no
    status. *)
Lemma login0_rejected_without_status :
  let r := Backend0._handleLogin (PF := evalPlatform) (Some [alice; erin]) erinLogin
             "uuid-6" "1772500000000" "2026-03-03T01:06:40.000Z" in
  statusOf erin = "rejected" ∧
  Backend0.findByEmail "erin@school.com" [alice; erin] 0 = Some (1%nat, erin) ∧
  Backend0.success r.2 = false ∧ Backend0.status r.2 = None ∧
  r.2 = Backend0.errorResponse "Account not approved.".
Proof. by vm_compute. Qed.



Lemma login0_status_gate_witness :
  (Backend0._handleLogin (PF := evalPlatform) (Some [alice; bob; dave]) daveLogin
     "uuid-5" "1772500000000" "2026-03-03T01:06:40.000Z").2
  = Backend0.errorResponse "Account not approved.".
Proof.
  apply (proj2 (proj2 (login0_status_gate (PF := evalPlatform) (Some [alice; bob; dave])
                         daveLogin "uuid-5" "1772500000000" "2026-03-03T01:06:40.000Z"))
           [alice; bob; dave] 2%nat dave); try done.
  change (statusOf dave) with "suspended". intros Hin.
  repeat (apply elem_of_cons in Hin as [Hin|Hin]; [done|]).
  by apply elem_of_nil in Hin.
Defined.

Example login0_pending :
  (Backend0._handleLogin (PF := evalPlatform) (Some [alice; bob; dave]) bobLogin
     "uuid-5" "1772500000000" "2026-03-03T01:06:40.000Z").2
  = Backend0.statusResponse "pending".
Proof. by vm_compute. Qed.

End BackendExamples.


(** * Properties of the quiz engine *)

Section EngineFacts.
Import JsString Engine.
Implicit Types (item raw : JSON) (p : Page).

Lemma validQuestion_inv item :
  validQuestion item = true →
  ∃ text options answer,
    prop item "q" = Some (JString text) ∧
    (0 < String.length (trim text))%nat ∧
    prop item "options" = Some (JArray options) ∧
    (2 ≤ List.length options)%nat ∧
    prop item "answer" = Some (JNumber answer) ∧
    isInteger answer = true ∧
    Qle_bool 0%Q answer = true ∧
    Qle_bool (inject_Z (Z.of_nat (List.length options))) answer = false.
Proof.
  unfold validQuestion. intros Hv.
  apply andb_true_iff in Hv as [[_ Hq]%andb_true_iff Ho].
  destruct (prop item "q") as [[| | |text| |]|]; try done.
  destruct (prop item "options") as [[| | | |options|]|]; try done.
  apply andb_true_iff in Ho as [Hlen Ha].
  destruct (prop item "answer") as [[| |answer| | |]|]; try done.
  apply andb_true_iff in Ha as [[Hint Hge]%andb_true_iff Hlt].
  apply negb_true_iff in Hlt.
  apply bool_decide_eq_true in Hq, Hlen.
  by exists text, options, answer.
Qed.

(** An integer below the number of options is a position of the list. *)
Lemma integer_index (answer : Q) (n : nat) :
  isInteger answer = true →
  Qle_bool 0%Q answer = true →
  Qle_bool (inject_Z (Z.of_nat n)) answer = false →
  (Z.to_nat (Qnum (Qred answer)) < n)%nat.
Proof.
  unfold isInteger. intros Hint%bool_decide_eq_true Hge Hlt.
  assert (Hlt' : ¬ (inject_Z (Z.of_nat n) <= answer)%Q).
  { intros Hle%Qle_bool_iff. congruence. }
  apply Qle_bool_iff in Hge.
  rewrite <- (Qred_correct answer) in Hge, Hlt'.
  destruct (Qred answer) as [num den]. simpl in *. subst den.
  unfold Qle in *. simpl in *. lia.
Qed.

Lemma trim_empty_length text : (0 < String.length (trim text))%nat → text ≠ "".
Proof. intros Hlen ->. simpl in Hlen. lia. Qed.

(** C9. Every question kept by [validateQuestions] is an object whose [q] is
    a string that is not empty (nor blank), whose [options] is an array of at
    least two entries and whose [answer] is an integer with
    [0 <= answer < options.length]; so [item.options[item.answer]] is an
    entry of the array; and a set whose JSON yields no valid question ends
    [init] with the message 'No valid questions found in this set.', while a
    page that is started holds the valid questions, at least one of them,
    unanswered and not submitted. *)
Theorem validateQuestions_kept raw :
  (∀ item, item ∈ validateQuestions raw →
     ∃ text options answer i opt,
       prop item "q" = Some (JString text) ∧ text ≠ "" ∧ trim text ≠ "" ∧
       prop item "options" = Some (JArray options) ∧
       (2 ≤ List.length options)%nat ∧
       prop item "answer" = Some (JNumber answer) ∧
       isInteger answer = true ∧
       (0 <= answer)%Q ∧ (answer < inject_Z (Z.of_nat (List.length options)))%Q ∧
       answerOf item = Some i ∧ (i < List.length options)%nat ∧
       correctOption item = Some opt ∧ options !! i = Some opt) ∧
  (∀ engine orders set ls,
     validateQuestions raw = [] →
     init engine orders set ls (Body raw)
       = inl "No valid questions found in this set.") ∧
  (∀ engine orders set ls p,
     init engine orders set ls (Body raw) = inr p →
     questions p = validateQuestions raw ∧ questions p ≠ [] ∧
     answers p = ∅ ∧ submitted p = false).
Proof.
  split; [|split].
  - intros item Hin.
    assert (Hv : validQuestion item = true).
    { unfold validateQuestions in Hin. destruct raw; try by apply elem_of_nil in Hin.
      by apply list_elem_of_filter in Hin as [Hv _]. }
    apply validQuestion_inv in Hv
      as (text & options & answer & Hq & Htrim & Ho & Hlen & Ha & Hint & Hge & Hlt).
    pose proof (integer_index _ _ Hint Hge Hlt) as Hidx.
    destruct (lookup_lt_is_Some_2 options _ Hidx) as [opt Hopt].
    exists text, options, answer, (Z.to_nat (Qnum (Qred answer))), opt.
    assert (Hans : answerOf item = Some (Z.to_nat (Qnum (Qred answer)))).
    { unfold answerOf. by rewrite Ha, Hint, Hge. }
    repeat split; try done.
    + by apply trim_empty_length.
    + intros Heq. rewrite Heq in Htrim. simpl in Htrim. lia.
    + by apply Qle_bool_iff.
    + apply Qnot_le_lt. intros Hle%Qle_bool_iff. congruence.
    + unfold correctOption, optionsOf. rewrite Hans, Ho. done.
  - intros engine orders set ls Hnil. simpl. by rewrite Hnil.
  - intros engine orders set ls p. simpl.
    case_bool_decide as Hlen; [done|]. intros [= <-]. simpl.
    repeat split; try done. intros Hnil. by rewrite Hnil in Hlen.
Qed.

(** ** Scoring *)

Lemma score_sum (f : nat → Z) (g : nat → bool) (l : list nat) (a : Z) :
  (∀ i, i ∈ l → f i = if g i then 1%Z else 0%Z) →
  foldl (λ s i, s + f i)%Z a l
  = (a + Z.of_nat (List.length (filter (λ i, g i = true) l)))%Z.
Proof.
  revert a. induction l as [|i l IH]; intros a Hf; simpl; [lia|].
  rewrite IH by (intros j Hj; apply Hf; by right).
  rewrite (Hf i) by by left. rewrite filter_cons.
  destruct (g i) eqn:Hg; simpl; lia.
Qed.

Lemma findIndex_found answer opts i j :
  findIndex answer opts i = Some j →
  (i ≤ j)%nat ∧ ∃ o, opts !! (j - i)%nat = Some o ∧ Some (origIdx o) = answer.
Proof.
  revert i. induction opts as [|o opts IH]; intros i; [done|]. simpl.
  case_bool_decide as Ho.
  - intros [= <-]. split; [lia|]. exists o. by rewrite Nat.sub_diag.
  - intros [Hle (o' & Ho' & Ha)]%IH. split; [lia|]. exists o'. split; [|done].
    by replace (j - i)%nat with (S (j - S i)) by lia.
Qed.

Lemma findIndex_unique answer opts i k o :
  NoDup (origIdx <$> opts) →
  opts !! k = Some o → Some (origIdx o) = answer →
  findIndex answer opts i = Some (i + k)%nat.
Proof.
  revert i k. induction opts as [|o0 opts IH]; intros i k Hnd Hk Ha; [done|].
  rewrite fmap_cons in Hnd. apply NoDup_cons in Hnd as [Hnotin Hnd]. simpl.
  case_bool_decide as Ho0.
  - destruct k as [|k]; [by rewrite Nat.add_0_r|]. simpl in Hk.
    exfalso. apply Hnotin. apply list_elem_of_fmap. exists o. split; [congruence|].
    by eapply list_elem_of_lookup_2.
  - destruct k as [|k]; simpl in Hk; [by simplify_eq|].
    rewrite (IH (S i) k) by done. f_equal. lia.
Qed.

Lemma shuffle_origIdx (f : nat → JSON → Opt) (order : list nat) (l : list JSON) :
  (∀ i t, origIdx (f i t) = i) →
  origIdx <$> shuffle order (imap f l) = filter (λ i, i < List.length l)%nat order.
Proof.
  intros Hf. unfold shuffle. induction order as [|i order IH]; [done|].
  simpl. rewrite filter_cons, list_lookup_imap.
  destruct (l !! i) as [t|] eqn:Ht; simpl.
  - rewrite decide_True by by eapply lookup_lt_Some.
    rewrite Hf. f_equal. exact IH.
  - rewrite decide_False; [done|]. apply lookup_ge_None in Ht. lia.
Qed.

Lemma shuffle_NoDup (f : nat → JSON → Opt) (order : list nat) (l : list JSON) :
  (∀ i t, origIdx (f i t) = i) → NoDup order →
  NoDup (origIdx <$> shuffle order (imap f l)).
Proof. intros Hf Hnd. rewrite shuffle_origIdx by done. by apply NoDup_filter. Qed.

Lemma shuffle_elem (f : nat → JSON → Opt) (order : list nat) (l : list JSON) o :
  o ∈ shuffle order (imap f l) → ∃ i t, o = f i t.
Proof.
  unfold shuffle. intros (i & Hi & Ho)%list_elem_of_omap.
  rewrite list_lookup_imap in Ho. destruct (l !! i) as [t|]; [|done].
  simpl in Ho. simplify_eq. eauto.
Qed.

(** The MCQ engine gives a question one point exactly when the option of
    the chosen button is the correct answer. *)
Lemma revealMCQ_correct p qIdx item order :
  questions p !! qIdx = Some item →
  cards p !! qIdx = Some (mcqCard order item) →
  NoDup order →
  _revealMCQ p qIdx = if choseCorrect p qIdx then 1%Z else 0%Z.
Proof.
  intros Hq Hc Hnd. unfold _revealMCQ, choseCorrect, chosenOpt. rewrite Hq, Hc.
  unfold mcqCard.
  set (opts := shuffle order (imap (λ origI t, mkOpt t origI None) (optionsOf item))).
  assert (Hopts : NoDup (origIdx <$> opts)) by by apply shuffle_NoDup.
  destruct (answers p !! qIdx) as [[selectedI|o]|]; [|done..].
  rewrite list_lookup_imap.
  destruct (opts !! selectedI) as [o|] eqn:Hsel; simpl; [|done].
  destruct (decide (Some (origIdx o) = answerOf item)) as [Ha|Ha].
  - rewrite (findIndex_unique _ _ 0 selectedI o) by done. simpl.
    by rewrite !bool_decide_eq_true_2.
  - rewrite (bool_decide_eq_false_2 _ Ha).
    rewrite bool_decide_eq_false_2; [done|].
    intros Hfi. symmetry in Hfi. apply findIndex_found in Hfi as [_ (o' & Ho' & Ha')].
    rewrite Nat.sub_0_r in Ho'. congruence.
Qed.

(** The fill engine gives a question one point exactly when the chosen
    option is the correct answer and the card shows a blank. *)
Lemma revealFill_correct p qIdx item order :
  questions p !! qIdx = Some item →
  cards p !! qIdx = Some (fillCard order item) →
  answersClicked p →
  _revealFill p qIdx = if hasBlank p qIdx && choseCorrect p qIdx then 1%Z else 0%Z.
Proof.
  intros Hq Hc Hclick.
  unfold _revealFill, hasBlank, choseCorrect, chosenOpt. rewrite Hq, Hc.
  unfold fillCard.
  destruct (answers p !! qIdx) as [[selectedI|o]|] eqn:Hans;
    [by rewrite andb_false_r| |by rewrite andb_false_r].
  specialize (Hclick qIdx o Hans). rewrite Hc in Hclick. unfold fillCard in Hclick.
  apply shuffle_elem in Hclick as (i & t & ->). simpl. done.
Qed.

(** ** Submission *)

Lemma answers_missing_size p qIdx :
  answersWf p → (qIdx < List.length (questions p))%nat → answers p !! qIdx = None →
  (size (answers p) < List.length (questions p))%nat.
Proof.
  intros Hwf Hlt Hnone.
  rewrite <- (size_dom (D := gset nat)).
  rewrite <- (size_set_seq (C := gset nat) 0 (List.length (questions p))).
  apply subset_size. split.
  - intros i Hi%elem_of_dom. apply elem_of_set_seq. split; [lia|]. by apply Hwf.
  - intros Hsub. assert (Hin : qIdx ∈ dom (answers p)).
    { apply Hsub, elem_of_set_seq. lia. }
    apply elem_of_dom in Hin as [? ?]. congruence.
Qed.

Lemma answers_complete_size p :
  (∀ qIdx, (qIdx < List.length (questions p))%nat → is_Some (answers p !! qIdx)) →
  (List.length (questions p) ≤ size (answers p))%nat.
Proof.
  intros Hall.
  rewrite <- (size_dom (D := gset nat)).
  rewrite <- (size_set_seq (C := gset nat) 0 (List.length (questions p))) at 1.
  apply subseteq_size. intros i [_ Hi]%elem_of_set_seq. apply elem_of_dom, Hall. lia.
Qed.

Section WithPlatform.
Context {PF : Platform}.

(** [_submitQuiz] changes nothing after a submission, or while a question
    has no answer. *)
Lemma submitQuiz_noop p today now timeTaken subject level set :
  submitted p = true ∨
  (answersWf p ∧ ∃ qIdx, (qIdx < List.length (questions p))%nat ∧
                         answers p !! qIdx = None) →
  _submitQuiz p today now timeTaken subject level set = p.
Proof.
  unfold _submitQuiz. intros [->|(Hwf & qIdx & Hlt & Hnone)]; [done|].
  destruct (submitted p); [done|].
  rewrite bool_decide_eq_true_2; [done|]. by eapply answers_missing_size.
Qed.

(** Once every question has an answer, [_submitQuiz] locks the page, saves
    the result and shows the score with the percentage [saveResult]
    returned. *)
Lemma submitQuiz_scores p today now timeTaken subject level set :
  submitted p = false →
  (∀ qIdx, (qIdx < List.length (questions p))%nat → is_Some (answers p !! qIdx)) →
  let total := List.length (questions p) in
  let percent := Math_round_pct (scoreOf p) (Z.of_nat total) in
  let p' := _submitQuiz p today now timeTaken subject level set in
  submitted p' = true ∧
  modal p' = Some (scoreOf p, total, percent) ∧
  Progress.meta (Progress.getAll (storage p')) ≫= Progress.lastAttempted
    = Some (Progress.mkAttempt subject level set percent today (Some now)).
Proof.
  intros Hsub Hall. unfold _submitQuiz. rewrite Hsub.
  rewrite bool_decide_eq_false_2; [done|].
  pose proof (answers_complete_size p Hall). lia.
Qed.

End WithPlatform.

(** The score of the MCQ engine: the number of questions whose chosen
    option is the correct answer. *)
Lemma scoreOf_mcq p orders :
  engineType p = mcq →
  cards p = _render mcq orders (questions p) →
  (∀ qIdx, NoDup (orders qIdx)) →
  scoreOf p
  = Z.of_nat (List.length (filter (λ qIdx, choseCorrect p qIdx = true)
                                  (seq 0 (List.length (questions p))))).
Proof.
  intros Hengine Hcards Hnd. unfold scoreOf. rewrite Hengine.
  rewrite (score_sum _ (choseCorrect p)); [lia|].
  intros qIdx [_ Hlt]%elem_of_seq.
  destruct (lookup_lt_is_Some_2 (questions p) qIdx) as [item Hitem]; [lia|].
  apply (revealMCQ_correct p qIdx item (orders qIdx)); [done| |done].
  rewrite Hcards. unfold _render, _renderMCQ, _renderFill.
  by rewrite list_lookup_imap, Hitem.
Qed.

(** The score of the fill engine: the number of questions whose chosen
    option is the correct answer and whose card shows a blank. *)
Lemma scoreOf_fill p orders :
  engineType p = fill →
  cards p = _render fill orders (questions p) →
  answersClicked p →
  scoreOf p
  = Z.of_nat (List.length (filter (λ qIdx, hasBlank p qIdx && choseCorrect p qIdx = true)
                                  (seq 0 (List.length (questions p))))).
Proof.
  intros Hengine Hcards Hclick. unfold scoreOf. rewrite Hengine.
  rewrite (score_sum _ (λ qIdx, hasBlank p qIdx && choseCorrect p qIdx)); [lia|].
  intros qIdx [_ Hlt]%elem_of_seq.
  destruct (lookup_lt_is_Some_2 (questions p) qIdx) as [item Hitem]; [lia|].
  apply (revealFill_correct p qIdx item (orders qIdx)); [done| |done].
  rewrite Hcards. unfold _render, _renderMCQ, _renderFill.
  by rewrite list_lookup_imap, Hitem.
Qed.

End EngineFacts.

Section EngineResults.
Import JsString Engine Samples.
Context {PF : Platform}.

(** X1. [_submitQuiz] is a no-op after a submission and while a question of
    the page has no answer (the answers recorded belonging to questions of
    the page). *)
Theorem submitQuiz_guard p today now timeTaken subject level set :
  submitted p = true ∨
  (answersWf p ∧ ∃ qIdx, (qIdx < List.length (questions p))%nat ∧
                         answers p !! qIdx = None) →
  _submitQuiz p today now timeTaken subject level set = p.
Proof. apply submitQuiz_noop. Qed.

(** X2. In the MCQ engine, once every question is answered, the score
    [_submitQuiz] computes is the number of questions whose chosen option is
    the correct answer, and the percentage shown and recorded as last
    attempt is [Math.round(score / questions.length * 100)]. *)
Theorem submitQuiz_mcq_score p orders today now timeTaken subject level set :
  engineType p = mcq →
  cards p = _render mcq orders (questions p) →
  (∀ qIdx, NoDup (orders qIdx)) →
  submitted p = false →
  (∀ qIdx, (qIdx < List.length (questions p))%nat → is_Some (answers p !! qIdx)) →
  let total := List.length (questions p) in
  let score :=
    Z.of_nat (List.length (filter (λ qIdx, choseCorrect p qIdx = true) (seq 0 total))) in
  let percent := Math_round_pct score (Z.of_nat total) in
  let p' := _submitQuiz p today now timeTaken subject level set in
  submitted p' = true ∧
  modal p' = Some (score, total, percent) ∧
  Progress.meta (Progress.getAll (storage p')) ≫= Progress.lastAttempted
    = Some (Progress.mkAttempt subject level set percent today (Some now)).
Proof.
  intros Hengine Hcards Hnd Hsub Hall. simpl.
  rewrite <- (scoreOf_mcq p orders) by done.
  by apply submitQuiz_scores.
Qed.

(** X3. In the fill engine, once every question is answered with an option
    of its card, the score [_submitQuiz] computes is the number of questions
    whose chosen option is the correct answer and whose text holds a blank
    marker (two or more underscores, three or more dots, or the ellipsis
    character), and the percentage shown and recorded is
    [Math.round(score / questions.length * 100)]. *)
Theorem submitQuiz_fill_score p orders today now timeTaken subject level set :
  engineType p = fill →
  cards p = _render fill orders (questions p) →
  answersClicked p →
  submitted p = false →
  (∀ qIdx, (qIdx < List.length (questions p))%nat → is_Some (answers p !! qIdx)) →
  let total := List.length (questions p) in
  let score :=
    Z.of_nat (List.length (filter (λ qIdx, hasBlank p qIdx && choseCorrect p qIdx = true)
                                  (seq 0 total))) in
  let percent := Math_round_pct score (Z.of_nat total) in
  let p' := _submitQuiz p today now timeTaken subject level set in
  submitted p' = true ∧
  modal p' = Some (score, total, percent) ∧
  Progress.meta (Progress.getAll (storage p')) ≫= Progress.lastAttempted
    = Some (Progress.mkAttempt subject level set percent today (Some now)).
Proof.
  intros Hengine Hcards Hclick Hsub Hall. simpl.
  rewrite <- (scoreOf_fill p orders) by done.
  by apply submitQuiz_scores.
Qed.

End EngineResults.

Section EngineExamples.
Import JsString Engine Samples.

Example hasBlankMarker_sample :
  hasBlankMarker "She __ to school." = true ∧
  hasBlankMarker "He ... home." = true ∧
  hasBlankMarker "They … early." = true ∧
  hasBlankMarker "Pick the noun" = false ∧
  hasBlankMarker "a_b.c..d" = false.
Proof. by vm_compute. Qed.

Example escapeHTML_sample : escapeHTML "a < b && c" = "a &lt; b &amp;&amp; c".
Proof. reflexivity. Qed.

Example validateQuestions_sample :
  validateQuestions (JArray (nounQuestion :: malformedQuestions ++ [blankQuestion]))
  = [nounQuestion; blankQuestion].
Proof. by vm_compute. Qed.

Example init_rejects_empty_set :
  init fill (λ _, [1; 0]%nat) "3" None (Body (JArray malformedQuestions))
  = inl "No valid questions found in this set.".
Proof. by vm_compute. Qed.

(** C8, on a question the fill engine accepts: the text of the first
    question has no blank, the student chooses the correct option of both
    questions, and [_submitQuiz] computes the score 1 of 2 and saves and shows
    50 percent, where two chosen options are the correct answers. *)
Theorem submitQuiz_fill_without_blank :
  validateQuestions (JArray [nounQuestion; blankQuestion])
    = [nounQuestion; blankQuestion] ∧
  choseCorrect fillAnswered 0 = true ∧
  choseCorrect fillAnswered 1 = true ∧
  let p' := _submitQuiz (PF := evalPlatform) fillAnswered "Mar 3, 2026"
                        1772500000000 95 "nouns" "high" "1" in
  submitted p' = true ∧
  modal p' = Some (1%Z, 2%nat, 50%Z) ∧
  Progress.getSetResult (storage p') "nouns" "high" "1"
    = Some (Progress.mkEntry (Some 1%Z) (Some 2%Z) (Some 50%Z) (Some "Mar 3, 2026")
                             (Some 1772500000000%Z) (Some 95%Z)).
Proof. by vm_compute. Qed.

Lemma validateQuestions_kept_witness :
  ∃ text options answer i opt,
    prop nounQuestion "q" = Some (JString text) ∧ text ≠ "" ∧ trim text ≠ "" ∧
    prop nounQuestion "options" = Some (JArray options) ∧
    (2 ≤ List.length options)%nat ∧
    prop nounQuestion "answer" = Some (JNumber answer) ∧
    isInteger answer = true ∧
    (0 <= answer)%Q ∧ (answer < inject_Z (Z.of_nat (List.length options)))%Q ∧
    answerOf nounQuestion = Some i ∧ (i < List.length options)%nat ∧
    correctOption nounQuestion = Some opt ∧ options !! i = Some opt.
Proof.
  apply (proj1 (validateQuestions_kept (JArray [nounQuestion; blankQuestion]))).
  change (validateQuestions (JArray [nounQuestion; blankQuestion]))
    with [nounQuestion; blankQuestion].
  by left.
Defined.

Lemma mcqAnswered_complete qIdx :
  (qIdx < List.length (questions mcqAnswered))%nat → is_Some (answers mcqAnswered !! qIdx).
Proof.
  intros Hlt. destruct qIdx as [|[|qIdx]]; [by eexists..|]. simpl in Hlt. lia.
Defined.

Lemma submitQuiz_guard_witness :
  _submitQuiz (PF := evalPlatform) (_selectMCQ mcqPage 0 0) "Mar 3, 2026"
              1772500000000 95 "nouns" "high" "1"
  = _selectMCQ mcqPage 0 0.
Proof.
  apply (submitQuiz_guard (PF := evalPlatform)). right. split.
  - intros qIdx [a Ha]. destruct qIdx as [|qIdx]; [simpl; lia|].
    change (answers (_selectMCQ mcqPage 0 0))
      with (<[0%nat := SelectedIndex 0]> (∅ : gmap nat Answer)) in Ha.
    rewrite lookup_insert_ne, lookup_empty in Ha by done. done.
  - exists 1%nat. split; [simpl; lia|done].
Defined.

Lemma submitQuiz_mcq_score_witness :
  let p' := _submitQuiz (PF := evalPlatform) mcqAnswered "Mar 3, 2026"
                        1772500000000 95 "nouns" "high" "1" in
  submitted p' = true ∧ modal p' = Some (1%Z, 2%nat, 50%Z).
Proof.
  destruct (submitQuiz_mcq_score (PF := evalPlatform) mcqAnswered (λ _, [1; 0]%nat)
              "Mar 3, 2026" 1772500000000 95 "nouns" "high" "1")
    as (Hsub & Hmodal & _).
  - done.
  - done.
  - intros _. apply (bool_decide_unpack _). by vm_compute.
  - done.
  - apply mcqAnswered_complete.
  - split; [exact Hsub|exact Hmodal].
Defined.

Lemma fillAnswered_clicked : answersClicked fillAnswered.
Proof.
  intros qIdx o Ho. destruct qIdx as [|[|qIdx]]; [| |done].
  - injection Ho as <-. simpl. apply elem_of_cons. right. by left.
  - injection Ho as <-. simpl. by left.
Defined.

Lemma fillAnswered_complete qIdx :
  (qIdx < List.length (questions fillAnswered))%nat →
  is_Some (answers fillAnswered !! qIdx).
Proof.
  intros Hlt. destruct qIdx as [|[|qIdx]]; [by eexists..|]. simpl in Hlt. lia.
Defined.

Lemma submitQuiz_fill_score_witness :
  let p' := _submitQuiz (PF := evalPlatform) fillAnswered "Mar 3, 2026"
                        1772500000000 95 "nouns" "high" "1" in
  submitted p' = true ∧ modal p' = Some (1%Z, 2%nat, 50%Z).
Proof.
  destruct (submitQuiz_fill_score (PF := evalPlatform) fillAnswered (λ _, [1; 0]%nat)
              "Mar 3, 2026" 1772500000000 95 "nouns" "high" "1")
    as (Hsub & Hmodal & _).
  - done.
  - done.
  - apply fillAnswered_clicked.
  - done.
  - apply fillAnswered_complete.
  - split; [exact Hsub|exact Hmodal].
Defined.

End EngineExamples.


(** * Properties of the other handlers of the web app *)

Section HandlersFacts.
Import JsString Backend Handlers.
Context {PF : Platform}.
Implicit Types (st : State) (sheet : list RegRow) (row : RegRow).

Lemma falsy_ne s : s ≠ "" → falsy s = false.
Proof. intros Hs. by apply bool_decide_eq_false. Qed.

Lemma falsy_inv s : falsy s = false → s ≠ "".
Proof. intros Hs. by apply bool_decide_eq_false in Hs. Qed.

Lemma attemptsOf_key st now email :
  attemptsOf st now email
  = default 0%Z (cacheGet (scriptCache st) now
                   ("login_attempts_" ++ toLowerCase (trim email))).
Proof. done. Qed.

(** A login for an email whose counter has reached 5. *)
Lemma login_rate_limited st data uuid nowIso clock :
  login_email data ≠ "" → login_password data ≠ "" →
  (5 ≤ attemptsOf st clock (login_email data))%Z →
  _handleLogin st data uuid nowIso clock
  = (st, errorResponse "Too many login attempts. Please wait 5 minutes." "RATE_LIMITED").
Proof.
  intros He Hp Hlim. unfold _handleLogin. rewrite !falsy_ne by done. cbn [orb].
  rewrite <- attemptsOf_key. by rewrite bool_decide_eq_true_2.
Qed.

(** A login with bad credentials for an email that is not locked. *)
Lemma login_bad_step st sheet data uuid nowIso clock :
  REGISTRATION st = Some sheet → badCredentials sheet data →
  (attemptsOf st clock (login_email data) < 5)%Z →
  _handleLogin st data uuid nowIso clock =
    (mkState (REGISTRATION st) (RESULTS st)
       (cachePut (scriptCache st) clock (rateLimitKeyOf (login_email data))
                 (attemptsOf st clock (login_email data) + 1) 300),
     errorResponse "Invalid email or password." "INVALID_CREDENTIALS").
Proof.
  intros Hsheet (He & Hp & Hbad) Hlim. unfold _handleLogin.
  rewrite !falsy_ne by done. cbn [orb]. rewrite <- !attemptsOf_key.
  rewrite bool_decide_eq_false_2 by lia. rewrite Hsheet.
  destruct (_findRowByColumn _ _ _) as [[i row]|]; [|done].
  destruct Hbad as [Happ Hhash]. rewrite Happ. cbn.
  by rewrite (bool_decide_eq_false_2 _ Hhash).
Qed.

(** What [cache.get] finds after [cache.put]. *)
Lemma cacheGet_cachePut cache now key value seconds t key' :
  cacheGet (cachePut cache now key value seconds) t key'
  = if bool_decide (key' = key)
    then if bool_decide (t < now + seconds * 1000)%Z then Some value else None
    else cacheGet cache t key'.
Proof.
  unfold cacheGet, cachePut. case_bool_decide as Hk.
  - subst. by rewrite lookup_insert_eq.
  - by rewrite lookup_insert_ne.
Qed.

(** A login that succeeds removes the counter of the email. *)
Lemma login_success_cache st data uuid nowIso clock :
  success (_handleLogin st data uuid nowIso clock).2 = true →
  scriptCache (_handleLogin st data uuid nowIso clock).1
  = delete (rateLimitKeyOf (login_email data)) (scriptCache st).
Proof.
  unfold _handleLogin.
  destruct (falsy _ || falsy _); [done|].
  case_bool_decide; [done|].
  destruct (REGISTRATION st) as [sheet|]; [|done].
  destruct (_findRowByColumn _ _ _) as [[rowIndex row]|]; [|done].
  repeat (case_bool_decide; [done|]).
  case_bool_decide; cbn [negb]; [|done].
  case_bool_decide; cbn [negb]; [|done]. done.
Qed.

(** X5. Rate limiting of the login.  The failed logins of an email are
    counted in the script cache, under a value that expires 300 seconds
    after it is written.  A login answered with INVALID_CREDENTIALS (unknown
    email, or wrong password for an approved account) while the counter
    found is below 5 leaves the sheets alone and writes the counter plus
    one: that value is found until 300 seconds after this login, and no
    counter is found from then on; the counters of the other emails are
    what they were.  When the counter found is 5 or more, every login for
    that email is answered RATE_LIMITED and changes nothing, not even the
    time at which the counter expires, whatever the password: so after the
    fifth failure in a row the email is locked until 300 seconds after that
    failure.  A login that succeeds removes the counter. *)
Theorem login_lockout st sheet data uuid nowIso clock :
  REGISTRATION st = Some sheet → badCredentials sheet data →
  let email := login_email data in
  let a := attemptsOf st clock email in
  let r := _handleLogin st data uuid nowIso clock in
  let limited := errorResponse "Too many login attempts. Please wait 5 minutes."
                               "RATE_LIMITED" in
  ((5 ≤ a)%Z →
   ∀ password uuid' nowIso', password ≠ "" →
     _handleLogin st (mkLoginData email password) uuid' nowIso' clock = (st, limited)) ∧
  ((a < 5)%Z →
   r.2 = errorResponse "Invalid email or password." "INVALID_CREDENTIALS" ∧
   REGISTRATION r.1 = REGISTRATION st ∧ RESULTS r.1 = RESULTS st ∧
   (∀ t, attemptsOf r.1 t email
         = if bool_decide (t < clock + 300 * 1000)%Z then (a + 1)%Z else 0%Z) ∧
   (∀ t email', rateLimitKeyOf email' ≠ rateLimitKeyOf email →
                attemptsOf r.1 t email' = attemptsOf st t email')) ∧
  ((a = 4)%Z →
   ∀ t password uuid' nowIso', password ≠ "" → (t < clock + 300 * 1000)%Z →
     _handleLogin r.1 (mkLoginData email password) uuid' nowIso' t = (r.1, limited)) ∧
  (∀ data' uuid' nowIso' t,
     let r' := _handleLogin st data' uuid' nowIso' clock in
     success r'.2 = true → attemptsOf r'.1 t (login_email data') = 0%Z).
Proof.
  intros Hsheet Hbad email a r limited.
  pose proof Hbad as (He & Hpw & _).
  assert (Hstep : (a < 5)%Z →
            r = (mkState (REGISTRATION st) (RESULTS st)
                   (cachePut (scriptCache st) clock (rateLimitKeyOf email) (a + 1) 300),
                 errorResponse "Invalid email or password." "INVALID_CREDENTIALS")).
  { intros Hlim. by apply (login_bad_step st sheet). }
  assert (Hcount : (a < 5)%Z → ∀ t,
            attemptsOf r.1 t email
            = if bool_decide (t < clock + 300 * 1000)%Z then (a + 1)%Z else 0%Z).
  { intros Hlim t. rewrite (Hstep Hlim). unfold attemptsOf at 1. cbn [fst scriptCache].
    rewrite cacheGet_cachePut, bool_decide_eq_true_2 by done. by case_bool_decide. }
  split; [|split; [|split]].
  - intros Hlim password uuid' nowIso' Hp. by apply login_rate_limited.
  - intros Hlim. split; [by rewrite (Hstep Hlim)|]. split; [by rewrite (Hstep Hlim)|].
    split; [by rewrite (Hstep Hlim)|]. split; [by apply Hcount|].
    intros t email' Hne. rewrite (Hstep Hlim). unfold attemptsOf. cbn [fst scriptCache].
    by rewrite cacheGet_cachePut, bool_decide_eq_false_2.
  - intros Ha t password uuid' nowIso' Hp Ht. apply login_rate_limited; [done..|].
    cbn [login_email]. rewrite Hcount by lia. rewrite bool_decide_eq_true_2 by done. lia.
  - intros data' uuid' nowIso' t r' Hok. subst r'. unfold attemptsOf.
    rewrite login_success_cache by done. unfold cacheGet. by rewrite lookup_delete_eq.
Qed.

(** The row found for a student id holds that id, trimmed. *)
Lemma findRow_id_cell sheet v rowIndex row :
  _findRowByColumn sheet COL_STUDENT_ID v = Some (rowIndex, row) →
  STUDENT_ID row = trim v ∧ v ≠ "" ∧ trim v ≠ "".
Proof.
  unfold _findRowByColumn.
  destruct (falsy v) eqn:Hv; [done|]. destruct (falsy (trim v)) eqn:Ht; [done|].
  apply falsy_inv in Hv, Ht.
  destruct (findNext _ _ _ _) as [i|] eqn:Hi; [|done].
  destruct (sheet !! i) as [values|] eqn:Hrow; [|done].
  case_bool_decide; [|done]. intros [= <- <-].
  apply findNext_Some in Hi as (c & Hc & ->).
  rewrite Nat.sub_0_r, list_lookup_fmap, Hrow in Hc. by simplify_eq/=.
Qed.

(** Rows found for two different ids are different rows. *)
Lemma findRow_id_ne sheet v v' rowIndex row rowIndex' row' :
  _findRowByColumn sheet COL_STUDENT_ID v = Some (rowIndex, row) →
  _findRowByColumn sheet COL_STUDENT_ID v' = Some (rowIndex', row') →
  trim v' ≠ trim v → rowIndex' ≠ rowIndex.
Proof.
  intros Hf Hf' Hne ->.
  pose proof (findRow_id_cell _ _ _ _ Hf) as (Hc & _).
  pose proof (findRow_id_cell _ _ _ _ Hf') as (Hc' & _).
  apply findRow_lookup in Hf as [_ Hl]. apply findRow_lookup in Hf' as [_ Hl'].
  congruence.
Qed.

(** [checkSession] reads the row of the student and nothing else. *)
Lemma checkSession_setRow st sheet rowIndex f data :
  REGISTRATION st = Some sheet → (2 ≤ rowIndex)%nat →
  (∀ row, STUDENT_ID (f row) = STUDENT_ID row) →
  (∀ i row, _findRowByColumn sheet COL_STUDENT_ID (session_studentId data) = Some (i, row) →
            i ≠ rowIndex) →
  _handleCheckSession (mkState (Some (setRow sheet rowIndex f)) (RESULTS st) (scriptCache st))
                      data
  = _handleCheckSession st data.
Proof.
  intros Hsheet Hge Hid Hother. unfold _handleCheckSession. cbn [REGISTRATION].
  rewrite Hsheet. destruct (falsy _ || falsy _); [done|].
  rewrite (findRow_setRow _ COL_STUDENT_ID) by done.
  destruct (_findRowByColumn sheet _ _) as [[i row]|] eqn:Hf; [|done].
  rewrite !(bool_decide_eq_false_2 (i = rowIndex)); [done|]. by eapply Hother.
Qed.

(** X6. Logout ends the session of the student and of nobody else.  When
    [_handleLogout] answers with success (it asks for the student id only,
    not for the token), no token passes [checkSession] for that student any
    more; the answer of [checkSession] for every other student id is what it
    was; the results and the login counters are untouched. *)
Theorem logout_ends_session st sid :
  let r := _handleLogout st sid in
  success r.2 = true →
  (∀ token, success (_handleCheckSession r.1 (mkSessionData sid token)) = false) ∧
  (∀ sid' token, trim sid' ≠ trim sid →
     _handleCheckSession r.1 (mkSessionData sid' token)
     = _handleCheckSession st (mkSessionData sid' token)) ∧
  RESULTS r.1 = RESULTS st ∧ scriptCache r.1 = scriptCache st.
Proof.
  unfold _handleLogout. destruct (falsy sid) eqn:Hsid; [done|].
  destruct (REGISTRATION st) as [sheet|] eqn:Hsheet; [|done].
  destruct (_findRowByColumn sheet COL_STUDENT_ID sid) as [[rowIndex row]|] eqn:Hfind;
    [|done].
  cbn [fst snd]. intros _.
  pose proof (findRow_lookup _ _ _ _ _ Hfind) as [Hge Hrow].
  split; [|split; [|done]].
  - intros token. unfold _handleCheckSession. cbn [REGISTRATION session_studentId
      session_activeSessionToken]. rewrite Hsid. cbn [orb].
    destruct (falsy token) eqn:Htok; [done|]. apply falsy_inv in Htok.
    rewrite (findRow_setRow _ COL_STUDENT_ID) by done. rewrite Hfind.
    rewrite !(bool_decide_eq_true_2 (rowIndex = rowIndex)) by done.
    destruct (negb _); [done|]. cbn [SESSION_TOKEN setSessionToken].
    by rewrite bool_decide_eq_false_2.
  - intros sid' token Hne. apply checkSession_setRow; try done.
    intros i row' Hf'. cbn in Hf'. by eapply findRow_id_ne.
Qed.

(** The answers of an admin action that is carried out. *)
Lemma adminAction_cases st data now :
  let r := _handleAdminAction st data now in
  let action := toLowerCase (trim (admin_adminAction data)) in
  success r.2 = true →
  ∃ sheet rowIndex row,
    REGISTRATION st = Some sheet ∧
    _findRowByColumn sheet COL_STUDENT_ID (admin_studentId data) = Some (rowIndex, row) ∧
    RESULTS r.1 = RESULTS st ∧ scriptCache r.1 = scriptCache st ∧
    ((action = "delete" ∧ REGISTRATION r.1 = Some (delete (rowIndex - 2)%nat sheet)) ∨
     (action = "approve" ∧ newStatus r.2 = Some "approved" ∧
      REGISTRATION r.1
        = Some (setRow (setRow sheet rowIndex (setStatus "approved")) rowIndex
                  (setApproved now (orText (admin_adminName data) "Admin")))) ∨
     (action = "reject" ∧ newStatus r.2 = Some "rejected" ∧
      REGISTRATION r.1
        = Some (setRow (setRow sheet rowIndex (setStatus "rejected")) rowIndex
                  (setSessionToken ""))) ∨
     (action = "suspend" ∧ newStatus r.2 = Some "suspended" ∧
      REGISTRATION r.1
        = Some (setRow (setRow sheet rowIndex (setStatus "suspended")) rowIndex
                  (setSessionToken "")))).
Proof.
  unfold _handleAdminAction. destruct (falsy _ || falsy _); [done|].
  case_bool_decide as Hact; cbn [negb]; [|done].
  destruct (REGISTRATION st) as [sheet|] eqn:Hsheet; [|done].
  destruct (_findRowByColumn _ _ _) as [[rowIndex row]|] eqn:Hfind; [|done].
  intros _. exists sheet, rowIndex, row. split; [done|]. split; [done|].
  repeat (apply elem_of_cons in Hact as [->|Hact]); [..|by apply elem_of_nil in Hact];
    cbn; (split; [done|]); (split; [done|]).
  - right. left. done.
  - right. right. left. done.
  - right. right. right. done.
  - left. done.
Qed.

(** X7. Suspending or rejecting a student ends the session.  When
    [_handleAdminAction] carries out [suspend] or [reject], the answer names
    the new status, no token passes [checkSession] for that student any
    more, [validateSession] refuses the student, a login that reaches the
    row is answered with the new status and changes nothing, and the answer
    of [checkSession] for every other student id is what it was. *)
Theorem adminAction_forces_logout st data now :
  let r := _handleAdminAction st data now in
  let action := toLowerCase (trim (admin_adminAction data)) in
  let sid := admin_studentId data in
  success r.2 = true → action = "suspend" ∨ action = "reject" →
  ∃ sheet rowIndex row,
    REGISTRATION st = Some sheet ∧
    _findRowByColumn sheet COL_STUDENT_ID sid = Some (rowIndex, row) ∧
    newStatus r.2 = Some (action ++ "ed")%string ∧
    (∀ token, success (_handleCheckSession r.1 (mkSessionData sid token)) = false) ∧
    (∀ token loginAt,
       v_success (_handleValidateSession r.1 (mkValidateData sid token loginAt)) = false) ∧
    (∀ ldata uuid nowIso clock sheet' row',
       reachesRow r.1 clock ldata sheet' rowIndex row' →
       let l := _handleLogin r.1 ldata uuid nowIso clock in
       success l.2 = false ∧ status l.2 = Some (action ++ "ed")%string ∧ l.1 = r.1) ∧
    (∀ sid' token, trim sid' ≠ trim sid →
       _handleCheckSession r.1 (mkSessionData sid' token)
       = _handleCheckSession st (mkSessionData sid' token)).
Proof.
  intros r action sid Hok Hact.
  destruct (adminAction_cases st data now Hok)
    as (sheet & rowIndex & row & Hsheet & Hfind & Hres & Hcache & Hcase).
  fold r action in Hcase, Hres, Hcache.
  exists sheet, rowIndex, row. split; [done|]. split; [done|].
  pose proof (findRow_lookup _ _ _ _ _ Hfind) as [Hge Hrow].
  assert (∃ newSt, (newSt = "suspended" ∨ newSt = "rejected") ∧
            newSt = (action ++ "ed")%string ∧ newStatus r.2 = Some newSt ∧
            REGISTRATION r.1
              = Some (setRow (setRow sheet rowIndex (setStatus newSt)) rowIndex
                        (setSessionToken ""))) as (newSt & HnewSt & Hname & Hnew & Hreg).
  { destruct Hcase as [[Ha _]|[[Ha _]|[(Ha & Hn & Hr)|(Ha & Hn & Hr)]]];
      try (destruct Hact as [Hact|Hact]; rewrite Hact in Ha; discriminate).
    - exists "rejected". rewrite Ha. eauto.
    - exists "suspended". rewrite Ha. eauto. }
  rewrite <- Hname. split; [done|].
  set (row1 := setSessionToken "" (setStatus newSt row)).
  assert (Hst1 : statusOf row1 = newSt) by (by destruct HnewSt as [->| ->]).
  assert (Hrow1 : ∀ sheet', REGISTRATION r.1 = Some sheet' →
            sheet' !! (rowIndex - 2)%nat = Some row1).
  { intros sheet' Hs'. rewrite Hreg in Hs'. injection Hs' as <-.
    erewrite setRow_lookup_eq; [done|]. by apply setRow_lookup_eq. }
  assert (Hfind1 : ∀ v,
            _findRowByColumn (setRow (setRow sheet rowIndex (setStatus newSt)) rowIndex
                                     (setSessionToken "")) COL_STUDENT_ID v
            = match _findRowByColumn sheet COL_STUDENT_ID v with
              | Some (i, row0) =>
                  Some (i, if bool_decide (i = rowIndex)
                           then setSessionToken "" (setStatus newSt row0) else row0)
              | None => None
              end).
  { intros v. rewrite !(findRow_setRow _ COL_STUDENT_ID) by done.
    destruct (_findRowByColumn sheet COL_STUDENT_ID v) as [[i0 row0]|]; [|done].
    by case_bool_decide. }
  split; [|split; [|split]].
  - intros token. unfold _handleCheckSession. rewrite Hreg.
    destruct (falsy _ || falsy _); [done|].
    cbn [session_studentId]. rewrite Hfind1. unfold sid. rewrite Hfind.
    rewrite !(bool_decide_eq_true_2 (rowIndex = rowIndex)) by done.
    fold row1. rewrite Hst1.
    by destruct HnewSt as [->| ->].
  - intros token loginAt. unfold _handleValidateSession. rewrite Hreg.
    destruct (falsy _ || falsy _ || _); [done|].
    cbn [validate_studentId]. rewrite Hfind1. unfold sid. rewrite Hfind.
    rewrite !(bool_decide_eq_true_2 (rowIndex = rowIndex)) by done.
    fold row1. rewrite Hst1.
    by destruct HnewSt as [->| ->].
  - intros ldata uuid nowIso clock sheet' row' Hreach.
    pose proof Hreach as (_ & _ & _ & Hs' & Hf').
    apply findRow_lookup in Hf' as [_ Hl']. rewrite (Hrow1 _ Hs') in Hl'.
    injection Hl' as <-.
    destruct (login_status_gate r.1 ldata uuid nowIso clock _ _ _ Hreach) as (H1 & H2 & _ & H4).
    { rewrite Hst1. destruct HnewSt as [->| ->].
      - apply elem_of_cons. right. apply elem_of_cons. by left.
      - do 2 (apply elem_of_cons; right). apply elem_of_cons. by left. }
    rewrite Hst1 in H2. done.
  - intros sid' token Hne. unfold _handleCheckSession. rewrite Hreg, Hsheet.
    destruct (falsy _ || falsy _); [done|].
    cbn [session_studentId]. rewrite Hfind1.
    destruct (_findRowByColumn sheet COL_STUDENT_ID sid') as [[i row0]|] eqn:Hf'; [|done].
    rewrite !(bool_decide_eq_false_2 (i = rowIndex)); [done|]. by eapply findRow_id_ne.
Qed.

(** The text finder finds nothing where no cell matches, and skips a row
    that does not match. *)
Lemma findNext_None (mc : bool) (searchStr : string) (cells : list string) i :
  (∀ c, c ∈ cells →
        ¬ (if mc then c = searchStr else toLowerCase c = toLowerCase searchStr)) →
  findNext mc searchStr cells i = None.
Proof.
  revert i. induction cells as [|c cells IH]; intros i Hno; [done|]. simpl.
  pose proof (Hno c (list_elem_of_here c cells)) as Hc.
  destruct mc; rewrite bool_decide_eq_false_2 by done;
    apply IH; intros c' Hin; apply Hno; by apply list_elem_of_further.
Qed.

Lemma findNext_shift mc searchStr cells i :
  findNext mc searchStr cells (S i) = S <$> findNext mc searchStr cells i.
Proof.
  revert i. induction cells as [|c cells IH]; intros i; [done|]. simpl.
  destruct (if mc then _ else _); [done|]. apply IH.
Qed.

Lemma findNext_delete (mc : bool) (searchStr : string) (cells : list string) k c :
  cells !! k = Some c →
  ¬ (if mc then c = searchStr else toLowerCase c = toLowerCase searchStr) →
  findNext mc searchStr (delete k cells) 0 =
    (λ j, if bool_decide (j < k)%nat then j else (j - 1)%nat)
      <$> findNext mc searchStr cells 0.
Proof.
  revert k. induction cells as [|c0 cells IH]; intros k Hk Hno; [done|].
  destruct k as [|k]; simpl in *.
  - simplify_eq. assert (Hf : (if mc then bool_decide (c = searchStr)
                               else bool_decide (toLowerCase c = toLowerCase searchStr))
                              = false).
    { destruct mc; by apply bool_decide_eq_false_2. }
    rewrite Hf. rewrite findNext_shift.
    destruct (findNext mc searchStr cells 0) as [j|]; simpl; [|done].
    f_equal. lia.
  - destruct (if mc then bool_decide (c0 = searchStr) else _); [done|].
    rewrite !findNext_shift, (IH k) by done.
    destruct (findNext mc searchStr cells 0) as [j|] eqn:Hj; simpl; [|done].
    assert (j ≠ k).
    { intros ->. apply findNext_Some in Hj as (c' & Hc' & Hm).
      rewrite Nat.sub_0_r in Hc'. by simplify_eq. }
    f_equal. repeat case_bool_decide; lia.
Qed.

(** Deleting a row that a search does not match keeps the row the search
    finds. *)
Lemma findRow_delete sheet col v k row0 :
  sheet !! k = Some row0 →
  (match col with
   | COL_EMAIL => toLowerCase (cell col row0) ≠ toLowerCase (trim v)
   | COL_STUDENT_ID => cell col row0 ≠ trim v
   end) →
  snd <$> _findRowByColumn (delete k sheet) col v = snd <$> _findRowByColumn sheet col v.
Proof.
  intros Hk Hno. unfold _findRowByColumn.
  destruct (falsy v); [done|]. destruct (falsy (trim v)); [done|].
  assert (Hdel : cell col <$> delete k sheet = delete k (cell col <$> sheet)).
  { apply list_eq. intros j. rewrite list_lookup_fmap.
    destruct (decide (j < k)%nat).
    - by rewrite !list_lookup_delete_lt, list_lookup_fmap by done.
    - by rewrite !list_lookup_delete_ge, list_lookup_fmap by lia. }
  rewrite Hdel.
  rewrite (findNext_delete _ _ _ k (cell col row0)).
  2:{ by rewrite list_lookup_fmap, Hk. }
  2:{ by destruct col. }
  destruct (findNext _ _ (cell col <$> sheet) 0) as [j|] eqn:Hj; [|done]. simpl.
  assert (j ≠ k).
  { intros ->. apply findNext_Some in Hj as (c & Hc & Hm).
    rewrite Nat.sub_0_r, list_lookup_fmap, Hk in Hc. simplify_eq/=. by destruct col. }
  case_bool_decide.
  - rewrite list_lookup_delete_lt by done.
    destruct (sheet !! j); [|done]. by destruct col; case_bool_decide.
  - rewrite list_lookup_delete_ge by lia. replace (S (j - 1)) with j by lia.
    destruct (sheet !! j); [|done]. by destruct col; case_bool_decide.
Qed.

(** X8. Deleting a student.  When [_handleAdminAction] carries out
    [delete], the row found for the student id is removed from the sheet and
    the other rows stay, in their order; the answer of [checkSession] for
    every other student id is what it was; and when no other row carries
    the id, no request for it passes [checkSession] or [validateSession]
    any more. *)
Theorem adminAction_delete st data now :
  let r := _handleAdminAction st data now in
  let sid := admin_studentId data in
  success r.2 = true → toLowerCase (trim (admin_adminAction data)) = "delete" →
  ∃ sheet rowIndex row,
    REGISTRATION st = Some sheet ∧
    _findRowByColumn sheet COL_STUDENT_ID sid = Some (rowIndex, row) ∧
    REGISTRATION r.1 = Some (delete (rowIndex - 2)%nat sheet) ∧
    (∀ sid' token, trim sid' ≠ trim sid →
       _handleCheckSession r.1 (mkSessionData sid' token)
       = _handleCheckSession st (mkSessionData sid' token)) ∧
    ((∀ j row', sheet !! j = Some row' → STUDENT_ID row' = trim sid →
                j = (rowIndex - 2)%nat) →
     ∀ token loginAt,
       success (_handleCheckSession r.1 (mkSessionData sid token)) = false ∧
       v_success (_handleValidateSession r.1 (mkValidateData sid token loginAt)) = false).
Proof.
  intros r sid Hok Hact.
  destruct (adminAction_cases st data now Hok)
    as (sheet & rowIndex & row & Hsheet & Hfind & Hres & Hcache & Hcase).
  fold r in Hcase. rewrite Hact in Hcase.
  destruct Hcase as [[_ Hreg]|[[? _]|[[? _]|[? _]]]]; try discriminate.
  exists sheet, rowIndex, row. split; [done|]. split; [done|]. split; [done|].
  pose proof (findRow_lookup _ _ _ _ _ Hfind) as [Hge Hrow].
  pose proof (findRow_id_cell _ _ _ _ Hfind) as (Hcell & _ & _).
  split.
  - intros sid' token Hne. unfold _handleCheckSession. rewrite Hreg, Hsheet.
    destruct (falsy _ || falsy _); [done|]. cbn [session_studentId].
    pose proof (findRow_delete sheet COL_STUDENT_ID sid' _ _ Hrow) as Hdel.
    cbn in Hdel. rewrite Hcell in Hdel. specialize (Hdel (λ H, Hne (eq_sym H))).
    destruct (_findRowByColumn (delete _ _) _ _) as [[i1 row1]|],
             (_findRowByColumn sheet COL_STUDENT_ID sid') as [[i2 row2]|];
      simplify_eq/=; done.
  - intros Huniq token loginAt.
    assert (Hnone : _findRowByColumn (delete (rowIndex - 2)%nat sheet) COL_STUDENT_ID sid
                    = None).
    { unfold _findRowByColumn. destruct (falsy sid); [done|].
      destruct (falsy (trim sid)); [done|].
      rewrite findNext_None; [done|].
      intros c Hin Hc. apply list_elem_of_fmap in Hin as (row' & -> & Hin).
      apply list_elem_of_lookup_1 in Hin as [j Hj].
      destruct (decide (j < rowIndex - 2)%nat).
      + rewrite list_lookup_delete_lt in Hj by done. specialize (Huniq _ _ Hj Hc). lia.
      + rewrite list_lookup_delete_ge in Hj by lia. specialize (Huniq _ _ Hj Hc). lia. }
    unfold _handleCheckSession, _handleValidateSession. rewrite Hreg.
    cbn [session_studentId validate_studentId]. fold sid. rewrite Hnone.
    split.
    + by destruct (falsy _ || falsy _).
    + by destruct (falsy _ || falsy _ || _).
Qed.

(** X9. [validateSession] looks at the status only.  For a request whose
    three fields are given, it succeeds exactly when the row found for the
    student id has the status [approved]; the token and the login time it is
    given make no difference; so it accepts every request that
    [checkSession] accepts, and never changes the state (it returns no
    state). *)
Theorem validateSession_status_only st sid token loginAt :
  sid ≠ "" → token ≠ "" → loginAt ≠ 0%Z →
  let r := _handleValidateSession st (mkValidateData sid token loginAt) in
  (v_success r = true ↔
     ∃ sheet rowIndex row,
       REGISTRATION st = Some sheet ∧
       _findRowByColumn sheet COL_STUDENT_ID sid = Some (rowIndex, row) ∧
       statusOf row = "approved") ∧
  (∀ token' loginAt', token' ≠ "" → loginAt' ≠ 0%Z →
     _handleValidateSession st (mkValidateData sid token' loginAt') = r) ∧
  (∀ token', success (_handleCheckSession st (mkSessionData sid token')) = true →
     v_success r = true).
Proof.
  intros Hsid Htok Hat r.
  assert (Hr : ∀ token' loginAt', token' ≠ "" → loginAt' ≠ 0%Z →
     _handleValidateSession st (mkValidateData sid token' loginAt') =
       match REGISTRATION st with
       | None => mkValidateResponse false None (Some "Sheet not found.")
                                    (Some "SHEET_NOT_FOUND")
       | Some regSheet =>
           match _findRowByColumn regSheet COL_STUDENT_ID sid with
           | None => mkValidateResponse false (Some false) None None
           | Some (_, row) =>
               mkValidateResponse (bool_decide (statusOf row = "approved"))
                                  (Some (bool_decide (statusOf row = "approved")))
                                  None None
           end
       end).
  { intros token' loginAt' Ht Ha. unfold _handleValidateSession.
    cbn [validate_studentId validate_token validate_loginAt].
    rewrite !falsy_ne by done. by rewrite bool_decide_eq_false_2. }
  assert (Hiff : v_success r = true ↔
     ∃ sheet rowIndex row,
       REGISTRATION st = Some sheet ∧
       _findRowByColumn sheet COL_STUDENT_ID sid = Some (rowIndex, row) ∧
       statusOf row = "approved").
  { subst r. rewrite Hr by done.
    destruct (REGISTRATION st) as [sheet|].
    2:{ split; [done|]. by intros (? & ? & ? & ? & _). }
    destruct (_findRowByColumn sheet COL_STUDENT_ID sid) as [[rowIndex row]|] eqn:Hf.
    2:{ split; [done|]. intros (? & ? & ? & ? & ? & _). simplify_eq. }
    cbn. rewrite bool_decide_eq_true. split.
    - intros Happ. by exists sheet, rowIndex, row.
    - intros (? & ? & ? & ? & ? & ?). by simplify_eq. }
  split; [exact Hiff|]. split.
  - intros token' loginAt' Ht Ha. subst r. by rewrite !Hr.
  - intros token' Hcheck. apply Hiff.
    apply checkSession_success in Hcheck as (sheet & rowIndex & row & ? & ? & ? & _).
    by exists sheet, rowIndex, row.
Qed.

(** X10. What [_handleSaveResult] stores.  It never touches the
    registration sheet or the login counters; an answer that is not a
    success leaves the state as it is; a success for a student id other than
    [anonymous] means that the id was found with the status [approved]; and
    when the answer is [Result saved.], exactly the row of the request was
    appended to the results.  When none of the student's rows, that of the
    request included, names an inherited property as subject or level,
    [_getStudentProgress] then holds for the set of the request an entry
    whose percentage is at least the one saved if the set names no
    inherited property, and no entry if it names one. *)
Theorem saveResult_recorded st data found now nowIso :
  let r := _handleSaveResult st data found now nowIso in
  let sid := orText (result_studentId data) "anonymous" in
  REGISTRATION r.1 = REGISTRATION st ∧ scriptCache r.1 = scriptCache st ∧
  (success r.2 = false → r.1 = st) ∧
  (success r.2 = true → sid ≠ "anonymous" →
   ∃ sheet rowIndex row,
     REGISTRATION st = Some sheet ∧
     _findRowByColumn sheet COL_STUDENT_ID sid = Some (rowIndex, row) ∧
     statusOf row = "approved") ∧
  (message r.2 = Some "Result saved." →
   ∃ results score total,
     RESULTS st = Some results ∧
     result_score data = Some score ∧ result_total data = Some total ∧
     RESULTS r.1 = Some (results ++ [resultRow data score total now nowIso]) ∧
     (plainRows sid (results ++ [resultRow data score total now nowIso]) →
      (Progress.inherited (result_set data) = false →
       ∃ e, Progress.lookupEntry (_getStudentProgress r.1 sid)
              (result_subject data) (result_level data) (result_set data) = Some e ∧
            (PERCENTAGE (resultRow data score total now nowIso)
             ≤ default 0 (Progress.percentage e))%Z) ∧
      (Progress.inherited (result_set data) = true →
       Progress.lookupEntry (_getStudentProgress r.1 sid)
         (result_subject data) (result_level data) (result_set data) = None))).
Proof.
  intros r sid. subst r. unfold _handleSaveResult.
  destruct (result_score data) as [score|] eqn:Hscore; [|done].
  destruct (result_total data) as [total|] eqn:Htotal; [|done].
  destruct (falsy _ || falsy _ || falsy _); [done|]. fold sid.
  set (refused := if bool_decide (sid = "anonymous") then None else _).
  assert (Hrefused : match refused with
            | Some answer => success answer = false ∧ message answer = None
            | None => sid ≠ "anonymous" →
                ∃ sheet rowIndex row,
                  REGISTRATION st = Some sheet ∧
                  _findRowByColumn sheet COL_STUDENT_ID sid = Some (rowIndex, row) ∧
                  statusOf row = "approved"
            end).
  { subst refused. case_bool_decide as Hanon; [done|].
    destruct (REGISTRATION st) as [sheet|] eqn:Hsheet; [|done].
    destruct (_findRowByColumn sheet COL_STUDENT_ID sid) as [[rowIndex row]|] eqn:Hfind;
      [|done].
    case_bool_decide as Happ; cbn [negb]; [|done].
    intros _. by exists sheet, rowIndex, row. }
  destruct refused as [answer|].
  { cbn [fst snd]. destruct Hrefused as [Hs Hm]. rewrite Hs, Hm. done. }
  destruct (RESULTS st) as [results|] eqn:Hres; [|done].
  match goal with |- context [if ?d then (st, _) else _] => destruct d end.
  { cbn [fst snd]. repeat split; try done. }
  cbn [fst snd REGISTRATION RESULTS scriptCache success message messageResponse].
  split; [done|]. split; [done|]. split; [done|]. split; [done|].
  intros _. exists results, score, total. repeat (split; [done|]).
  set (new := resultRow data score total now nowIso).
  intros Hrows. split; [|by apply getStudentProgress_inherited].
  intros Hset.
  pose proof (getStudentProgress_bestOf
                (mkState (REGISTRATION st) (Some (results ++ [new])) (scriptCache st))
                sid (result_subject data) (result_level data) (result_set data)
                Hrows Hset) as Hbest.
  cbn [RESULTS default] in Hbest.
  assert (Hin : new ∈ results ++ [new]) by (apply elem_of_app; right; by apply list_elem_of_singleton).
  assert (Hof : resultOf sid (result_subject data) (result_level data) (result_set data) new)
    by done.
  destruct (Progress.lookupEntry _ _ _ _) as [e|].
  - exists e. split; [done|]. destruct Hbest as (row & _ & _ & -> & Hmax).
    exact (Hmax new Hin Hof).
  - by destruct (Hbest new Hin).
Qed.

(** Without [matchCase] the text finder compares in lower case. *)
Lemma findNext_lower (searchStr : string) (cells : list string) i :
  findNext false (toLowerCase searchStr) cells i = findNext false searchStr cells i.
Proof.
  revert i. induction cells as [|c cells IH]; intros i; [done|]. simpl.
  rewrite toLowerCase_idemp. destruct (bool_decide _); [done|]. apply IH.
Qed.

Lemma findNext_None_inv (mc : bool) (searchStr : string) (cells : list string) i c :
  findNext mc searchStr cells i = None → c ∈ cells →
  ¬ (if mc then c = searchStr else toLowerCase c = toLowerCase searchStr).
Proof.
  revert i. induction cells as [|c0 cells IH]; intros i Hnone Hin.
  { by apply elem_of_nil in Hin. }
  simpl in Hnone. apply elem_of_cons in Hin as [->|Hin].
  - destruct mc; case_bool_decide; done.
  - destruct (if mc then bool_decide (c0 = searchStr) else _); [done|]. by eapply IH.
Qed.

(** A search of the email column that finds nothing: no cell is the email,
    up to letter case. *)
Lemma findRow_email_None sheet v :
  v ≠ "" → trim v ≠ "" →
  _findRowByColumn sheet COL_EMAIL v = None →
  findNext false (trim v) (EMAIL <$> sheet) 0 = None.
Proof.
  intros Hv Ht. rewrite findRow_email by by apply falsy_ne.
  change (cell COL_EMAIL) with EMAIL.
  destruct (findNext _ _ _ _) as [i|] eqn:Hi; [|done].
  pose proof (findNext_bounds _ _ _ _ _ Hi) as Hb. rewrite length_fmap in Hb.
  destruct (lookup_lt_is_Some_2 sheet i) as [row Hrow]; [lia|]. by rewrite Hrow.
Qed.

(** A row appended under an email that no row holds is the row a search of
    that email finds. *)
Lemma findRow_email_snoc sheet v v' row :
  v ≠ "" → trim v ≠ "" →
  _findRowByColumn sheet COL_EMAIL v = None →
  v' ≠ "" → trim v' ≠ "" →
  toLowerCase (trim v') = toLowerCase (trim v) →
  toLowerCase (EMAIL row) = toLowerCase (trim v) →
  _findRowByColumn (sheet ++ [row]) COL_EMAIL v'
  = Some ((List.length sheet + 2)%nat, row).
Proof.
  intros Hv Ht Hnone Hv' Ht' Hsame Hrow.
  apply findRow_email_None in Hnone; [|done..].
  rewrite findRow_email by by apply falsy_ne. change (cell COL_EMAIL) with EMAIL.
  rewrite <- findNext_lower, Hsame, findNext_lower, fmap_app.
  change (EMAIL <$> [row]) with [EMAIL row]. rewrite findNext_snoc by done.
  rewrite bool_decide_eq_true_2 by done.
  rewrite length_fmap. simpl. rewrite lookup_app_r by lia. by rewrite Nat.sub_diag.
Qed.

(** X11. An account made with [createStudent] can log in at once.  When
    [createStudent] appends its row (no error is thrown), the email is not
    blank and the email is not rate limited, a login with the email and the
    password given succeeds, whatever the letter case and the white space
    around the email, and returns the student id given and the token it
    draws. *)
Theorem createStudent_login st studentId studentName email plainPassword uuid nowIso st'
    clock :
  createStudent st studentId studentName email plainPassword uuid nowIso = inr st' →
  trim email ≠ "" →
  (attemptsOf st clock email < 5)%Z →
  ∀ email' uuid' nowIso',
    toLowerCase (trim email') = toLowerCase (trim email) →
    let r := _handleLogin st' (mkLoginData email' plainPassword) uuid' nowIso' clock in
    success r.2 = true ∧ Backend.studentId r.2 = Some studentId ∧
    activeSessionToken r.2 = Some uuid'.
Proof.
  unfold createStudent.
  destruct (falsy studentId) eqn:Hid; [done|]. destruct (falsy studentName); [done|].
  destruct (falsy email) eqn:Hemail; [done|].
  destruct (falsy plainPassword) eqn:Hpw; [done|]. cbn [orb].
  apply falsy_inv in Hemail, Hpw.
  destruct (REGISTRATION st) as [sheet|] eqn:Hsheet; [|done].
  destruct (_findRowByColumn sheet COL_EMAIL (trim email)) as [?|] eqn:Hfind; [done|].
  destruct (_findRowByColumn sheet COL_STUDENT_ID studentId); [done|].
  intros [= <-] Htrim Hlim email' uuid' nowIso' Hsame.
  assert (Hlow : toLowerCase (trim email') ≠ "").
  { rewrite Hsame. by rewrite toLowerCase_empty. }
  assert (He' : email' ≠ "") by (by intros ->).
  set (row := mkRegRow studentId studentName (toLowerCase (trim email)) _ _ _ _ _ _ _ _ _).
  assert (Hnew : _findRowByColumn (sheet ++ [row]) COL_EMAIL (toLowerCase (trim email'))
                 = Some ((List.length sheet + 2)%nat, row)).
  { apply (findRow_email_snoc sheet (trim email)); try done.
    - by rewrite trim_idemp.
    - by rewrite normalized_email_trim.
    - by rewrite normalized_email_trim, toLowerCase_idemp, trim_idemp.
    - cbn. by rewrite toLowerCase_idemp, trim_idemp. }
  set (st1 := mkState (Some (sheet ++ [row])) (RESULTS st) (scriptCache st)).
  set (data := mkLoginData email' plainPassword).
  assert (Hreach : reachesRow st1 clock data (sheet ++ [row]) (List.length sheet + 2)%nat row).
  { split; [done|]. split; [done|]. split; [|done].
    cbn [login_email data scriptCache st1]. rewrite Hsame. exact Hlim. }
  destruct (login_password_check st1 data uuid' nowIso' clock _ _ _ Hreach eq_refl)
    as [Hiff _].
  destruct (login_cases st1 data uuid' nowIso' clock)
    as [(Hs & sheet0 & i0 & row0 & Hsh & Hf & _ & _ & _ & Htok & Hsid)|(Hs & _)].
  - injection Hsh as <-. cbn [login_email data] in Hf. rewrite Hnew in Hf.
    injection Hf as <- <-. done.
  - rewrite (proj2 Hiff eq_refl) in Hs. discriminate.
Qed.

Lemma append_String a (s t : string) : (String a s ++ t)%string = String a (s ++ t)%string.
Proof. done. Qed.

Lemma append_empty (t : string) : ("" ++ t)%string = t.
Proof. done. Qed.

(** One hexadecimal digit determines its value. *)
Lemma hexDigit_inj (d1 d2 : Z) :
  (0 ≤ d1 < 16)%Z → (0 ≤ d2 < 16)%Z → hexDigit d1 = hexDigit d2 → d1 = d2.
Proof.
  intros H1 H2 Heq. unfold hexDigit in Heq.
  apply (f_equal nat_of_ascii) in Heq.
  rewrite !nat_ascii_embedding in Heq by (repeat case_bool_decide; lia).
  repeat case_bool_decide; lia.
Qed.

Lemma byteHex_inj (b1 b2 : Z) :
  byteHex b1 = byteHex b2 → (b1 `mod` 256 = b2 `mod` 256)%Z.
Proof.
  rewrite !byteHex_digits. intros [= Hhi Hlo].
  assert (0 ≤ b1 `mod` 256 < 256)%Z by (apply Z.mod_pos_bound; lia).
  assert (0 ≤ b2 `mod` 256 < 256)%Z by (apply Z.mod_pos_bound; lia).
  apply hexDigit_inj in Hhi;
    [|split; [apply Z.div_pos; lia|apply Z.div_lt_upper_bound; lia]..].
  apply hexDigit_inj in Hlo; [|apply Z.mod_pos_bound; lia..].
  rewrite (Z.div_mod (b1 `mod` 256) 16), (Z.div_mod (b2 `mod` 256) 16) by lia.
  by rewrite Hhi, Hlo.
Qed.

(** X12. The hexadecimal encoding of [_hashPassword].  The hash has two
    characters for each byte of the digest, and it determines the digest:
    two passwords (with their salts) whose digests are arrays of signed
    bytes have the same hash only when the digests are equal. *)
Theorem hashPassword_encoding password salt password' salt' :
  let digest := computeDigest_SHA_256 (salt ++ ":" ++ password)%string in
  let digest' := computeDigest_SHA_256 (salt' ++ ":" ++ password')%string in
  String.length (_hashPassword password salt) = (2 * List.length digest)%nat ∧
  (Forall (λ b, -128 ≤ b < 128)%Z digest → Forall (λ b, -128 ≤ b < 128)%Z digest' →
   _hashPassword password salt = _hashPassword password' salt' → digest = digest').
Proof.
  intros digest digest'. unfold _hashPassword. fold digest digest'.
  generalize digest digest'. clear. intros l l'. split.
  - induction l as [|b l IH]; [done|]. cbn [foldr List.length].
    rewrite byteHex_digits, !append_String, append_empty. cbn [String.length].
    rewrite IH. lia.
  - revert l'. induction l as [|b l IH]; intros [|b' l'] Hl Hl'; cbn [foldr].
    + done.
    + rewrite byteHex_digits, !append_String. discriminate.
    + rewrite byteHex_digits, !append_String. discriminate.
    + intros Heq. apply Forall_cons in Hl as [Hb Hl]. apply Forall_cons in Hl' as [Hb' Hl'].
      pose proof (byteHex_digits b) as Hd. pose proof (byteHex_digits b') as Hd'.
      rewrite Hd, Hd', !append_String, !append_empty in Heq.
      injection Heq as Hhi Hlo Hrest.
      assert (byteHex b = byteHex b') as Hbb by (by rewrite Hd, Hd', Hhi, Hlo).
      apply byteHex_inj in Hbb. f_equal.
      * clear -Hb Hb' Hbb. Z.div_mod_to_equations. lia.
      * by apply IH.
Qed.

(** The emails of the sheet under the changes the handlers make. *)
Lemma emailsOk_snoc emails e :
  emailsOk emails → e = toLowerCase (trim e) → (e ≠ "" → e ∉ emails) →
  emailsOk (emails ++ [e]).
Proof.
  intros [Hnorm Huniq] He Hnew. split.
  - apply Forall_app. split; [done|]. by apply Forall_singleton.
  - intros i j e' Hi Hj Hne.
    apply lookup_snoc_Some in Hi as [[Hi Hli]|[Hi <-]];
      apply lookup_snoc_Some in Hj as [[Hj Hlj]|[Hj Hej]].
    + by eapply Huniq.
    + subst e'. destruct (Hnew Hne). by eapply list_elem_of_lookup_2.
    + destruct (Hnew Hne). by eapply list_elem_of_lookup_2.
    + lia.
Qed.

Lemma emailsOk_delete emails k : emailsOk emails → emailsOk (delete k emails).
Proof.
  intros [Hnorm Huniq]. split.
  - apply Forall_forall. intros e Hin. rewrite Forall_forall in Hnorm. apply Hnorm.
    apply list_elem_of_lookup_1 in Hin as [j Hj]. rewrite list_lookup_delete in Hj.
    by eapply list_elem_of_lookup_2.
  - intros i j e Hi Hj Hne. rewrite list_lookup_delete in Hi, Hj.
    pose proof (Huniq _ _ _ Hi Hj Hne). repeat case_decide; lia.
Qed.

Lemma emails_setRow sheet rowIndex f :
  (∀ row, EMAIL (f row) = EMAIL row) →
  EMAIL <$> setRow sheet rowIndex f = EMAIL <$> sheet.
Proof.
  intros Hf. unfold setRow. apply list_eq. intros j. rewrite !list_lookup_fmap.
  destruct (decide (j = (rowIndex - 2)%nat)) as [->|Hne].
  - rewrite list_lookup_alter_eq. destruct (sheet !! _); simpl; [|done]. by rewrite Hf.
  - by rewrite list_lookup_alter_ne.
Qed.

Lemma emails_delete sheet k :
  EMAIL <$> delete k sheet = delete k (EMAIL <$> sheet).
Proof.
  apply list_eq. intros j. by rewrite list_lookup_fmap, !list_lookup_delete, list_lookup_fmap.
Qed.

(** An email that a search of the column does not find is held by no row
    of a sheet whose emails are trimmed and in lower case. *)
Lemma findRow_email_fresh sheet v :
  _findRowByColumn sheet COL_EMAIL v = None →
  toLowerCase (trim v) ≠ "" → toLowerCase (trim v) ∉ EMAIL <$> sheet.
Proof.
  intros Hnone Hne Hin.
  assert (trim v ≠ "") by (by intros Ht; rewrite Ht in Hne).
  assert (v ≠ "") by (by intros ->).
  apply findRow_email_None in Hnone; [|done..].
  apply (findNext_None_inv _ _ _ _ _ Hnone Hin). cbn. by rewrite toLowerCase_idemp.
Qed.

Lemma saveResult_registration st data found now nowIso :
  REGISTRATION (_handleSaveResult st data found now nowIso).1 = REGISTRATION st.
Proof.
  unfold _handleSaveResult. repeat case_match; done.
Qed.

Lemma doPost_emails st details data env :
  emailsDistinct st → emailsDistinct (doPost st details data env).1.
Proof.
  intros Hst. unfold doPost. repeat case_bool_decide; cbn [fst]; try done.
  - (* login *)
    destruct (login_cases st (mkLoginData (post_email data) (post_password data))
                (uuid1 env) (clockIso env) (clock env))
      as [(_ & sheet & rowIndex & row & Hsheet & _ & _ & _ & Hnew & _)|(_ & Hsame & _)].
    + intros sheet' Hs'. rewrite Hnew in Hs'. injection Hs' as <-.
      rewrite !emails_setRow by done. by apply Hst.
    + intros sheet' Hs'. rewrite Hsame in Hs'. by apply Hst.
  - (* saveResult *)
    intros sheet' Hs'. rewrite saveResult_registration in Hs'. by apply Hst.
  - (* logout *)
    unfold _handleLogout. destruct (falsy _); [done|].
    destruct (REGISTRATION st) as [sheet|] eqn:Hsheet; [|done].
    destruct (_findRowByColumn sheet _ _) as [[rowIndex row]|]; [|done].
    intros sheet' [= <-]. rewrite emails_setRow by done. by apply Hst.
  - (* register *)
    destruct (register_cases st (mkRegisterData (post_name data) (post_email data)
                                   (post_password data))
                (uuid1 env) (uuid2 env) (clockIso env))
      as [(_ & sheet & Hsheet & Hnone & ->)|(_ & ->)]; [|done].
    intros sheet' [= <-]. rewrite fmap_app. cbn [fmap list_fmap registeredRow EMAIL reg_email].
    apply emailsOk_snoc; [by apply Hst| |].
    + by rewrite normalized_email_trim, toLowerCase_idemp.
    + intros Hne. cbn [reg_email] in Hnone.
      pose proof (findRow_email_fresh _ _ Hnone) as Hfresh.
      rewrite normalized_email_trim, toLowerCase_idemp in Hfresh. by apply Hfresh.
  - (* adminAction *)
    set (adata := mkAdminData _ _ _).
    destruct (success (_handleAdminAction st adata (clockIso env)).2) eqn:Hok.
    + destruct (adminAction_cases st adata (clockIso env) Hok)
        as (sheet & rowIndex & row & Hsheet & _ & _ & _ & Hcase).
      intros sheet' Hs'.
      destruct Hcase as [[_ Hr]|[(_ & _ & Hr)|[(_ & _ & Hr)|(_ & _ & Hr)]]];
        rewrite Hr in Hs'; injection Hs' as <-;
        rewrite ?emails_setRow, ?emails_delete by done;
        try apply emailsOk_delete; by apply Hst.
    + assert ((_handleAdminAction st adata (clockIso env)).1 = st) as ->; [|done].
      revert Hok. unfold _handleAdminAction. repeat case_match; done.
Qed.

(** X13. The emails of the registration sheet stay distinct.  When the
    emails of the sheet are trimmed and in lower case and no email other
    than the empty one is held by two rows, this is still so after any
    sequence of POST requests, and after [createStudent] has appended a
    row. *)
Theorem emails_stay_distinct st :
  emailsDistinct st →
  (∀ details requests, emailsDistinct (serve st details requests)) ∧
  (∀ studentId studentName email plainPassword uuid nowIso st',
     createStudent st studentId studentName email plainPassword uuid nowIso = inr st' →
     emailsDistinct st').
Proof.
  intros Hst. split.
  - intros details requests. unfold serve. revert st Hst.
    induction requests as [|[data env] requests IH]; intros st Hst; [done|].
    cbn [foldl]. apply IH. by apply doPost_emails.
  - intros studentId studentName email plainPassword uuid nowIso st'. unfold createStudent.
    destruct (falsy _ || falsy _ || falsy _ || falsy _); [done|].
    destruct (REGISTRATION st) as [sheet|] eqn:Hsheet; [|done].
    destruct (_findRowByColumn sheet COL_EMAIL (trim email)) as [?|] eqn:Hnone; [done|].
    destruct (_findRowByColumn sheet COL_STUDENT_ID studentId); [done|].
    intros [= <-] sheet' [= <-]. rewrite fmap_app. cbn [fmap list_fmap EMAIL].
    apply emailsOk_snoc; [by apply Hst| |].
    + by rewrite <- toLowerCase_trim, trim_idemp, toLowerCase_idemp.
    + intros Hne. pose proof (findRow_email_fresh _ _ Hnone) as Hfresh.
      rewrite trim_idemp in Hfresh. by apply Hfresh.
Qed.

(** Search of the STUDENT_DETAILS sheet after a row is appended. *)
Lemma findDetailsRow_lookup (sheet : list DetailsRow) v rowIndex d :
  _findDetailsRow sheet v = Some (rowIndex, d) →
  sheet !! (rowIndex - 2)%nat = Some d ∧ det_studentId d = trim v.
Proof.
  unfold _findDetailsRow. destruct (falsy v); [done|]. destruct (falsy (trim v)); [done|].
  destruct (findNext _ _ _ _) as [i|] eqn:Hi; [|done].
  destruct (sheet !! i) as [values|] eqn:Hrow; [|done].
  case_bool_decide; [|done]. intros [= <- <-].
  replace (i + 2 - 2)%nat with i by lia. split; [done|].
  apply findNext_Some in Hi as (c & Hc & ->).
  rewrite Nat.sub_0_r, list_lookup_fmap, Hrow in Hc. by simplify_eq/=.
Qed.

Lemma findNext_app_l (mc : bool) (searchStr : string) (cells more : list string) i j :
  findNext mc searchStr cells i = Some j →
  findNext mc searchStr (cells ++ more) i = Some j.
Proof.
  revert i. induction cells as [|c cells IH]; intros i; [done|]. simpl.
  destruct (if mc then _ else _); [done|]. apply IH.
Qed.

Lemma findDetailsRow_snoc (sheet : list DetailsRow) v d :
  v ≠ "" → trim v = v → det_studentId d = v →
  _findDetailsRow (sheet ++ [d]) v =
    match _findDetailsRow sheet v with
    | Some found => Some found
    | None => Some ((List.length sheet + 2)%nat, d)
    end.
Proof.
  intros Hv Ht Hd. unfold _findDetailsRow. rewrite Ht, !falsy_ne by done.
  rewrite fmap_app. change (det_studentId <$> [d]) with [det_studentId d].
  destruct (findNext true v (det_studentId <$> sheet) 0) as [i|] eqn:Hi.
  - pose proof (findNext_bounds _ _ _ _ _ Hi) as Hb. rewrite length_fmap in Hb.
    pose proof (findNext_Some _ _ _ _ _ Hi) as (c & Hc & ->).
    rewrite Nat.sub_0_r, list_lookup_fmap in Hc.
    destruct (sheet !! i) as [values|] eqn:Hrow; [|done].
    rewrite (findNext_app_l _ _ _ _ _ _ Hi), lookup_app_l, Hrow by lia.
    injection Hc as Hc. rewrite Hc, Ht. by rewrite bool_decide_eq_true_2.
  - rewrite findNext_snoc by done. rewrite bool_decide_eq_true_2 by done.
    rewrite length_fmap, lookup_app_r by lia. simpl. rewrite Nat.sub_diag. simpl.
    by rewrite Hd, Ht, bool_decide_eq_true_2.
Qed.

(** X14. Student details: the profile is the first row of the id.  After
    [createStudentDetails] has appended a row for an id that is not empty
    and has no white space around it, [_getStudentProfile] answers that id
    with success: with the row just appended when the sheet had no row for
    the id, and with the earlier row otherwise.  The map
    [_handleListStudents] reads the details from holds the row appended
    last. *)
Theorem createStudentDetails_profile details studentId studentName schoolName className
    profileImageURL guardianName contactNumber address nowIso after :
  createStudentDetails details studentId studentName schoolName className
    profileImageURL guardianName contactNumber address nowIso = inr after →
  studentId ≠ "" → trim studentId = studentId →
  let created := mkDetailsRow studentId studentName schoolName className profileImageURL
                              guardianName contactNumber address nowIso in
  _getStudentProfile (Some after) studentId =
    mkProfile true None
      (Some match _getStudentProfile details studentId with
            | mkProfile _ _ (Some earlier) => earlier
            | _ => created
            end) ∧
  detailsMap (Some after) !! studentId = Some created.
Proof.
  unfold createStudentDetails. destruct details as [before|]; [|done].
  intros [= <-] Hid Htrim. cbn zeta.
  set (created := mkDetailsRow studentId studentName schoolName className profileImageURL
                               guardianName contactNumber address nowIso).
  assert (Hrow : mkDetailsRow studentId studentName (orText schoolName "")
                   (orText className "") (orText profileImageURL "")
                   (orText guardianName "") (orText contactNumber "")
                   (orText address "") nowIso = created).
  { unfold created, orText, falsy. repeat case_bool_decide; by subst. }
  rewrite Hrow. split.
  - unfold _getStudentProfile. rewrite (findDetailsRow_snoc before studentId created) by done.
    by destruct (_findDetailsRow before studentId) as [[i d]|].
  - unfold detailsMap. simpl. rewrite foldl_snoc. by rewrite lookup_insert_eq.
Qed.

(** The students [_handleListStudents] lists. *)
Lemma listLoop_elem filter dm allData s :
  s ∈ listLoop filter dm allData ↔
  ∃ row, row ∈ allData ∧ (filter = "all" ∨ statusOf row = filter) ∧ s = studentOf dm row.
Proof.
  induction allData as [|row rest IH]; simpl.
  { split; [by intros ?%elem_of_nil|]. intros (? & ?%elem_of_nil & _). done. }
  destruct (negb (bool_decide (filter = "all")) && negb (bool_decide (statusOf row = filter)))
    eqn:Hskip.
  - rewrite IH. apply andb_true_iff in Hskip as [H1 H2].
    apply negb_true_iff, bool_decide_eq_false in H1, H2.
    split.
    + intros (row' & Hin & Hf & ->). exists row'. split; [by apply list_elem_of_further|done].
    + intros (row' & Hin & Hf & ->). exists row'. split; [|done].
      apply elem_of_cons in Hin as [->|Hin]; [|done]. by destruct Hf.
  - rewrite elem_of_cons, IH. apply andb_false_iff in Hskip.
    assert (filter = "all" ∨ statusOf row = filter) as Hkeep.
    { destruct Hskip as [H1|H1]; apply negb_false_iff, bool_decide_eq_true in H1; eauto. }
    split.
    + intros [->|(row' & Hin & Hf & ->)].
      * exists row. split; [by apply list_elem_of_here|done].
      * exists row'. split; [by apply list_elem_of_further|done].
    + intros (row' & Hin & Hf & ->).
      apply elem_of_cons in Hin as [->|Hin]; [by left|]. right. by exists row'.
Qed.

(** X15. Listing students by status.  With a filter other than [all],
    [_handleListStudents] lists exactly the rows whose status (trimmed, in
    lower case) is the filter, and every student listed carries that status;
    with [all] (or no filter) it lists every row.  So after an admin action
    [approve] is carried out, the list of approved students holds the
    student, with the time and the name of the approval. *)
Theorem listStudents_by_status st details statusFilter :
  let filter := toLowerCase (trim (orText statusFilter "all")) in
  (∀ sheet, REGISTRATION st = Some sheet →
     ∃ students,
       _handleListStudents st details statusFilter
         = mkListResponse true None None (Some students) ∧
       (∀ s, s ∈ students ↔
             ∃ row, row ∈ sheet ∧ (filter = "all" ∨ statusOf row = filter) ∧
                    s = studentOf (detailsMap details) row) ∧
       (filter ≠ "all" → ∀ s, s ∈ students → s_status s = filter)) ∧
  (∀ data now,
     let r := _handleAdminAction st data now in
     success r.2 = true → toLowerCase (trim (admin_adminAction data)) = "approve" →
     ∃ students s,
       l_students (_handleListStudents r.1 details "approved") = Some students ∧
       s ∈ students ∧ s_studentId s = trim (admin_studentId data) ∧
       s_status s = "approved" ∧ s_approvedAt s = now ∧
       s_approvedBy s = orText (admin_adminName data) "Admin").
Proof.
  intros filter. split.
  - intros sheet Hsheet. unfold _handleListStudents. rewrite Hsheet. fold filter.
    eexists. split; [done|]. split; [apply listLoop_elem|].
    intros Hne s (row & _ & [?|Hst] & ->)%listLoop_elem; [done|]. exact Hst.
  - intros data now r Hok Hact.
    destruct (adminAction_cases st data now Hok)
      as (sheet & rowIndex & row & Hsheet & Hfind & _ & _ & Hcase).
    fold r in Hcase. rewrite Hact in Hcase.
    destruct Hcase as [[? _]|[(_ & _ & Hreg)|[[? _]|[? _]]]]; try discriminate.
    pose proof (findRow_lookup _ _ _ _ _ Hfind) as [Hge Hrow].
    pose proof (findRow_id_cell _ _ _ _ Hfind) as (Hcell & _ & _).
    set (row1 := setApproved now (orText (admin_adminName data) "Admin")
                             (setStatus "approved" row)).
    unfold _handleListStudents. rewrite Hreg. cbn [l_students].
    eexists. exists (studentOf (detailsMap details) row1). split; [done|]. split.
    + apply listLoop_elem. exists row1. split; [|by split; [right|]].
      eapply list_elem_of_lookup_2. erewrite setRow_lookup_eq; [done|].
      by apply setRow_lookup_eq.
    + done.
Qed.

End HandlersFacts.


Section HandlersExamples.
Import JsString Backend Handlers Samples HandlerSamples.

(** Alice's account after four failed logins, one a second. *)
Lemma login_lockout_witness :
  let st4 := foldl (λ s t, (_handleLogin (PF := evalPlatform) s aliceGuess "a-uuid"
                              "2026-03-03T08:00:00.000Z" t).1)
                   backend0 [1000; 2000; 3000; 4000]%Z in
  let r := _handleLogin (PF := evalPlatform) st4 aliceGuess "a-uuid"
                        "2026-03-03T08:00:05.000Z" 5000 in
  attemptsOf st4 5000 "alice@school.com" = 4%Z ∧
  attemptsOf r.1 304999 "alice@school.com" = 5%Z ∧
  attemptsOf r.1 305000 "alice@school.com" = 0%Z ∧
  _handleLogin (PF := evalPlatform) r.1 (mkLoginData "alice@school.com" "secret1")
               "b-uuid" "2026-03-03T08:01:00.000Z" 60000
  = (r.1, errorResponse "Too many login attempts. Please wait 5 minutes." "RATE_LIMITED").
Proof.
  intros st4 r.
  destruct (login_lockout (PF := evalPlatform) st4 [alice; bob] aliceGuess "a-uuid"
              "2026-03-03T08:00:05.000Z" 5000)
    as (_ & Hcount & Hlock & _).
  - reflexivity.
  - split; [done|]. split; [done|]. vm_compute. split; [reflexivity|discriminate].
  - split; [by vm_compute|].
    destruct Hcount as (_ & _ & _ & Hcount & _); [by vm_compute|].
    split; [etrans; [exact (Hcount 304999%Z)|by vm_compute]|].
    split; [etrans; [exact (Hcount 305000%Z)|by vm_compute]|].
    apply Hlock; [by vm_compute|done|done].
Defined.

(** Once the counter has expired, the right password logs in again. *)
Example login_after_lockout :
  let st5 := foldl (λ s t, (_handleLogin (PF := evalPlatform) s aliceGuess "a-uuid"
                              "2026-03-03T08:00:00.000Z" t).1)
                   backend0 [1000; 2000; 3000; 4000; 5000]%Z in
  success (_handleLogin (PF := evalPlatform) st5 aliceLogin "b-uuid"
                        "2026-03-03T08:05:04.000Z" 304999).2 = false ∧
  success (_handleLogin (PF := evalPlatform) st5 aliceLogin "b-uuid"
                        "2026-03-03T08:05:05.000Z" 305000).2 = true.
Proof. by vm_compute. Qed.

Lemma logout_ends_session_witness :
  success (_handleCheckSession aliceIn (mkSessionData aliceId "uuid-1")) = true ∧
  success (_handleCheckSession (_handleLogout aliceIn aliceId).1
                               (mkSessionData aliceId "uuid-1")) = false.
Proof.
  split; [by vm_compute|].
  destruct (logout_ends_session aliceIn aliceId) as (Hout & _); [by vm_compute|].
  apply Hout.
Defined.

Lemma adminAction_forces_logout_witness :
  let r := _handleAdminAction aliceIn (mkAdminData aliceId " Suspend" "") "2026-03-04" in
  newStatus r.2 = Some "suspended" ∧
  success (_handleCheckSession r.1 (mkSessionData aliceId "uuid-1")) = false.
Proof.
  intros r.
  destruct (adminAction_forces_logout (PF := evalPlatform) aliceIn (mkAdminData aliceId " Suspend" "")
              "2026-03-04")
    as (sheet & rowIndex & row & _ & _ & Hnew & Hcheck & _).
  - by vm_compute.
  - left. by vm_compute.
  - split; [exact Hnew|]. apply Hcheck.
Defined.

Lemma adminAction_delete_witness :
  let r := _handleAdminAction aliceIn (mkAdminData aliceId "delete" "") "2026-03-04" in
  REGISTRATION r.1 = Some [bob] ∧
  success (_handleCheckSession r.1 (mkSessionData aliceId "uuid-1")) = false.
Proof.
  intros r.
  destruct (adminAction_delete aliceIn (mkAdminData aliceId "delete" "") "2026-03-04")
    as (sheet & rowIndex & row & Hsheet & Hfind & Hreg & _ & Hgone).
  - by vm_compute.
  - by vm_compute.
  - split; [by vm_compute|].
    refine (proj1 (Hgone _ "uuid-1" 1%Z)).
    injection Hsheet as <-. injection Hfind as <- <-.
    intros [|[|j]] row' Hj Hid; [done| |done].
    injection Hj as <-. discriminate Hid.
Defined.

Lemma validateSession_status_only_witness :
  v_success (_handleValidateSession aliceIn (mkValidateData aliceId "no-such-token" 1%Z))
  = true.
Proof.
  destruct (validateSession_status_only aliceIn aliceId "uuid-1" 1772500000000%Z)
    as (_ & Hsame & Hcheck); [done..|].
  rewrite (Hsame "no-such-token" 1%Z) by done.
  apply (Hcheck "uuid-1"). by vm_compute.
Defined.

Lemma createStudent_login_witness :
  ∃ st', createStudent (PF := evalPlatform) backend0 "STU900" "Erin" " Erin@School.com"
                       "pass-1234" "6fa459ea-ee8a-3ca4-894e-db77e160355e"
                       "2026-03-03T09:00:00.000Z" = inr st' ∧
         success (_handleLogin (PF := evalPlatform) st'
                    (mkLoginData "erin@school.COM " "pass-1234") "uuid-9"
                    "2026-03-03T10:00:00.000Z" 1772532000000).2 = true.
Proof.
  eexists. split; [by vm_compute|].
  eapply (createStudent_login (PF := evalPlatform) backend0 "STU900" "Erin"
            " Erin@School.com" "pass-1234" "6fa459ea-ee8a-3ca4-894e-db77e160355e"
            "2026-03-03T09:00:00.000Z" _ 1772532000000%Z).
  - by vm_compute.
  - by vm_compute.
  - by vm_compute.
  - by vm_compute.
Defined.

Lemma backend0_emails : emailsDistinct backend0.
Proof.
  intros sheet [= <-]. split.
  - repeat constructor.
  - intros [|[|i]] [|[|j]] e Hi Hj Hne; simplify_eq/=; done.
Defined.

Lemma emails_stay_distinct_witness :
  emailsDistinct (serve (PF := evalPlatform) backend0 None
    [(mkPostData "register" "Bob@school.com " "hunter22" "Bobby" "" "" "" 0 "" "" "" ""
                 "" "" "" None None None None "" None,
      mkDraws "1b4e28ba-2fa1-11d2-883f-0016d3cca427" "6fa459ea-ee8a-3ca4-894e-db77e160355e"
              "2026-03-03T09:00:00.000Z" 1772500000000 None)]).
Proof. apply (emails_stay_distinct (PF := evalPlatform) backend0 backend0_emails). Defined.

Lemma createStudentDetails_profile_witness :
  _getStudentProfile (Some [aliceDetails; aliceDetails]) aliceId
  = mkProfile true None (Some aliceDetails).
Proof.
  destruct (createStudentDetails_profile (Some [aliceDetails]) aliceId "Alice" "Hill School"
              "10th" "" "Ann" "5550100" "Hill Road 1" "2026-03-01T10:00:00.000Z"
              [aliceDetails; aliceDetails]) as [Hp _]; [done..|].
  exact Hp.
Defined.

Example saveResult_sample :
  let r := _handleSaveResult (PF := evalPlatform) aliceIn aliceResult None 1772500000001
                             "2026-03-03T01:06:41.000Z" in
  message r.2 = Some "Result saved." ∧
  Progress.lookupEntry (_getStudentProgress r.1 aliceId) "tenses" "high" "1"
  = Some (Progress.mkEntry (Some 4%Z) (Some 5%Z) (Some 80%Z)
            (Some "2026-03-03T01:06:40.000Z") (Some 1772500000000%Z) (Some 30%Z)).
Proof. by vm_compute. Qed.

Example saveResult_pending_student :
  _handleSaveResult (PF := evalPlatform) backend0
    (mkResultData "STU_0F1E2D3C4B5A" "Bob" "tenses" "high" "1" (Some 4%Z) (Some 5%Z) None
                  None "" None) None 1772500000001 "2026-03-03T01:06:41.000Z"
  = (backend0, errorResponse "Student not verified." "NOT_VERIFIED").
Proof. by vm_compute. Qed.

End HandlersExamples.


(** * Properties of the merge: the last attempt, merging twice *)

Section MergeFacts.
Import Progress Merge.
Implicit Types (la : option Attempt) (r : Reached) (rs : list Reached).

Lemma latestOf_cons la r rs :
  latestOf la (r :: rs)
  = latestOf (newerAttempt la (r_subject r) (r_level r) (r_set r) (r_entry r)) rs.
Proof. done. Qed.

Lemma attemptTs_attemptOf r : attemptTs (attemptOf r) = tsOf (Some (r_entry r)).
Proof. done. Qed.

Lemma latestOf_app la rs rs' : latestOf la (rs ++ rs') = latestOf (latestOf la rs) rs'.
Proof. unfold latestOf. apply foldl_app. Qed.

Lemma mergeSets_attempt subject level sets acc :
  (mergeSets subject level sets acc).2 = latestOf acc.2 (reachedSets subject level sets).
Proof.
  revert acc. induction sets as [|[set v] rest IH]; intros acc; [done|].
  cbn [mergeSets reachedSets omap list_omap fst snd].
  case_bool_decide; [apply IH|]. destruct v as [re|]; [|apply IH]. rewrite IH. done.
Qed.

Lemma mergeLevels_attempt subject levels acc :
  (mergeLevels subject levels acc).2 = latestOf acc.2 (reachedLevels subject levels).
Proof.
  revert acc. induction levels as [|[level v] rest IH]; intros acc; [done|].
  unfold reachedLevels. rewrite bind_cons. fold (reachedLevels subject rest).
  cbn [mergeLevels fst snd]. case_bool_decide; [apply IH|].
  destruct v as [sets|]; [|apply IH].
  destruct (slotOf acc.1 level); rewrite IH, latestOf_app; cbn [fst snd];
    by rewrite mergeSets_attempt.
Qed.

Lemma mergeSubjects_attempt remote acc :
  (mergeSubjects remote acc).2 = latestOf acc.2 (reachedEntries remote).
Proof.
  revert acc. induction remote as [|[subject v] rest IH]; intros acc; [done|].
  unfold reachedEntries. rewrite bind_cons. fold (reachedEntries rest).
  cbn [mergeSubjects fst snd]. fold (reservedSubject subject).
  destruct (reservedSubject subject); [apply IH|].
  destruct v as [levels|]; [|apply IH].
  destruct (slotOf acc.1 subject); rewrite IH, latestOf_app; cbn [fst snd];
    by rewrite mergeLevels_attempt.
Qed.

(** What the fold keeps. *)
Lemma latestOf_Some a rs :
  ∃ a', latestOf (Some a) rs = Some a' ∧ (attemptTs a ≤ attemptTs a')%Z ∧
        (a' = a ∨ ∃ r, r ∈ rs ∧ a' = attemptOf r) ∧
        ∀ r, r ∈ rs → (tsOf (Some (r_entry r)) ≤ attemptTs a')%Z.
Proof.
  revert a. induction rs as [|r rs IH]; intros a.
  { exists a. split; [done|]. split; [done|]. split; [by left|].
    by intros r ?%elem_of_nil. }
  rewrite latestOf_cons; cbn [newerAttempt attemptOf r_subject r_level r_set r_entry]. fold (attemptTs a). case_bool_decide as Hnew.
  - destruct (IH (attemptOf r)) as (a' & Ha' & Hts & Hor & Hall).
    exists a'. split; [exact Ha'|]. rewrite attemptTs_attemptOf in Hts.
    split; [lia|]. split.
    + right. destruct Hor as [->|(r' & Hin & ->)].
      * exists r. split; [by apply list_elem_of_here|done].
      * exists r'. split; [by apply list_elem_of_further|done].
    + intros r' [->|Hin]%elem_of_cons; [exact Hts|by apply Hall].
  - destruct (IH a) as (a' & Ha' & Hts & Hor & Hall).
    exists a'. split; [exact Ha'|]. split; [done|]. split.
    + destruct Hor as [->|(r' & Hin & ->)]; [by left|].
      right. exists r'. split; [by apply list_elem_of_further|done].
    + intros r' [->|Hin]%elem_of_cons; [lia|by apply Hall].
Qed.

Lemma latestOf_None rs :
  match rs with
  | [] => latestOf None rs = None
  | r :: rest => latestOf None rs = latestOf (Some (attemptOf r)) rest
  end.
Proof. by destruct rs. Qed.



Lemma merge_lastAttempted ls remote :
  lastAttemptedOf (_mergeBackendData ls remote)
  = latestOf (lastAttemptedOf ls) (reachedEntries remote).
Proof.
  unfold lastAttemptedOf at 1, _mergeBackendData. cbn.
  rewrite mergeSubjects_attempt. cbn [snd]. unfold lastAttemptedOf.
  by destruct (meta (getAll ls)).
Qed.

(** The slot of a set after the merge. *)
Lemma merge_getSetResult ls remote s l k :
  remoteWf remote →
  getSetResult (_mergeBackendData ls remote) s l k
  = if leaves (subjects (getAll ls)) s l then getSetResult ls s l k
    else mergedSet k (getSetResult ls s l k) (remoteEntryAt remote s l k).
Proof.
  intros Hwf. unfold getSetResult, _mergeBackendData. simpl.
  by rewrite mergeSubjects_lookup.
Qed.

(** What the merge can do to a slot: leave it, or store the remote entry
    that wins over what the slot held. *)
Lemma mergedSet_cases k old re :
  mergedSet k old (Some re) = old
  ∨ (remoteWins old re = true ∧ mergedSet k old (Some re) = Some (fromRemote re)).
Proof.
  unfold mergedSet. destruct old as [e|].
  - rewrite (bool_decide_eq_false_2 (Some e = None)), andb_false_r by done.
    destruct (remoteWins (Some e) re); [by right|by left].
  - destruct (remoteWins _ re); [|by left].
    destruct (_ && _); [by left|by right].
Qed.

Lemma remoteWins_again re : remoteWins (Some (fromRemote re)) re = false.
Proof.
  unfold remoteWins. rewrite (bool_decide_eq_true_2 (is_Some _)) by done.
  cbn [negb orb]. rewrite pctOf_fromRemote.
  rewrite (bool_decide_eq_false_2 (_ < _)%Z) by lia. cbn [orb].
  apply andb_false_iff. right. apply bool_decide_eq_false_2.
  unfold tsOf, fromRemote. cbn. lia.
Qed.

(** Merging the same entry into a slot again changes nothing. *)
Lemma mergedSet_again k old reached :
  mergedSet k (mergedSet k old reached) reached = mergedSet k old reached.
Proof.
  destruct reached as [re|]; [|done].
  destruct (mergedSet_cases k old re) as [Hsame|[Hwin Hnew]].
  - rewrite Hsame. exact Hsame.
  - rewrite Hnew. unfold mergedSet. by rewrite remoteWins_again.
Qed.

(** A path that leaves the store still leaves it after the loops. *)
Lemma mergeLevels_slot_inherited subject levels acc l :
  slotOf acc.1 l = Inherited →
  slotOf (mergeLevels subject levels acc).1 l = Inherited.
Proof.
  revert acc. induction levels as [|[level v] rest IH]; intros acc Hl; [done|].
  cbn [mergeLevels]. case_bool_decide; [by apply IH|].
  destruct v as [sets|]; [|by apply IH].
  destruct (slotOf acc.1 level) eqn:Hslot; apply IH; cbn [fst]; [|done|];
    (rewrite slotOf_insert_ne; [done|]; intros ->; congruence).
Qed.

Lemma mergeSubjects_leaves remote acc s l :
  leaves acc.1 s l = true → leaves (mergeSubjects remote acc).1 s l = true.
Proof.
  revert acc. induction remote as [|[subject v] rest IH]; intros acc Hout; [done|].
  cbn [mergeSubjects]. destruct (_ || _); [by apply IH|].
  destruct v as [levels|]; [|by apply IH].
  destruct (decide (subject = s)) as [->|Hne].
  - assert (Hlevel : slotOf acc.1 s ≠ Inherited →
              leaves (<[s := (mergeLevels s levels (default ∅ (acc.1 !! s), acc.2)).1]>
                        acc.1) s l = true).
    { intros Hs. unfold leaves in *.
      rewrite (slotOf_Some _ _ _ (lookup_insert_eq _ _ _)), lookup_insert_eq.
      cbn [default from_option id]. rewrite mergeLevels_slot_inherited; [done|].
      cbn [fst]. destruct (slotOf acc.1 s); [|done|];
        by destruct (slotOf (default ∅ (acc.1 !! s)) l). }
    destruct (slotOf acc.1 s) eqn:Hslot; apply IH; cbn [fst];
      [by apply Hlevel|done|by apply Hlevel].
  - destruct (slotOf acc.1 subject) eqn:Hslot; apply IH; cbn [fst]; [|done|];
      unfold leaves; rewrite slotOf_insert_ne, lookup_insert_ne by done; exact Hout.
Qed.


(** X23. Merging the same answer twice.  For a remote object with distinct
    keys, a second [_mergeBackendData] with the same object leaves the entry
    of every set and [_meta.lastAttempted] as the first one left them. *)
Theorem merge_twice ls remote :
  remoteWf remote →
  let once := _mergeBackendData ls remote in
  let twice := _mergeBackendData once remote in
  (∀ s l k, getSetResult twice s l k = getSetResult once s l k) ∧
  lastAttemptedOf twice = lastAttemptedOf once.
Proof.
  intros Hwf once twice. split.
  - intros s l k. unfold twice. rewrite merge_getSetResult by done.
    destruct (leaves (subjects (getAll once)) s l) eqn:Hout; [done|].
    unfold once in *. rewrite merge_getSetResult by done.
    destruct (leaves (subjects (getAll ls)) s l) eqn:Hout0.
    + pose proof (mergeSubjects_leaves remote
                    (subjects (getAll ls), meta (getAll ls) ≫= lastAttempted) s l Hout0)
        as Hstill.
      unfold _mergeBackendData in Hout. cbn in Hout, Hstill. congruence.
    + apply mergedSet_again.
  - unfold twice. rewrite merge_lastAttempted. unfold once. rewrite merge_lastAttempted.
    generalize (reachedEntries remote). intros rs.
    assert (Hfix : ∀ a, (∀ r, r ∈ rs → (tsOf (Some (r_entry r)) ≤ attemptTs a)%Z) →
                        latestOf (Some a) rs = Some a).
    { clear. intros a. induction rs as [|r rs IH]; intros Hall; [done|].
      rewrite latestOf_cons; cbn [newerAttempt attemptOf r_subject r_level r_set r_entry]. fold (attemptTs a).
      rewrite bool_decide_eq_false_2.
      - apply IH. intros r' Hin. apply Hall. by apply list_elem_of_further.
      - pose proof (Hall r (list_elem_of_here r rs)). lia. }
    destruct (lastAttemptedOf ls) as [a0|].
    + destruct (latestOf_Some a0 rs) as (a & Ha & _ & _ & Hall). rewrite Ha. by apply Hfix.
    + destruct rs as [|r rest]; [done|].
      change (latestOf None (r :: rest)) with (latestOf (Some (attemptOf r)) rest).
      destruct (latestOf_Some (attemptOf r) rest) as (a & Ha & Hts & _ & Hall).
      rewrite Ha. apply Hfix. rewrite attemptTs_attemptOf in Hts.
      intros r' Hin. by apply elem_of_cons in Hin as [->|Hin]; [|apply Hall].
Qed.

End MergeFacts.

Section MergeExamples.
Import Progress Merge Samples.


Lemma merge_twice_witness :
  getSetResult (_mergeBackendData (_mergeBackendData storeTenses remoteTenses) remoteTenses)
               "tenses" "high" "1"
  = getSetResult (_mergeBackendData storeTenses remoteTenses) "tenses" "high" "1".
Proof.
  pose proof (merge_twice storeTenses remoteTenses remoteTenses_wf) as H.
  cbv zeta in H. destruct H as [H _]. apply H.
Defined.

End MergeExamples.


(** * Properties of the utilities of app.js *)

Section AppFacts.
Import JsString App.

(** X16. [getParams] returns validated parameters.  Whatever the query
    string holds, the subject and the mode returned consist of letters,
    digits, [_] and [-] only (and are not empty), the level is one of the
    four known levels, and the set is a string of digits whose value is at
    least 1; a parameter of the query that is valid already is returned as
    it is. *)
Theorem getParams_valid p :
  let r := getParams p in
  (VALID_PARAM_RE (subject r) = true ∧ level r ∈ VALID_LEVELS ∧
   allDigits (set r) = true ∧ (1 ≤ parseInt10 (set r))%Z ∧
   VALID_PARAM_RE (mode r) = true) ∧
  (∀ s, q_subject p = Some s → VALID_PARAM_RE s = true → subject r = s) ∧
  (∀ l, q_level p = Some l → l ∈ VALID_LEVELS → level r = l) ∧
  (∀ k, q_set p = Some k → allDigits k = true → (1 ≤ parseInt10 k)%Z → set r = k) ∧
  (∀ m, q_mode p = Some m → VALID_PARAM_RE m = true → mode r = m).
Proof.
  assert (Hget : ∀ v d s, v = Some s → s ≠ "" → getOr v d = s).
  { intros v d s -> Hs. unfold getOr, falsy. by rewrite bool_decide_eq_false_2. }
  assert (Hre : ∀ s, VALID_PARAM_RE s = true → s ≠ "").
  { intros s Hs ->. done. }
  assert (Hdig : ∀ s, allDigits s = true → s ≠ "").
  { intros s Hs ->. done. }
  assert (Hlev : ∀ l, l ∈ VALID_LEVELS → l ≠ "").
  { intros l Hl ->. unfold VALID_LEVELS in Hl.
    repeat (apply elem_of_cons in Hl as [?|Hl]; [done|]). by apply elem_of_nil in Hl. }
  cbn zeta. unfold getParams. cbn [subject level set mode].
  split; [|split; [|split; [|split]]].
  - split; [|split; [|split; [|split]]].
    + destruct (VALID_PARAM_RE (getOr (q_subject p) "tenses")) eqn:Hs; cbn [negb]; done.
    + case_bool_decide as Hl; cbn [negb]; [done|].
      unfold VALID_LEVELS. do 3 (apply elem_of_cons; right). apply elem_of_cons. by left.
    + destruct (allDigits (getOr (q_set p) "1")) eqn:Hs; cbn [negb orb]; [|done].
      by case_bool_decide.
    + destruct (allDigits (getOr (q_set p) "1")) eqn:Hs; cbn [negb orb]; [|done].
      case_bool_decide; [done|lia].
    + destruct (VALID_PARAM_RE (getOr (q_mode p) "student")) eqn:Hs; cbn [negb]; done.
  - intros s Hq Hs. rewrite (Hget _ _ s) by auto. by rewrite Hs.
  - intros l Hq Hl. rewrite (Hget _ _ l) by auto. by rewrite bool_decide_eq_true_2.
  - intros k Hq Hk Hge. rewrite (Hget _ _ k) by auto. rewrite Hk. cbn [negb orb].
    rewrite bool_decide_eq_false_2; [done|lia].
  - intros m Hq Hm. rewrite (Hget _ _ m) by auto. by rewrite Hm.
Qed.

(** Sorting a list that is in ascending order leaves it as it is. *)
Lemma StronglySorted_seq a n : StronglySorted (≤)%nat (seq a n).
Proof.
  revert a. induction n as [|n IH]; intros a; simpl; constructor; [apply IH|].
  apply Forall_forall. intros x Hx%elem_of_seq. lia.
Qed.

Lemma StronglySorted_filter (P : nat → Prop) `{!∀ x, Decision (P x)} (l : list nat) :
  StronglySorted (≤)%nat l → StronglySorted (≤)%nat (filter P l).
Proof.
  induction 1 as [|x l Hl IH Hx]; [constructor|].
  rewrite filter_cons. destruct (decide (P x)); [|done].
  constructor; [done|]. apply Forall_forall. intros y [_ Hy]%list_elem_of_filter.
  rewrite Forall_forall in Hx. by apply Hx.
Qed.

Lemma merge_sort_sorted (l : list nat) :
  StronglySorted (≤)%nat l → merge_sort (≤)%nat l = l.
Proof.
  intros Hl. apply (StronglySorted_unique (≤)%nat); [|done|].
  - apply (StronglySorted_merge_sort _).
  - apply merge_sort_Permutation.
Qed.

Lemma foundIn_filter ok start :
  foundIn ok start = filter (λ n, ok n = true) (batchNumbers start).
Proof.
  unfold foundIn. apply merge_sort_sorted.
  unfold batchNumbers. do 2 apply StronglySorted_filter. apply StronglySorted_seq.
Qed.

Lemma discoverLoop_acc ok starts sets :
  discoverLoop ok starts sets = sets ++ discoverLoop ok starts [].
Proof.
  revert sets. induction starts as [|start rest IH]; intros sets; simpl.
  { by rewrite app_nil_r. }
  case_bool_decide; [done|]. rewrite IH, (IH (foundIn ok start)). by rewrite app_assoc.
Qed.

Lemma discoverLoop_sublist ok starts :
  discoverLoop ok starts [] `sublist_of` List.concat (batchNumbers <$> starts) ∧
  ∀ n, n ∈ discoverLoop ok starts [] → ok n = true.
Proof.
  induction starts as [|start rest [IH1 IH2]]; simpl.
  { split; [done|]. by intros n ?%elem_of_nil. }
  assert (Hsub : foundIn ok start `sublist_of` batchNumbers start).
  { rewrite foundIn_filter. apply sublist_filter. }
  assert (Hok : ∀ n, n ∈ foundIn ok start → ok n = true).
  { intros n. rewrite foundIn_filter. by intros [? _]%list_elem_of_filter. }
  case_bool_decide.
  - split; [by apply sublist_inserts_r|done].
  - rewrite discoverLoop_acc. split; [by apply sublist_app|].
    intros n [?|?]%elem_of_app; auto.
Qed.

(** The result depends on the requests of the batches only. *)
Lemma discoverLoop_ext ok ok' starts sets :
  (∀ start n, start ∈ starts → n ∈ batchNumbers start → ok n = ok' n) →
  discoverLoop ok starts sets = discoverLoop ok' starts sets.
Proof.
  revert sets. induction starts as [|start rest IH]; intros sets Hext; [done|].
  simpl. assert (foundIn ok start = foundIn ok' start) as ->.
  { rewrite !foundIn_filter.
    assert (Hb : ∀ n, n ∈ batchNumbers start → ok n = ok' n).
    { intros n. apply Hext. by apply list_elem_of_here. }
    induction (batchNumbers start) as [|x l IHl]; [done|].
    rewrite !(filter_cons _ x), IHl, Hb.
    - done.
    - by apply list_elem_of_here.
    - intros n Hn. apply Hb. by apply list_elem_of_further. }
  rewrite IH; [done|]. intros start' n Hs. apply Hext. by apply list_elem_of_further.
Qed.

(** X17. The sets [discoverSets] finds.  The numbers returned are in
    ascending order without repetition, lie between 1 and 60, and the
    request for each of them was answered OK.  When the files present are
    exactly [set1.json] to [setN.json] for some [N <= 60], the result is
    [1, ..., N]: what [getSetsFromConfig] returns for a configured count of
    [N]. *)
Theorem discoverSets_found ok :
  let sets := discoverSets ok in
  sets `sublist_of` seq 1 60 ∧
  (∀ n, n ∈ sets → ok n = true) ∧
  (∀ N level, (N ≤ 60)%nat →
     (∀ n, (1 ≤ n ≤ 60)%nat → ok n = true ↔ (n ≤ N)%nat) →
     sets = seq 1 N ∧
     ((0 < N)%nat →
      getSetsFromConfig (Some {[ level := Engine.JNumber (inject_Z (Z.of_nat N)) ]}) level
      = Some sets)).
Proof.
  intros sets. unfold sets, discoverSets.
  destruct (discoverLoop_sublist ok ((λ k, 1 + BATCH_SIZE * k)%nat <$> seq 0 6))
    as [Hsub Hok].
  split; [exact Hsub|]. split; [exact Hok|].
  intros N level HN Hfiles.
  assert (Hseq : discoverLoop ok ((λ k, 1 + BATCH_SIZE * k)%nat <$> seq 0 6) [] = seq 1 N).
  { rewrite (discoverLoop_ext ok (λ n, (n <=? N)%nat)).
    2:{ intros start n Hstart Hn.
        apply list_elem_of_filter in Hn as [Hle Hn]. apply elem_of_seq in Hn.
        assert (1 ≤ start)%nat.
        { apply list_elem_of_fmap in Hstart as (k & -> & _). lia. }
        destruct (ok n) eqn:Hokn.
        - apply Hfiles in Hokn; [|lia]. symmetry. by apply Nat.leb_le.
        - symmetry. apply Nat.leb_gt.
          destruct (decide (n ≤ N)%nat) as [Hle'|]; [|lia].
          apply Hfiles in Hle'; [congruence|lia]. }
    clear -HN. do 61 (destruct N as [|N]; [by vm_compute|]). lia. }
  split; [exact Hseq|]. intros Hpos. rewrite Hseq.
  unfold getSetsFromConfig. cbn [mbind option_bind]. rewrite lookup_singleton_eq.
  assert (Qle_bool (inject_Z (Z.of_nat N)) 0%Q = false) as ->.
  { apply not_true_iff_false. rewrite Qle_bool_iff. unfold Qle. simpl. lia. }
  f_equal. unfold arrayFromLength. simpl. rewrite Z.div_1_r, Nat2Z.id.
  rewrite <- fmap_S_seq. apply list_fmap_ext. intros _ i _. lia.
Qed.

End AppFacts.


(** * Properties of the browser side *)

Section ClientFacts.
Import JsString Client.
Implicit Types (b : Browser) (s : Session).

Lemma getStudentId_stored b id dateStr rand :
  student_id b = Some id → id ≠ "" → getStudentId b dateStr rand = (b, id).
Proof.
  intros Hid Hne. unfold getStudentId. rewrite Hid. cbn. by rewrite falsy_ne.
Qed.

(** X18. The identity a login leaves in the browser.  After
    [createSession] for a student id that is not empty, [getStudentId]
    returns that id and writes nothing, the stored results and the last
    attempt are what they were, and [getStudentName] returns the name given
    (nothing when it is empty), unless the progress key holds something
    that cannot be read: then the name is not stored and [getStudentName]
    returns nothing.  A result that cannot be sent is queued under that id
    and under the name [getStudentName] returns, [Anonymous] when it
    returns nothing. *)
Theorem createSession_identity {PF : Platform} b studentId studentName email token now :
  studentId ≠ "" →
  let b' := (createSession b studentId studentName email token now).1 in
  let name := match progress b with
              | Unreadable => None
              | _ => if falsy studentName then None else Some studentName
              end in
  (∀ dateStr rand, getStudentId b' dateStr rand = (b', studentId)) ∧
  getStudentName b' = name ∧
  Progress.subjects (Progress.getAll (parsed (progress b')))
    = Progress.subjects (Progress.getAll (parsed (progress b))) ∧
  Progress.meta (Progress.getAll (parsed (progress b'))) ≫= Progress.lastAttempted
    = Progress.meta (Progress.getAll (parsed (progress b))) ≫= Progress.lastAttempted ∧
  (∀ dateStr rand now' nowIso outcome subject level set score total timeTaken,
     Api.failed outcome →
     let r := syncResult b' dateStr rand now' nowIso outcome subject level set
                         score total timeTaken in
     ∃ item, Api.syncQueue (storage r.1)
               = Some (Api._getQueue (storage b) ++ [item]) ∧
             Api.studentId (Api.payload item) = studentId ∧
             Api.studentName (Api.payload item) = default "Anonymous" name ∧
             Api.retries item = Some 0%Z).
Proof.
  intros Hid b' name.
  assert (Hget : ∀ dateStr rand, getStudentId b' dateStr rand = (b', studentId)).
  { intros. by apply getStudentId_stored. }
  assert (Hname : getStudentName b' = name).
  { subst name. unfold getStudentName, metaField. cbn.
    destruct (progress b) as [| |data]; cbn; [|done|];
      (rewrite lookup_insert_ne by done); by rewrite lookup_insert_eq. }
  split; [exact Hget|]. split; [exact Hname|]. split.
  { cbn. by destruct (progress b). }
  split.
  { cbn. destruct (progress b) as [| |data]; cbn; [done..|].
    by destruct (Progress.meta data). }
  intros dateStr rand now' nowIso outcome subject level set score total timeTaken Hfail r.
  subst r. unfold syncResult. cbn [Api.BACKEND_URL]. rewrite Hget. cbn [fst snd].
  rewrite Hname.
  destruct outcome as [body|status|msg]; [done|..]; cbn;
    (eexists; split; [done|]); done.
Qed.

(** X19. How long a session lasts.  The session [createSession] stores
    (for a student id and a token that are not empty, at a time that is not
    zero) makes [isAuthenticated] true exactly up to 24 hours after the
    login; when [checkAuth] runs later than that, it sends a logout request
    for the session and nothing else, wipes the progress store, the student
    id, the sync queue, the dashboard cache and the session, returns no
    session and sends the page to the login page. *)
Theorem session_expires b studentId studentName email token loginAt :
  studentId ≠ "" → token ≠ "" → loginAt ≠ 0%Z →
  let b' := (createSession b studentId studentName email token loginAt).1 in
  (∀ now, isAuthenticated b' now = true ↔ (now ≤ loginAt + 24 * 60 * 60 * 1000)%Z) ∧
  (∀ now onLoginPage outcome,
     (loginAt + 24 * 60 * 60 * 1000 < now)%Z →
     checkAuth b' now onLoginPage outcome =
       mkGuarded (mkBrowser Missing None None (Api.mkStorage None None)) None
                 (if onLoginPage then None else Some "login.html")
                 [CallLogout studentId token]).
Proof.
  intros Hid Htok Hat b'.
  assert (Hs : getSession b'
               = Some (mkSession studentId studentName email token loginAt
                                 (Some (loginAt + SESSION_MAX_AGE)%Z) (Some loginAt) None)).
  { unfold getSession. cbn. rewrite !falsy_ne by done.
    by rewrite bool_decide_eq_false_2. }
  split.
  - intros now. unfold isAuthenticated. rewrite Hs. unfold expired. cbn.
    unfold SESSION_MAX_AGE. case_bool_decide; cbn; split; (done || lia).
  - intros now onLoginPage outcome Hlate. unfold checkAuth. rewrite Hs.
    unfold expired. cbn [sess_expiresAt].
    rewrite bool_decide_eq_true_2 by (unfold SESSION_MAX_AGE; lia).
    unfold logout. rewrite Hs. cbn. by destruct onLoginPage.
Qed.

(** The guard on a session that has not expired. *)
Lemma checkAuth_unexpired b s now onLoginPage outcome :
  getSession b = Some s → expired s now = false →
  let due := match sess_lastChecked s with
             | Some t => t = 0%Z ∨ (2 * 60 * 1000 < now - t)%Z
             | None => True
             end in
  (¬ due → checkAuth b now onLoginPage outcome = mkGuarded b (Some s) None []) ∧
  (due →
   checkAuth b now onLoginPage outcome =
     let sent := [CallCheckSession (sess_studentId s) (sess_activeSessionToken s)] in
     if Backend.success (API_checkSession outcome)
     then
       let s' := mkSession (sess_studentId s) (sess_studentName s) (sess_email s)
                           (sess_activeSessionToken s) (sess_loginAt s)
                           (sess_expiresAt s) (Some now) (Some true) in
       mkGuarded (mkBrowser (progress b) (student_id b) (Some s') (storage b))
                 (Some s') None sent
     else mkGuarded (mkBrowser Missing None None (Api.mkStorage None None)) None
                    (if onLoginPage then None
                     else Some "login.html?reason=session_revoked") sent).
Proof.
  intros Hs Hexp due. unfold checkAuth. rewrite Hs, Hexp.
  set (dueb := match sess_lastChecked s with Some t => _ | None => true end).
  assert (Hdue : dueb = true ↔ due).
  { subst dueb due. destruct (sess_lastChecked s) as [t|]; [|done].
    rewrite orb_true_iff, !bool_decide_eq_true. unfold CHECK_INTERVAL_MS. done. }
  split.
  - intros Hnot. destruct dueb; [|done]. destruct Hnot. by apply Hdue.
  - intros Hd. apply Hdue in Hd. rewrite Hd. cbn zeta.
    destruct (Backend.success (API_checkSession outcome)); cbn [negb]; [done|].
    by destruct onLoginPage.
Qed.

(** X20. The server check of [checkAuth].  For a stored session that has
    not expired: when the last check is less than two minutes old, no
    request is sent and the session is returned as it is; otherwise one
    [checkSession] request is sent for the id and the token of the session,
    and an answer without [success] wipes the local data, returns no session
    and sends the page to [login.html?reason=session_revoked], while a
    success (and a request that got no answer) keeps everything, records the
    time of the check and returns the session. *)
Theorem checkAuth_server_check b s now onLoginPage outcome :
  getSession b = Some s → expired s now = false →
  let g := checkAuth b now onLoginPage outcome in
  let due := match sess_lastChecked s with
             | Some t => t = 0%Z ∨ (2 * 60 * 1000 < now - t)%Z
             | None => True
             end in
  (¬ due → g = mkGuarded b (Some s) None []) ∧
  (due →
   calls g = [CallCheckSession (sess_studentId s) (sess_activeSessionToken s)] ∧
   (Backend.success (API_checkSession outcome) = false →
    after g = mkBrowser Missing None None (Api.mkStorage None None) ∧
    returned g = None ∧
    redirect g = (if onLoginPage then None
                  else Some "login.html?reason=session_revoked")) ∧
   (Backend.success (API_checkSession outcome) = true →
    ∃ s', returned g = Some s' ∧ session (after g) = Some s' ∧
          sess_lastChecked s' = Some now ∧
          sess_studentId s' = sess_studentId s ∧
          sess_activeSessionToken s' = sess_activeSessionToken s ∧
          sess_expiresAt s' = sess_expiresAt s ∧
          progress (after g) = progress b ∧ student_id (after g) = student_id b ∧
          storage (after g) = storage b ∧ redirect g = None)) ∧
  (∀ msg, Backend.success (API_checkSession (FetchNetworkError msg)) = true).
Proof.
  intros Hs Hexp g due.
  destruct (checkAuth_unexpired b s now onLoginPage outcome Hs Hexp) as [Hnot Hdue].
  split; [exact Hnot|]. split; [|done].
  intros Hd. subst g. rewrite (Hdue Hd). cbn zeta.
  destruct (Backend.success (API_checkSession outcome)) eqn:Hok.
  - split; [done|]. split; [done|]. intros _. eexists. repeat split; done.
  - split; [done|]. split; [|done]. intros _. done.
Qed.

(** X21. A second login logs the first device out.  A device holds a
    session for a student whose row a login of another device reaches
    (approved, right password), and that login draws a token other than the
    one of the session.  When the guard of the first device next asks the
    backend (the session has not expired and the last check is more than two
    minutes old), the backend answers without [success], the local data of
    the first device is wiped and its page is sent to
    [login.html?reason=session_revoked]. *)
Theorem second_login_revokes {PF : Platform} st data uuid nowIso clock sheet rowIndex row
    b s t now :
  Backend.reachesRow st clock data sheet rowIndex row →
  Backend.statusOf row = "approved" →
  Backend._hashPassword (Backend.login_password data) (Backend.SALT row) = Backend.HASH row →
  Backend._findRowByColumn sheet Backend.COL_STUDENT_ID (sess_studentId s)
    = Some (rowIndex, row) →
  getSession b = Some s → uuid ≠ sess_activeSessionToken s →
  expired s now = false →
  sess_lastChecked s = Some t → (2 * 60 * 1000 < now - t)%Z →
  let login := Backend._handleLogin st data uuid nowIso clock in
  let answer := Backend._handleCheckSession login.1
                  (Backend.mkSessionData (sess_studentId s) (sess_activeSessionToken s)) in
  let g := checkAuth b now false (FetchOk (Some answer)) in
  Backend.success login.2 = true ∧ Backend.activeSessionToken login.2 = Some uuid ∧
  Backend.reason answer = Some "session_invalid" ∧
  after g = mkBrowser Missing None None (Api.mkStorage None None) ∧
  returned g = None ∧
  redirect g = Some "login.html?reason=session_revoked".
Proof.
  intros Hreach Happ Hhash Hfind Hs Hne Hexp Hlast Hold login answer g.
  destruct (login_password_check st data uuid nowIso clock _ _ _ Hreach Happ) as [Hiff _].
  pose proof (proj2 Hiff Hhash) as Hok. fold login in Hok.
  destruct (login_cases st data uuid nowIso clock)
    as [(_ & sheet0 & i0 & row0 & Hsh & Hf & _ & _ & Hnew & Htok & _)|(Hno & _)];
    [|fold login in Hno; congruence].
  fold login in Hnew, Htok.
  destruct Hreach as (_ & _ & _ & Hsheet & Hfe).
  rewrite Hsheet in Hsh. injection Hsh as <-. rewrite Hfe in Hf. injection Hf as <- <-.
  pose proof (findRow_lookup _ _ _ _ _ Hfind) as [Hge Hrow].
  assert (Hanswer : answer = Backend.reasonResponse "session_invalid").
  { subst answer. unfold Backend._handleCheckSession. rewrite Hnew.
    cbn [Backend.session_studentId Backend.session_activeSessionToken].
    pose proof (findRow_id_cell _ _ _ _ Hfind) as (_ & Hsid & _).
    pose proof Hs as Hs'. unfold getSession in Hs'.
    destruct (session b) as [s0|]; [|done].
    destruct (falsy (sess_studentId s0) || falsy (sess_activeSessionToken s0)
              || bool_decide (sess_loginAt s0 = 0%Z)) eqn:Hf0; [done|].
    injection Hs' as ->. apply orb_false_iff in Hf0 as [Hf0 _]. rewrite Hf0.
    rewrite !(findRow_setRow _ Backend.COL_STUDENT_ID) by done. rewrite Hfind.
    rewrite !(bool_decide_eq_true_2 (rowIndex = rowIndex)) by done.
    change (Backend.statusOf _) with (Backend.statusOf row). rewrite Happ. cbn.
    by rewrite (bool_decide_eq_false_2 (uuid = _)). }
  split; [done|]. split; [done|]. split; [by rewrite Hanswer|].
  destruct (checkAuth_unexpired b s now false (FetchOk (Some answer)) Hs Hexp)
    as (_ & Hdue).
  rewrite Hlast in Hdue. subst g. rewrite Hdue by (by right).
  cbn zeta. unfold API_checkSession. cbn. by rewrite Hanswer.
Qed.

End ClientFacts.

Section ClientExamples.
Import JsString Client Samples HandlerSamples ClientSamples.

Lemma createSession_identity_witness :
  getStudentName aliceBrowser = Some "Alice" ∧
  getStudentId aliceBrowser "20260303" "k3x9q" = (aliceBrowser, aliceId).
Proof.
  pose proof (createSession_identity (PF := evalPlatform) emptyBrowser aliceId "Alice"
                "alice@school.com" "uuid-1" loginTime) as H.
  cbv zeta in H. destruct H as (Hid & Hname & _); [by vm_compute|].
  split; [exact Hname|apply Hid].
Defined.

Lemma session_expires_witness :
  isAuthenticated aliceBrowser (loginTime + 60 * 60 * 1000) = true.
Proof.
  pose proof (session_expires emptyBrowser aliceId "Alice" "alice@school.com" "uuid-1"
                loginTime) as H.
  cbv zeta in H. destruct H as [Hauth _]; [by vm_compute..|].
  apply Hauth. unfold loginTime. lia.
Defined.

Lemma checkAuth_server_check_witness :
  calls (checkAuth aliceBrowser (loginTime + 3 * 60 * 1000) false (FetchHttpError 500))
  = [CallCheckSession aliceId "uuid-1"].
Proof.
  pose proof (checkAuth_server_check aliceBrowser aliceSession (loginTime + 3 * 60 * 1000)
                false (FetchHttpError 500)) as H.
  cbv zeta in H. destruct H as (_ & Hdue & _); [by vm_compute..|].
  apply Hdue. right. by vm_compute.
Defined.

Lemma second_login_revokes_witness :
  redirect (checkAuth aliceBrowser (loginTime + 3 * 60 * 1000) false
              (FetchOk (Some (Backend._handleCheckSession
                                (Backend._handleLogin (PF := evalPlatform) aliceIn aliceLogin
                                   "uuid-2" "2026-03-03T08:02:00.000Z"
                                   (loginTime + 2 * 60 * 1000)).1
                                (Backend.mkSessionData aliceId "uuid-1")))))
  = Some "login.html?reason=session_revoked".
Proof.
  pose proof (second_login_revokes (PF := evalPlatform) aliceIn aliceLogin "uuid-2"
                "2026-03-03T08:02:00.000Z" (loginTime + 2 * 60 * 1000)%Z sheetIn 2%nat
                aliceRowIn aliceBrowser
                aliceSession loginTime (loginTime + 3 * 60 * 1000)) as H.
  cbv zeta in H. apply H.
  - repeat split; by vm_compute.
  - by vm_compute.
  - by vm_compute.
  - by vm_compute.
  - by vm_compute.
  - by vm_compute.
  - by vm_compute.
  - by vm_compute.
  - by vm_compute.
Defined.

End ClientExamples.


(** * Properties of the dashboard cache *)

Section SyncFacts.
Import JsString Client.
Context {PF : Platform}.
Implicit Types (b : Browser).

Lemma getAll_written ls : Progress.getAll (parsed (written ls)) = Progress.getAll ls.
Proof. by destruct ls. Qed.

Lemma getSetResult_written ls s l k :
  Progress.getSetResult (parsed (written ls)) s l k = Progress.getSetResult ls s l k.
Proof. unfold Progress.getSetResult. by rewrite getAll_written. Qed.

(** A prefetch that is given a student id, when its merge throws. *)
Lemma prefetch_fails b studentId dateStr rand now answers :
  studentId ≠ "" → mergeFails (parsed (progress b)) answers = true →
  prefetchDashboardData b studentId dateStr rand now answers = (b, false).
Proof.
  intros Hid Hthrows. unfold prefetchDashboardData. cbn [Api.BACKEND_URL].
  assert (Hf : falsy studentId = false) by (by apply falsy_ne).
  cbv zeta. rewrite !Hf. cbn [fst snd]. by rewrite !Hf, Hthrows.
Qed.

(** A prefetch that is given a student id, when its merge does not throw. *)
Lemma prefetch_run b studentId dateStr rand now answers :
  studentId ≠ "" → mergeFails (parsed (progress b)) answers = false →
  let r := prefetchDashboardData b studentId dateStr rand now answers in
  r.2 = true ∧ student_id r.1 = student_id b ∧ session r.1 = session b ∧
  storage r.1 = Api.mkStorage (Api.syncQueue (storage b))
                              (Some (Api.mkDashboardCache now studentId true)) ∧
  ∀ s l k,
    Progress.getSetResult (parsed (progress r.1)) s l k
    = match remote answers with
      | Some rem =>
          if bool_decide (0 < List.length rem)%nat
          then Progress.getSetResult
                 (Progress._mergeBackendData (parsed (progress b)) rem) s l k
          else Progress.getSetResult (parsed (progress b)) s l k
      | None => Progress.getSetResult (parsed (progress b)) s l k
      end.
Proof.
  intros Hid Hruns r. subst r. unfold prefetchDashboardData. cbn [Api.BACKEND_URL].
  assert (Hf : falsy studentId = false) by (by apply falsy_ne).
  cbv zeta. rewrite !Hf. cbn [fst snd]. rewrite !Hf, Hruns. cbn [fst snd].
  repeat split. intros s l k.
  destruct (profile answers) as [p|]; [destruct (Handlers.p_success p)|];
    destruct (remote answers) as [rem|]; try case_bool_decide; cbn [progress];
    rewrite ?getSetResult_written; done.
Qed.

(** The student id [getStudentId] returns is stored when it returns. *)
Lemma getStudentId_again b dateStr rand :
  let r := getStudentId b dateStr rand in
  r.2 ≠ "" ∧ student_id r.1 = Some r.2 ∧ progress r.1 = progress b ∧
  session r.1 = session b ∧ storage r.1 = storage b.
Proof.
  unfold getStudentId. destruct (falsy (default "" (student_id b))) eqn:Hf; cbn.
  - done.
  - apply bool_decide_eq_false in Hf. split; [done|]. split; [|done].
    destruct (student_id b); [done|]. by destruct Hf.
Qed.

(** Without a valid marker, [syncFromBackend] is a prefetch for the stored
    student id. *)
Lemma syncFromBackend_invalid b id dateStr rand now answers :
  Api._hasValidCache (storage b) = false → student_id b = Some id → id ≠ "" →
  syncFromBackend b dateStr rand now answers
  = prefetchDashboardData b id dateStr rand now answers.
Proof.
  intros Hc Hid Hne. unfold syncFromBackend. rewrite Hc. cbn [Api.BACKEND_URL].
  rewrite (getStudentId_stored b id) by done. cbn [fst snd]. by rewrite falsy_ne.
Qed.

(** X24. The dashboard cache, from one prefetch to the next.  A prefetch
    for a student id that is not empty whose merge throws (it reads a field
    of a [null] of the answer, or a built-in object it reaches makes it
    throw) is ended by its [catch]: it returns false and changes nothing, so
    that no cache marker is written.  Otherwise it returns true and leaves a
    valid cache marker, the student id, the session and the sync queue as
    they were.  From then on [syncFromBackend] returns true and changes
    nothing, whatever the backend would answer.  A result that cannot be
    sent leaves the marker valid; a result that is sent makes it invalid,
    and the next [syncFromBackend] is a prefetch for the student id the
    result was sent under.  Sending a result never touches the stored
    progress. *)
Theorem dashboard_cache_cycle b studentId dateStr rand now answers :
  studentId ≠ "" →
  let r := prefetchDashboardData b studentId dateStr rand now answers in
  (mergeFails (parsed (progress b)) answers = true → r = (b, false)) ∧
  (mergeFails (parsed (progress b)) answers = false →
   r.2 = true ∧ Api._hasValidCache (storage r.1) = true ∧
   student_id r.1 = student_id b ∧ session r.1 = session b ∧
   Api.syncQueue (storage r.1) = Api.syncQueue (storage b) ∧
   (∀ dateStr' rand' now' answers',
      syncFromBackend r.1 dateStr' rand' now' answers' = (r.1, true)) ∧
   (∀ dateStr' rand' now' nowIso outcome subject level set score total timeTaken,
      let sent := syncResult r.1 dateStr' rand' now' nowIso outcome subject level set
                             score total timeTaken in
      progress sent.1 = progress r.1 ∧
      Api._hasValidCache (storage sent.1) = negb (Api.success sent.2) ∧
      (Api.success sent.2 = true →
       ∀ dateStr2 rand2 now2 answers2,
         syncFromBackend sent.1 dateStr2 rand2 now2 answers2
         = prefetchDashboardData sent.1 (getStudentId r.1 dateStr' rand').2
                                 dateStr2 rand2 now2 answers2))).
Proof.
  intros Hid r. split; [by apply prefetch_fails|]. intros Hruns.
  destruct (prefetch_run b studentId dateStr rand now answers Hid Hruns)
    as (Hok & Hsid & Hsess & Hst & _).
  fold r in Hok, Hsid, Hsess, Hst.
  split; [exact Hok|]. split; [by rewrite Hst|]. split; [exact Hsid|].
  split; [exact Hsess|]. split; [by rewrite Hst|]. split.
  { intros. unfold syncFromBackend. by rewrite Hst. }
  intros dateStr' rand' now' nowIso outcome subject level set score total timeTaken sent.
  subst sent. unfold syncResult. cbn [Api.BACKEND_URL].
  destruct (getStudentId_again r.1 dateStr' rand') as (Hne & Hstored & Hp & Hs & Hstor).
  set (g := getStudentId r.1 dateStr' rand') in *.
  unfold Api.syncResult. cbn [Api.BACKEND_URL]. rewrite Hstor, Hst.
  destruct outcome as [body|status|msg]; (split; [exact Hp|]); (split; [done|]);
    [|by cbn..].
  intros _ dateStr2 rand2 now2 answers2. by apply syncFromBackend_invalid.
Qed.

(** X25. A sync keeps the best scores.  When the answer of the backend has
    distinct keys, [syncFromBackend] leaves the entry of each set as it was
    or replaces it by the remote entry of that set, and replaces it only
    when the remote entry wins the comparison of the merge; a set that had
    an entry still has one, with a percentage that is not lower. *)
Theorem syncFromBackend_keeps_best b dateStr rand now answers :
  (∀ rem, remote answers = Some rem → Progress.remoteWf rem) →
  let r := syncFromBackend b dateStr rand now answers in
  ∀ s l k,
    let before := Progress.getSetResult (parsed (progress b)) s l k in
    let after := Progress.getSetResult (parsed (progress r.1)) s l k in
    (after = before ∨
     ∃ rem re, remote answers = Some rem ∧
               Progress.remoteEntryAt rem s l k = Some re ∧
               Progress.remoteWins before re = true ∧
               after = Some (Progress.fromRemote re)) ∧
    (is_Some before →
     is_Some after ∧ (Progress.pctOf before ≤ Progress.pctOf after)%Z).
Proof.
  intros Hwf r s l k before after.
  assert (Hslot : after = before ∨
            ∃ rem, remote answers = Some rem ∧
                   after = Progress.mergedSet k before (Progress.remoteEntryAt rem s l k)).
  { subst after before r. unfold syncFromBackend.
    destruct (Api._hasValidCache (storage b)); [by left|]. cbn [Api.BACKEND_URL].
    destruct (getStudentId_again b dateStr rand) as (Hne & _ & Hp & _).
    set (g := getStudentId b dateStr rand) in *. rewrite falsy_ne by done.
    destruct (mergeFails (parsed (progress g.1)) answers) eqn:Hthrows.
    { rewrite prefetch_fails by done. cbn [fst]. rewrite Hp. by left. }
    destruct (prefetch_run g.1 g.2 dateStr rand now answers Hne Hthrows)
      as (_ & _ & _ & _ & Hget).
    rewrite Hget, Hp. destruct (remote answers) as [rem|] eqn:Hrem; [|by left].
    case_bool_decide; [|by left].
    rewrite merge_getSetResult by (by apply Hwf).
    destruct (Progress.leaves _ s l); [by left|]. right. by exists rem. }
  assert (Hcases : after = before ∨
            ∃ rem re, remote answers = Some rem ∧
                      Progress.remoteEntryAt rem s l k = Some re ∧
                      Progress.remoteWins before re = true ∧
                      after = Some (Progress.fromRemote re)).
  { destruct Hslot as [->|(rem & Hrem & ->)]; [by left|].
    destruct (Progress.remoteEntryAt rem s l k) as [re|] eqn:Hre; [|by left].
    destruct (mergedSet_cases k before re) as [->|[Hwin ->]]; [by left|].
    right. by exists rem, re. }
  split; [exact Hcases|].
  intros Hsome. destruct Hcases as [->|(rem & re & _ & _ & Hwin & ->)]; [done|].
  split; [done|]. rewrite pctOf_fromRemote. by apply remoteWins_pct.
Qed.

End SyncFacts.

(** * Properties of the registration form *)

Section RegisterFacts.
Import JsString Backend Register.
Context {PF : Platform}.

Lemma emailOk_nonempty s seen : emailOk s seen = true → s ≠ "".
Proof. by destruct s. Qed.

(** What the checks of the form leave through. *)
Lemma fieldErrors_nil name email password confirm :
  fieldErrors name email password confirm = [] →
  (2 ≤ String.length name)%nat ∧ _isValidEmail email = true ∧
  (6 ≤ String.length password)%nat ∧ confirm = password.
Proof.
  unfold fieldErrors.
  destruct (falsy name || bool_decide (String.length name < 2)%nat) eqn:Hn; [done|].
  apply orb_false_iff in Hn as [_ Hn%bool_decide_eq_false].
  destruct (falsy email) eqn:He; [done|].
  destruct (_isValidEmail email) eqn:Hv; [|done]. cbn [negb app].
  destruct (falsy password) eqn:Hp; [done|].
  case_bool_decide as Hlen; [by cbn|]. cbn [negb app andb].
  destruct (falsy confirm) eqn:Hc; [done|].
  case_bool_decide as Heq; [|by cbn]. intros _.
  repeat split; (done || lia).
Qed.

(** X26. A registration that passes the form.  When the submit handler of
    the form sends a request, the name has at least two characters, the
    email is valid, the password has at least six characters and equals its
    confirmation; the backend then never answers that a field is missing or
    that the password is weak: it reports a missing sheet, an email that is
    already registered, or it appends a row with the name and the email
    typed, trimmed (the email in lower case), which the lookup by that
    email finds. *)
Theorem register_form_accepted nameInput emailInput password confirm data :
  submit nameInput emailInput password confirm = inr data →
  data = mkRegisterData (trim nameInput) (trim emailInput) password ∧
  (2 ≤ String.length (trim nameInput))%nat ∧ _isValidEmail (trim emailInput) = true ∧
  (6 ≤ String.length password)%nat ∧ confirm = password ∧
  ∀ st uuidId uuidSalt nowIso,
    let r := _handleRegister st data uuidId uuidSalt nowIso in
    match REGISTRATION st with
    | None => r = (st, errorResponse "Registration sheet not found." "SHEET_NOT_FOUND")
    | Some sheet =>
        match _findRowByColumn sheet COL_EMAIL (toLowerCase (trim emailInput)) with
        | Some _ =>
            r = (st, errorResponse "This email is already registered." "EMAIL_EXISTS")
        | None =>
            success r.2 = true ∧
            ∃ row, REGISTRATION r.1 = Some (sheet ++ [row]) ∧
                   NAME row = trim nameInput ∧
                   EMAIL row = toLowerCase (trim emailInput) ∧
                   statusOf row = "pending" ∧
                   _findRowByColumn (sheet ++ [row]) COL_EMAIL (EMAIL row)
                     = Some ((List.length sheet + 2)%nat, row)
        end
    end.
Proof.
  unfold submit. intros Hsub.
  destruct (fieldErrors (trim nameInput) (trim emailInput) password confirm) eqn:Herr;
    [|done].
  injection Hsub as <-.
  destruct (fieldErrors_nil _ _ _ _ Herr) as (Hname & Hvalid & Hpw & Hconf).
  split; [done|]. split; [done|]. split; [done|]. split; [done|]. split; [done|].
  intros st uuidId uuidSalt nowIso. cbv zeta. unfold _handleRegister.
  cbn [reg_name reg_email reg_password].
  assert (Hne : trim emailInput ≠ "") by (by eapply emailOk_nonempty).
  assert (Hnn : trim nameInput ≠ "") by (intros Heq; rewrite Heq in Hname; cbn in Hname; lia).
  assert (Hpn : password ≠ "") by (intros ->; cbn in Hpw; lia).
  rewrite !falsy_ne by done. cbn [orb].
  rewrite bool_decide_eq_false_2 by lia. rewrite !trim_idemp.
  destruct (REGISTRATION st) as [sheet|]; [|done].
  destruct (_findRowByColumn sheet COL_EMAIL (toLowerCase (trim emailInput)))
    as [[i row]|] eqn:Hfind; [done|].
  cbn [fst snd]. split; [done|]. eexists. split; [done|]. cbn [NAME EMAIL].
  split; [done|]. split; [done|]. split; [done|].
  pose proof (register_then_find sheet (mkRegisterData (trim nameInput) (trim emailInput)
                password) uuidId uuidSalt nowIso) as Hthen.
  cbv zeta in Hthen. cbn [reg_email] in Hthen. rewrite trim_idemp in Hthen.
  unfold registeredRow in Hthen. cbn [reg_name reg_email reg_password] in Hthen.
  rewrite !trim_idemp in Hthen. apply Hthen; [|done].
  by rewrite toLowerCase_empty.
Qed.

End RegisterFacts.

(** * Properties of the shuffle *)

Section ShuffleFacts.
Import FisherYates.

Lemma swap_Permutation {A} i j (arr : list A) : swap i j arr ≡ₚ arr.
Proof.
  unfold swap. destruct (arr !! i) as [x|] eqn:Hi; [|done].
  destruct (arr !! j) as [y|] eqn:Hj; [|done]. by apply Permutation_insert_swap.
Qed.

Lemma shuffleLoop_Permutation {A} draw i (arr : list A) : shuffleLoop draw i arr ≡ₚ arr.
Proof.
  revert arr. induction i as [|i IH]; intros arr; [done|].
  cbn [shuffleLoop]. rewrite IH. apply swap_Permutation.
Qed.

Lemma swap_fmap {A B} (f : A → B) i j (arr : list A) :
  swap i j (f <$> arr) = f <$> swap i j arr.
Proof.
  unfold swap. rewrite !list_lookup_fmap.
  destruct (arr !! i) as [x|]; [|done]. destruct (arr !! j) as [y|]; [|done]. cbn.
  by rewrite !list_fmap_insert.
Qed.

Lemma shuffleLoop_fmap {A B} (f : A → B) draw i (arr : list A) :
  shuffleLoop draw i (f <$> arr) = f <$> shuffleLoop draw i arr.
Proof.
  revert arr. induction i as [|i IH]; intros arr; [done|].
  cbn [shuffleLoop]. by rewrite swap_fmap, IH.
Qed.

(** A position above the ones the loop still visits keeps its element. *)
Lemma swap_lookup_above {A} i j k (arr : list A) :
  (i < k)%nat → (j < k)%nat → swap i j arr !! k = arr !! k.
Proof.
  intros Hi Hj. unfold swap. destruct (arr !! i) as [x|]; [|done].
  destruct (arr !! j) as [y|]; [|done].
  rewrite !list_lookup_insert_ne by lia. done.
Qed.

Lemma shuffleLoop_lookup_above {A} draw i k (arr : list A) :
  (∀ n, draw n ≤ n)%nat → (i < k)%nat → shuffleLoop draw i arr !! k = arr !! k.
Proof.
  intros Hdraw. revert arr. induction i as [|i IH]; intros arr Hk; [done|].
  cbn [shuffleLoop]. rewrite IH by lia. apply swap_lookup_above; [lia|].
  pose proof (Hdraw (S i)). lia.
Qed.

Lemma omap_total {A B} (g : A → option B) (f : A → B) (l : list A) :
  (∀ x, x ∈ l → g x = Some (f x)) → omap g l = f <$> l.
Proof.
  induction l as [|x l IH]; intros Hg; [done|]. cbn.
  rewrite (Hg x) by apply list_elem_of_here. cbn. f_equal. apply IH.
  intros y Hy. apply Hg. by apply list_elem_of_further.
Qed.

(** The result is the array read in the order the loop leaves the
    positions in. *)
Lemma shuffle_order {A} draw (arr : list A) :
  shuffle draw arr = Engine.shuffle (shuffle draw (seq 0 (List.length arr))) arr.
Proof.
  destruct arr as [|d rest] eqn:Harr; [done|]. rewrite <- Harr. clear Harr rest.
  set (f := λ i, default d (arr !! i)).
  assert (Hf : arr = f <$> seq 0 (List.length arr)).
  { apply list_eq. intros i. rewrite list_lookup_fmap.
    destruct (arr !! i) as [x|] eqn:Hi.
    - rewrite lookup_seq_lt by (by apply lookup_lt_Some in Hi). cbn. unfold f.
      by rewrite Hi.
    - rewrite lookup_seq_ge by (by apply lookup_ge_None in Hi). done. }
  unfold Engine.shuffle. rewrite (omap_total _ f).
  - unfold shuffle. rewrite length_seq. rewrite Hf at 2. by rewrite shuffleLoop_fmap.
  - intros i Hi. unfold shuffle in Hi. rewrite shuffleLoop_Permutation in Hi.
    apply elem_of_seq in Hi as [_ Hi].
    destruct (lookup_lt_is_Some_2 arr i Hi) as [x Hx]. unfold f. by rewrite Hx.
Qed.

(** X27. The shuffle rearranges.  With draws in range ([draw i] is at most
    [i], as [Math.floor(Math.random() * (i + 1))] is), [shuffle] returns
    the elements of the array in another order: nothing is lost and
    nothing is added.  The last place gets the element the first draw
    picks, and the result is the array read in an order that is a
    rearrangement of its positions. *)
Theorem shuffle_rearranges {A} (draw : nat → nat) (arr : list A) :
  (∀ i, draw i ≤ i)%nat →
  let out := shuffle draw arr in
  let last := (List.length arr - 1)%nat in
  out ≡ₚ arr ∧ List.length out = List.length arr ∧
  out !! last = arr !! draw last ∧
  ∃ order, order ≡ₚ seq 0 (List.length arr) ∧ out = Engine.shuffle order arr.
Proof.
  intros Hdraw out last.
  assert (Hperm : out ≡ₚ arr) by apply shuffleLoop_Permutation.
  split; [exact Hperm|]. split; [by rewrite Hperm|]. split.
  - subst out. unfold shuffle. fold last. destruct last as [|n] eqn:Hlast; [|].
    { cbn [shuffleLoop]. pose proof (Hdraw 0%nat). by replace (draw 0%nat) with 0%nat by lia. }
    cbn [shuffleLoop]. rewrite shuffleLoop_lookup_above by (done || lia).
    unfold swap. destruct (arr !! S n) as [x|] eqn:Hx.
    + assert (Hlt : (draw (S n) < List.length arr)%nat).
      { pose proof (Hdraw (S n)). apply lookup_lt_Some in Hx. lia. }
      destruct (lookup_lt_is_Some_2 arr _ Hlt) as [y Hy]. rewrite Hy.
      destruct (decide (draw (S n) = S n)) as [Heq|Hne].
      * rewrite Heq in *. rewrite list_lookup_insert_eq; [congruence|].
        rewrite length_insert. by apply lookup_lt_Some in Hx.
      * rewrite list_lookup_insert_ne by done.
        rewrite list_lookup_insert_eq; [done|]. by apply lookup_lt_Some in Hx.
    + apply lookup_ge_None in Hx. lia.
  - exists (shuffle draw (seq 0 (List.length arr))). split; [apply shuffleLoop_Permutation|].
    apply shuffle_order.
Qed.

End ShuffleFacts.

Section MoreExamples.
Import JsString Client Samples HandlerSamples ClientSamples.

Lemma dashboard_cache_cycle_witness :
  let cached := (prefetchDashboardData storeBrowser aliceId "20260303" "k3x9q"
                   (loginTime + 1000) answersTenses).1 in
  syncFromBackend cached "20260303" "k3x9q" (loginTime + 2000)
                  (mkPrefetched None None false)
  = (cached, true).
Proof.
  pose proof (dashboard_cache_cycle (PF := evalPlatform) storeBrowser aliceId "20260303"
                "k3x9q" (loginTime + 1000) answersTenses) as H.
  cbv zeta in H. destruct H as (_ & H); [by vm_compute|].
  destruct H as (_ & _ & _ & _ & _ & H & _); [by vm_compute|].
  apply H.
Defined.

(** An answer that holds a [null] where the store has no entry: the merge
    throws, the prefetch returns false and writes no cache marker. *)
Example prefetch_null_entry :
  prefetchDashboardData storeBrowser aliceId "20260303" "k3x9q" (loginTime + 1000)
    (mkPrefetched (Some [("tenses", Progress.RObj [("high", Progress.RObj [("3", None)])])])
                  None false)
  = (storeBrowser, false).
Proof. by vm_compute. Qed.

Lemma syncFromBackend_keeps_best_witness :
  (Progress.pctOf (Progress.getSetResult (parsed (progress storeBrowser)) "tenses" "high" "1")
   ≤ Progress.pctOf
       (Progress.getSetResult
          (parsed (progress (syncFromBackend storeBrowser "20260303" "k3x9q"
                               (loginTime + 1000) answersTenses).1))
          "tenses" "high" "1"))%Z.
Proof.
  pose proof (syncFromBackend_keeps_best storeBrowser "20260303" "k3x9q"
                (loginTime + 1000) answersTenses) as H.
  cbv zeta in H. apply H.
  - intros rem [= <-]. apply remoteTenses_wf.
  - vm_compute. by eexists.
Defined.

Lemma register_form_accepted_witness :
  (2 ≤ String.length (trim " Carol "))%nat ∧
  Register._isValidEmail (trim "Carol@School.com ") = true.
Proof.
  pose proof (register_form_accepted (PF := evalPlatform) " Carol " "Carol@School.com "
                "opensesame" "opensesame"
                (Backend.mkRegisterData "Carol" "Carol@School.com" "opensesame")) as H.
  destruct H as (_ & Hname & Hemail & _); [by vm_compute|]. by split.
Defined.

Lemma shuffle_rearranges_witness :
  FisherYates.shuffle (λ _, 0%nat) ["a"; "b"; "c"] ≡ₚ ["a"; "b"; "c"].
Proof.
  pose proof (shuffle_rearranges (λ _, 0%nat) ["a"; "b"; "c"]) as H.
  cbv zeta in H. destruct H as [H _]; [intros i; lia|]. exact H.
Defined.

Example shuffle_sample :
  FisherYates.shuffle (λ _, 0%nat) ["a"; "b"; "c"] = ["b"; "c"; "a"].
Proof. reflexivity. Qed.

Example isValidEmail_samples :
  Register._isValidEmail "a@b.c" = true ∧ Register._isValidEmail "a@b" = false ∧
  Register._isValidEmail "a b@c.d" = false ∧ Register._isValidEmail "a@b@c.d" = false ∧
  Register._isValidEmail "a@.c" = false ∧ Register._isValidEmail "a@b." = false ∧
  Register._isValidEmail "a@b.c.d" = true.
Proof. by vm_compute. Qed.

End MoreExamples.


(** * Properties of the counters of the dashboard *)

Section StatsFacts.
Import Progress Stats.
Context {PF : Platform}.
Implicit Types (lvl : gmap string Entry) (sub : gmap string (gmap string Entry)).
Implicit Types (m : gmap string (gmap string (gmap string Entry))).

(** The sets counted at a level after an entry is stored. *)
Lemma setsOf_insert lvl set e :
  set ≠ "_meta" →
  List.length (setsOf (<[set := e]> lvl))
  = (List.length (setsOf lvl) + (if lvl !! set is Some _ then 0 else 1))%nat.
Proof.
  intros Hset. unfold setsOf. destruct (lvl !! set) as [old|] eqn:Hold.
  - rewrite <- insert_delete_eq.
    rewrite map_to_list_insert by apply lookup_delete_eq.
    rewrite <- (map_to_list_delete lvl set old Hold).
    rewrite !filter_cons_True by done. cbn. lia.
  - rewrite map_to_list_insert by done. rewrite filter_cons_True by done. cbn. lia.
Qed.

(** The count of a subject as a sum over its levels. *)
Lemma subjectCountOf_sum sub :
  subjectCountOf sub = sum_list_with levelCount (map_to_list sub).
Proof.
  unfold subjectCountOf. generalize (map_to_list sub). intros l.
  assert (H : ∀ a, foldl (λ completed p,
                 if bool_decide (p.1 = "_meta") then completed
                 else (completed + List.length (setsOf p.2))%nat) a l
               = (a + sum_list_with levelCount l)%nat).
  { induction l as [|p l IH]; intros a; cbn; [lia|]. rewrite IH. unfold levelCount.
    case_bool_decide; lia. }
  by rewrite H.
Qed.

Lemma levelCount_insert sub level lvl' :
  sum_list_with levelCount (map_to_list (<[level := lvl']> sub))
  = (sum_list_with levelCount (map_to_list (delete level sub))
     + levelCount (level, lvl'))%nat.
Proof.
  rewrite <- insert_delete_eq.
  rewrite map_to_list_insert by apply lookup_delete_eq. cbn. lia.
Qed.

Lemma levelCount_delete sub level :
  sum_list_with levelCount (map_to_list sub)
  = (sum_list_with levelCount (map_to_list (delete level sub))
     + levelCount (level, default ∅ (sub !! level)))%nat.
Proof.
  destruct (sub !! level) as [lvl|] eqn:Hl.
  - rewrite <- (map_to_list_delete sub level lvl Hl). cbn. lia.
  - rewrite delete_id by done. cbn. unfold levelCount, setsOf. cbn.
    rewrite map_to_list_empty. cbn. case_bool_decide; lia.
Qed.

Lemma completed_levelStatsOf round lvl :
  completed (levelStatsOf round lvl) = List.length (setsOf lvl).
Proof. unfold levelStatsOf. cbv zeta. by case_bool_decide. Qed.

(** What [putEntry] writes on a path of the store. *)
Lemma putEntry_stored m subject level set e :
  leaves m subject level = false →
  set ≠ "__proto__" ∨ is_Some (lookupEntry m subject level set) →
  putEntry m subject level set e
  = <[subject := <[level := <[set := e]> (default ∅ (default ∅ (m !! subject) !! level))]>
                   (default ∅ (m !! subject))]> m.
Proof.
  intros Hin Hset. unfold putEntry, leaves in *. rewrite lookupEntry_level in Hset.
  assert (Hassign : assign (default ∅ (default ∅ (m !! subject) !! level)) set e
                    = <[set := e]> (default ∅ (default ∅ (m !! subject) !! level))).
  { unfold assign. destruct Hset as [Hne|[old Hold]].
    - by rewrite (bool_decide_eq_false_2 (set = "__proto__")).
    - by rewrite Hold, (bool_decide_eq_false_2 (Some old = None)), andb_false_r. }
  destruct (slotOf m subject); [|done|];
    (destruct (slotOf (default ∅ (m !! subject)) level); [|done|]); by rewrite Hassign.
Qed.

Lemma level_default m subject level :
  default ∅ (m !! subject ≫= λ sub, sub !! level)
  = default ∅ (default ∅ (m !! subject) !! level).
Proof. by destruct (m !! subject). Qed.

(** X28. The counters of the dashboard follow the results saved.  Take a
    call of [saveResult] for a subject and a set other than the reserved
    key, on a path of the store (neither the subject nor the level is a
    name that the object holding it inherits without owning it) and a set
    other than an inherited [__proto__].  The number of completed sets
    [getLevelStats] reports for the level of the result is one more than
    before when the set had no entry and the new percentage is not negative,
    and is what it was otherwise: a better result for a set that has an
    entry is not counted twice.  The count [getSubjectStats] reports for the
    subject changes in the same way (for a level other than the reserved
    key).  The statistics of every other level of a subject of the store
    and the count of every other subject than [_meta] are what they were. *)
Theorem stats_count_saved_sets round ls today now subject level set score total timeTaken :
  subject ≠ "_meta" → set ≠ "_meta" →
  leaves (subjects (getAll ls)) subject level = false →
  set ≠ "__proto__" ∨ is_Some (getSetResult ls subject level set) →
  let r := saveResult ls today now subject level set score total timeTaken in
  let added := if bool_decide (getSetResult ls subject level set = None ∧ (0 ≤ r.2)%Z)
               then 1%nat else 0%nat in
  (∃ before after,
     getLevelStats round ls subject level = Some before ∧
     getLevelStats round r.1 subject level = Some after ∧
     completed after = (completed before + added)%nat) ∧
  (level ≠ "_meta" →
   ∃ before,
     getSubjectStats ls subject = Some before ∧
     getSubjectStats r.1 subject = Some (before + added)%nat) ∧
  (∀ s l stats, (s, l) ≠ (subject, level) →
     getLevelStats round ls s l = Some stats →
     getLevelStats round r.1 s l = Some stats) ∧
  (∀ s n, s ≠ subject →
     getSubjectStats ls s = Some n → getSubjectStats r.1 s = Some n).
Proof.
  intros Hsubject Hset Hin Hown r added.
  set (m := subjects (getAll ls)) in *.
  set (sub := default ∅ (m !! subject)).
  set (lvl := default ∅ (sub !! level)).
  assert (Hslot : getSetResult ls subject level set = lvl !! set).
  { unfold getSetResult. fold m. apply lookupEntry_level. }
  assert (Hr : subjects (getAll r.1) = m ∧ added = 0%nat ∨
               (∃ e, subjects (getAll r.1)
                     = <[subject := <[level := <[set := e]> lvl]> sub]> m) ∧
               added = if lvl !! set is Some _ then 0%nat else 1%nat).
  { subst r added. unfold saveResult. cbv zeta. cbn [fst snd getAll subjects default].
    fold m. rewrite Hslot. unfold pctOf. rewrite lookupEntry_level. fold sub lvl.
    case_bool_decide as Hstored.
    - right. split; [eexists; by apply putEntry_stored|]. destruct (lvl !! set) as [old|].
      + by rewrite bool_decide_eq_false_2 by (by intros [? _]).
      + cbn in Hstored. by rewrite bool_decide_eq_true_2.
    - left. split; [done|]. rewrite bool_decide_eq_false_2; [done|].
      intros [Hnone Hpos]. destruct Hstored. by rewrite Hnone. }
  clearbody added r.
  assert (Hs0 : slotOf m subject ≠ Inherited).
  { unfold leaves in Hin. by destruct (slotOf m subject). }
  assert (Hlevels : ∀ ls' s l, getLevelStats round ls' s l =
            if bool_decide (s = "_meta") then None
            else match slotOf (subjects (getAll ls')) s with
                 | Inherited => None
                 | _ => Some (levelStatsOf round
                          (default ∅ (default ∅ (subjects (getAll ls') !! s) !! l)))
                 end).
  { intros ls' s l. unfold getLevelStats. by rewrite level_default. }
  assert (Hbefore : getLevelStats round ls subject level
                    = Some (levelStatsOf round lvl)).
  { rewrite Hlevels. fold m sub lvl. rewrite bool_decide_eq_false_2 by done.
    by destruct (slotOf m subject). }
  assert (Hcount : getSubjectStats ls subject = Some (subjectCountOf sub)).
  { unfold getSubjectStats. by rewrite bool_decide_eq_false_2. }
  destruct Hr as [[Hm ->]|[[e Hm] ->]].
  { split; [|split; [|split]].
    - exists (levelStatsOf round lvl), (levelStatsOf round lvl). rewrite Hbefore.
      split; [done|]. split; [|lia]. rewrite <- Hbefore, !Hlevels. by rewrite Hm.
    - intros _. exists (subjectCountOf sub). split; [done|].
      rewrite Nat.add_0_r, <- Hcount. unfold getSubjectStats. by rewrite Hm.
    - intros s l stats _. rewrite !Hlevels. by rewrite Hm.
    - intros s n _. unfold getSubjectStats. by rewrite Hm. }
  split; [|split; [|split]].
  - exists (levelStatsOf round lvl), (levelStatsOf round (<[set := e]> lvl)).
    split; [done|]. split.
    + rewrite Hlevels, Hm. rewrite bool_decide_eq_false_2 by done.
      rewrite (slotOf_Some _ _ _ (lookup_insert_eq _ _ _)), lookup_insert_eq.
      cbn [default from_option id]. by rewrite lookup_insert_eq.
    + rewrite !completed_levelStatsOf. by apply setsOf_insert.
  - intros Hlevel. exists (subjectCountOf sub). split; [done|].
    unfold getSubjectStats. rewrite bool_decide_eq_false_2 by done. f_equal.
    rewrite Hm, lookup_insert_eq. cbn [default from_option id].
    rewrite !subjectCountOf_sum.
    rewrite levelCount_insert, (levelCount_delete sub level).
    unfold levelCount. cbn [fst snd]. rewrite !bool_decide_eq_false_2 by done.
    fold lvl. rewrite setsOf_insert by done. lia.
  - intros s l stats Hne. rewrite !Hlevels, Hm. case_bool_decide; [done|].
    destruct (decide (s = subject)) as [->|Hs].
    + assert (l ≠ level) by congruence.
      rewrite (slotOf_Some _ _ _ (lookup_insert_eq _ _ _)), lookup_insert_eq.
      cbn [default from_option id]. rewrite lookup_insert_ne by done. fold m sub.
      by destruct (slotOf m subject).
    + rewrite slotOf_insert_ne, lookup_insert_ne by done. done.
  - intros s n Hs. unfold getSubjectStats. rewrite Hm.
    by rewrite lookup_insert_ne.
Qed.

End StatsFacts.

Section StatsExamples.
Import Progress Stats Samples.

Lemma stats_count_saved_sets_witness :
  ∃ before after,
    getLevelStats (λ t n, (2 * t + Z.of_nat n) `div` (2 * Z.of_nat n))%Z
                  storeTenses "tenses" "high" = Some before ∧
    getLevelStats (λ t n, (2 * t + Z.of_nat n) `div` (2 * Z.of_nat n))%Z
      (saveResult (PF := evalPlatform) storeTenses "Mar 4, 2026" 1772600000000
                  "tenses" "high" "2" 4 5 (Some 30%Z)).1 "tenses" "high" = Some after ∧
    completed after = (completed before + 1)%nat.
Proof.
  pose proof (stats_count_saved_sets (PF := evalPlatform)
                (λ t n, (2 * t + Z.of_nat n) `div` (2 * Z.of_nat n))%Z
                storeTenses "Mar 4, 2026" 1772600000000 "tenses" "high" "2" 4 5
                (Some 30%Z)) as H.
  cbv zeta in H. destruct H as [H _]; [done|done|by vm_compute|by left|].
  exact H.
Defined.

Example getLevelStats_sample :
  getLevelStats (λ t n, (2 * t + Z.of_nat n) `div` (2 * Z.of_nat n))%Z
                storeTenses "tenses" "high"
  = Some (mkLevelStats 1 70).
Proof. by vm_compute. Qed.

End StatsExamples.
